(** * SECOP acquisition pipeline: a shallow embedding and its properties

    The development follows the layout of the Python sources: one module
    per source file ([cleaning.py], [parser.py], [api_scraper.py],
    [detail_scraper.py], [main.py]), preceded by the fragment of the Python
    run time they rely on (strings, [float()], data frames).

    Python [str] values are modelled as [string]; characters outside ASCII
    are kept as their UTF-8 bytes and are neither digits nor white space. *)

From Stdlib Require Import ZArith NArith QArith Ascii String List Bool Lia.
From stdpp Require Import base option list gmap strings pretty.

Set Warnings "-register-all".

Local Open Scope string_scope.
Local Open Scope list_scope.

(** ** Python strings *)

Module PyStr.

(** [str.isspace] on the ASCII range: TAB..CR, FS..US and the space. *)
Definition is_space (c : ascii) : bool :=
  let n := nat_of_ascii c in
  ((9 <=? n)%nat && (n <=? 13)%nat) || ((28 <=? n)%nat && (n <=? 32)%nat).

Definition is_digit (c : ascii) : bool :=
  let n := nat_of_ascii c in (48 <=? n)%nat && (n <=? 57)%nat.

Definition is_upper (c : ascii) : bool :=
  let n := nat_of_ascii c in (65 <=? n)%nat && (n <=? 90)%nat.

Definition lower_char (c : ascii) : ascii :=
  if is_upper c then ascii_of_nat (nat_of_ascii c + 32) else c.

Fixpoint map_chars (f : ascii -> ascii) (s : string) : string :=
  match s with
  | EmptyString => EmptyString
  | String c r => String (f c) (map_chars f r)
  end.

(** The second byte of an upper-case letter of Latin-1 (U+00C0..U+00DE
    but the sign U+00D7), whose first byte is 0xC3. *)
Definition is_latin1_upper_tail (c : ascii) : bool :=
  let n := nat_of_ascii c in
  (128 <=? n)%nat && (n <=? 158)%nat && negb (n =? 151)%nat.

(** [s.lower()]: the letters of ASCII and of Latin-1; the case mapping of
    other scripts is not modelled. *)
Fixpoint lower (s : string) : string :=
  match s with
  | EmptyString => EmptyString
  | String c r =>
      match r with
      | String c2 r2 =>
          if Ascii.eqb c "195" && is_latin1_upper_tail c2
          then String c (String (ascii_of_nat (nat_of_ascii c2 + 32)) (lower r2))
          else String (lower_char c) (lower r)
      | EmptyString => String (lower_char c) EmptyString
      end
  end.

Fixpoint drop_while (p : ascii -> bool) (s : string) : string :=
  match s with
  | EmptyString => EmptyString
  | String c r => if p c then drop_while p r else s
  end.

Fixpoint filter_chars (p : ascii -> bool) (s : string) : string :=
  match s with
  | EmptyString => EmptyString
  | String c r => if p c then String c (filter_chars p r) else filter_chars p r
  end.

Fixpoint all_chars (p : ascii -> bool) (s : string) : bool :=
  match s with
  | EmptyString => true
  | String c r => p c && all_chars p r
  end.

Fixpoint has_char (p : ascii -> bool) (s : string) : bool :=
  match s with
  | EmptyString => false
  | String c r => p c || has_char p r
  end.

Definition lstrip_with (p : ascii -> bool) (s : string) : string := drop_while p s.

(** Removes the characters of the class [p] at the end: a character stays
    when something that stays follows it or it is not in the class. *)
Fixpoint rstrip_with (p : ascii -> bool) (s : string) : string :=
  match s with
  | EmptyString => EmptyString
  | String c r =>
      match rstrip_with p r with
      | EmptyString => if p c then EmptyString else String c EmptyString
      | r' => String c r'
      end
  end.

Definition strip_with (p : ascii -> bool) (s : string) : string :=
  rstrip_with p (lstrip_with p s).

(** [s.strip()] *)
Definition strip (s : string) : string := strip_with is_space s.

(** [s.split()]: the words between runs of white space; [word] holds the
    word being read. *)
Fixpoint split_ws_from (word s : string) : list string :=
  let flush := match word with EmptyString => [] | _ => [word] end in
  match s with
  | EmptyString => flush
  | String c r =>
      if is_space c then flush ++ split_ws_from EmptyString r
      else split_ws_from (word ++ String c EmptyString) r
  end.

Definition split_ws (s : string) : list string := split_ws_from EmptyString s.

(** [s.replace(c, "")] for a one-character [c]. *)
Definition remove_char (c : ascii) (s : string) : string :=
  filter_chars (fun x => negb (Ascii.eqb x c)) s.

(** [c in s] for a one-character [c]. *)
Definition contains_char (c : ascii) (s : string) : bool :=
  has_char (Ascii.eqb c) s.

(** [s.split(c)] for a one-character separator: never the empty list. *)
Fixpoint split_char (sep : ascii) (s : string) : list string :=
  match s with
  | EmptyString => [EmptyString]
  | String c r =>
      if Ascii.eqb c sep then EmptyString :: split_char sep r
      else match split_char sep r with
           | [] => [String c EmptyString]
           | h :: t => String c h :: t
           end
  end.

(** The text before the first [c], and the text after it (the whole
    text and nothing when [c] does not occur). *)
Fixpoint before_first (c : ascii) (s : string) : string :=
  match s with
  | EmptyString => EmptyString
  | String x r => if Ascii.eqb x c then EmptyString else String x (before_first c r)
  end.

Fixpoint after_first (c : ascii) (s : string) : string :=
  match s with
  | EmptyString => EmptyString
  | String x r => if Ascii.eqb x c then r else after_first c r
  end.

(** The text after the last [c] (the whole text when [c] does not occur),
    and the text before it (nothing when [c] does not occur). *)
Fixpoint after_last (c : ascii) (s : string) : string :=
  match s with
  | EmptyString => EmptyString
  | String x r =>
      if contains_char c r then after_last c r
      else if Ascii.eqb x c then r else s
  end.

Fixpoint before_last (c : ascii) (s : string) : string :=
  match s with
  | EmptyString => EmptyString
  | String x r => if contains_char c r then String x (before_last c r) else EmptyString
  end.

(** [sep.join(l)] *)
Fixpoint join (sep : string) (l : list string) : string :=
  match l with
  | [] => EmptyString
  | [x] => x
  | x :: r => x ++ sep ++ join sep r
  end.

(** [s.startswith(p)] *)
Definition startswith (p s : string) : bool := String.prefix p s.

(** [sub in s] *)
Fixpoint contains (sub s : string) : bool :=
  String.prefix sub s ||
  match s with
  | EmptyString => false
  | String _ r => contains sub r
  end.

(** [s.replace(old, new)] for a non-empty [old]; [skip] counts the
    characters of a match that are still to be passed over. *)
Fixpoint replace_from (old new : string) (skip : nat) (s : string) : string :=
  match s with
  | EmptyString => EmptyString
  | String c r =>
      match skip with
      | S k => replace_from old new k r
      | O =>
          if String.prefix old s
          then new ++ replace_from old new (String.length old - 1) r
          else String c (replace_from old new 0 r)
      end
  end.

Definition replace (old new s : string) : string := replace_from old new 0 s.

(** [re.sub(p{min,}, repl, s)] for a class of characters [p]: every
    maximal run of at least [min] characters of the class becomes [repl];
    [run] holds the run being read. *)
Fixpoint sub_runs (p : ascii -> bool) (min : nat) (repl run s : string) : string :=
  let flush := if (min <=? String.length run)%nat then repl else run in
  match s with
  | EmptyString => match run with EmptyString => EmptyString | _ => flush end
  | String c r =>
      if p c then sub_runs p min repl (run ++ String c EmptyString) r
      else match run with
           | EmptyString => String c (sub_runs p min repl EmptyString r)
           | _ => flush ++ String c (sub_runs p min repl EmptyString r)
           end
  end.

(** Python truthiness of a string. *)
Definition truthy (s : string) : bool := negb (String.eqb s EmptyString).

End PyStr.

(** ** Python [float()] on strings

    The result is kept as the decimal the text denotes: sign, decimal
    mantissa and power of ten.  CPython rounds that decimal to the nearest
    binary64; the rounding is not modelled, a [PFinite] stands for the double
    nearest to its decimal value (what the same Python literal denotes). *)

Module PyFloat.
Import PyStr.

Inductive pyfloat : Type :=
| PFinite (neg : bool) (mantissa : N) (exp10 : Z)
| PInf (neg : bool)
| PNan.

Definition pyfloat_eqb (a b : pyfloat) : bool :=
  match a, b with
  | PFinite n1 m1 e1, PFinite n2 m2 e2 =>
      Bool.eqb n1 n2 && N.eqb m1 m2 && Z.eqb e1 e2
  | PInf n1, PInf n2 => Bool.eqb n1 n2
  | PNan, PNan => true
  | _, _ => false
  end.

(** The decimal value of a finite float, as a rational. *)
Definition value (f : pyfloat) : option Q :=
  match f with
  | PFinite neg m e =>
      let q := (inject_Z (Z.of_N m) * Qpower (10 # 1) e)%Q in
      Some (Qred (if neg then Qopp q else q))
  | _ => None
  end.

Definition digit_val (c : ascii) : N := N.of_nat (nat_of_ascii c - 48).

(** Reads the longest run of digits: the digits read so far as a number,
    how many were read, and the rest of the text. *)
Fixpoint read_digits (acc : N) (cnt : nat) (s : string) : N * nat * string :=
  match s with
  | String c r =>
      if is_digit c then read_digits (acc * 10 + digit_val c) (S cnt) r
      else (acc, cnt, s)
  | EmptyString => (acc, cnt, s)
  end.

(** The exponent part [e[+-]digits] when the text starts with one; a text
    that does not is left whole (the conversion then stops before it). *)
Definition read_exponent (s : string) : Z * string :=
  match s with
  | String c r =>
      if Ascii.eqb c "e" || Ascii.eqb c "E" then
        let '(eneg, r1) :=
          match r with
          | String "-" r' => (true, r')
          | String "+" r' => (false, r')
          | _ => (false, r)
          end in
        let '(e, n, r2) := read_digits 0 0 r1 in
        match n with
        | O => (0%Z, s)
        | _ => ((if eneg then - Z.of_N e else Z.of_N e)%Z, r2)
        end
      else (0%Z, s)
  | EmptyString => (0%Z, s)
  end.

Definition read_sign (s : string) : bool * string :=
  match s with
  | String "-" r => (true, r)
  | String "+" r => (false, r)
  | _ => (false, s)
  end.

(** The C conversion behind [float()]: sign, then [inf], [infinity] or
    [nan] in any case, or a decimal with an optional exponent; the whole
    text has to be used. *)
Definition strtod (s : string) : option pyfloat :=
  let '(neg, r) := read_sign s in
  let w := lower r in
  if String.eqb w "inf" || String.eqb w "infinity" then Some (PInf neg)
  else if String.eqb w "nan" then Some PNan
  else
    let '(i, ni, r1) := read_digits 0 0 r in
    let '(m, nf, r2) :=
      match r1 with
      | String "." r' => read_digits i 0 r'
      | _ => (i, 0%nat, r1)
      end in
    match (ni + nf)%nat with
    | O => None
    | _ =>
        let '(e, r3) := read_exponent r2 in
        match r3 with
        | EmptyString => Some (PFinite neg m (e - Z.of_nat nf))
        | _ => None
        end
    end.

(** An underscore is accepted only between two digits. *)
Fixpoint underscores_ok (prev : ascii) (s : string) : bool :=
  match s with
  | EmptyString => negb (Ascii.eqb prev "_")
  | String c r =>
      (if Ascii.eqb c "_" then is_digit prev
       else negb (Ascii.eqb prev "_") || is_digit c)
      && underscores_ok c r
  end.

(** [float(s)]: [None] stands for [ValueError]. *)
Definition float_of_string (s : string) : option pyfloat :=
  let t := strip s in
  if underscores_ok "000" t then strtod (remove_char "_" t) else None.

End PyFloat.

(** ** exceptions.py *)

Module Exceptions.

(** The classes of [exceptions.py], and the built-in or third-party
    classes the pipeline meets. *)
Inductive exn_class : Type :=
| SecopError
| SecopTimeoutError
| SecopRecaptchaError
| SecopIframeError
| SecopEmptyTableError
| SecopFormError
| SecopPaginationError
| SecopParsingError
| SecopExportError
| ValueError
| TypeError
| UnboundLocalError
| ImportError
| WebDriverException
| OtherException (name : string).

#[global] Instance exn_class_eq_dec : EqDecision exn_class.
Proof. solve_decision. Defined.

(** The direct base class; [None] is [Exception] itself. *)
Definition base (c : exn_class) : option exn_class :=
  match c with
  | SecopTimeoutError | SecopRecaptchaError | SecopIframeError
  | SecopEmptyTableError | SecopFormError | SecopPaginationError
  | SecopParsingError | SecopExportError => Some SecopError
  | _ => None
  end.

(** [issubclass(c, d)]; the hierarchy is two levels deep. *)
Definition issubclass (c d : exn_class) : bool :=
  bool_decide (c = d) || bool_decide (base c = Some d).

(** Values stored in the [context] dictionary of a [SecopError]. *)
Inductive ctx_value : Type :=
| CtxInt (n : Z)
| CtxStrings (l : list string).

Record exn : Type := mk_exn {
  exn_cls : exn_class;
  exn_message : string;
  exn_context : list (string * ctx_value)
}.

(** [isinstance(e, d)] *)
Definition isinstance (e : exn) (d : exn_class) : bool :=
  issubclass (exn_cls e) d.

(** The outcome of a call: a value, or a raised exception. *)
Inductive result (A : Type) : Type :=
| Ok (a : A)
| Raise (e : exn).
Arguments Ok {A} a.
Arguments Raise {A} e.

End Exceptions.

(** ** config.py *)

Module Config.

Definition SECOP_BASE_URL : string := "https://www.contratos.gov.co".
Definition SEL_TABLA_RESULTADOS : string := "table.tbl_resulados".

Definition COLUMNAS_RESULTADO : list string :=
  [ "numero_proceso"; "entidad"; "objeto_contrato"; "modalidad";
    "fecha_apertura"; "fecha_cierre"; "cuantia"; "estado";
    "departamento"; "municipio" ].

Definition COLUMNAS_MONETARIAS : list string :=
  [ "cuantia"; "valor_estimado"; "valor_adjudicado"; "valor_contrato" ].

Definition COLUMNAS_FECHA : list string :=
  [ "fecha_apertura"; "fecha_cierre"; "fecha_adjudicacion"; "fecha_contrato" ].

Definition MAX_PAGES : Z := 200.

Record SearchParams : Type := {
  palabra_clave : option string;
  numero_proceso : option string;
  entidad : option string;
  fecha_inicio : option string;
  fecha_fin : option string;
  objeto : option string;
  modalidad : option string;
  departamento : option string;
  municipio : option string;
  estado : option string;
  familia : option string;
  max_pages : Z
}.

Definition VALOR_DEPTO_SANTANDER : string := "668000".
Definition VALOR_MODALIDAD_MINIMA_CUANTIA : string := "13".
Definition TEXTO_ESTADO_CELEBRADO : string := "Celebrado".

Definition SEARCH_SANTANDER_MINIMA_CELEBRADO : SearchParams :=
  {| palabra_clave := None; numero_proceso := None; entidad := None;
     fecha_inicio := None; fecha_fin := None; objeto := None;
     modalidad := Some VALOR_MODALIDAD_MINIMA_CUANTIA;
     departamento := Some VALOR_DEPTO_SANTANDER;
     municipio := None;
     estado := Some TEXTO_ESTADO_CELEBRADO;
     familia := None; max_pages := MAX_PAGES |}.

End Config.

(** ** The fragment of pandas the pipeline uses

    A frame is kept row by row, its column labels and dtypes apart; the row
    index is the position (every path of the pipeline ends in
    [reset_index(drop=True)] or ignores the index). *)

Module Pandas.
Import PyStr PyFloat Exceptions.

Inductive null_kind : Type := PyNone | NaN | NaT.

Inductive cell : Type :=
| CNull (k : null_kind)
| CStr (s : string)
| CFloat (f : pyfloat)
| CTime (ns : Z)
| CObj (repr : string).

Inductive dtype : Type := DObject | DFloat64 | DDatetime64 | DOther.

#[global] Instance null_kind_eq_dec : EqDecision null_kind.
Proof. solve_decision. Defined.
#[global] Instance pyfloat_eq_dec : EqDecision pyfloat.
Proof. solve_decision. Defined.
#[global] Instance cell_eq_dec : EqDecision cell.
Proof. solve_decision. Defined.
#[global] Instance dtype_eq_dec : EqDecision dtype.
Proof. solve_decision. Defined.

Record frame : Type := mk_frame {
  columns : list (string * dtype);
  rows : list (list cell)
}.

#[global] Instance frame_eq_dec : EqDecision frame.
Proof. solve_decision. Defined.

(** [pd.DataFrame()] *)
Definition empty_frame : frame := mk_frame [] [].

#[global] Instance frame_inhabited : Inhabited frame := populate empty_frame.

(** Every row has one cell per column. *)
Definition well_formed (df : frame) : Prop :=
  Forall (fun r => length r = length (columns df)) (rows df).

Definition labels (df : frame) : list string := map fst (columns df).

(** [len(df)] and [df.empty] *)
Definition len (df : frame) : nat := length (rows df).

Definition is_empty (df : frame) : bool :=
  match columns df, rows df with
  | [], _ | _, [] => true
  | _, _ => false
  end.

(** [pd.isna] on a scalar. *)
Definition isna (c : cell) : bool :=
  match c with CNull _ => true | _ => false end.

Definition cell_of_float (f : pyfloat) : cell :=
  match f with PNan => CNull NaN | _ => CFloat f end.

(** The part of the Python libraries whose results the model takes as
    given: the text of a float and of a time stamp, the date parser of
    pandas and [urllib.parse.urljoin]. *)
Class PyLib : Type := {
  float_repr : pyfloat -> string;
  timestamp_str : Z -> string;
  (** [pd.to_datetime(s, format=fmt)] ([Some fmt]) and
      [pd.to_datetime(s, dayfirst=True)] ([None]); [Ok None] is [NaT]. *)
  pd_to_datetime : string -> option string -> result (option Z);
  urljoin : string -> string -> string;
  (** What [pd.read_csv(ruta, dtype=str)] reads from the file [to_csv]
      wrote for a frame. *)
  csv_reload : frame -> frame
}.

(** [str(v)] *)
Definition py_str `{PyLib} (c : cell) : string :=
  match c with
  | CNull PyNone => "None"
  | CNull NaN => "nan"
  | CNull NaT => "NaT"
  | CStr s => s
  | CFloat f => float_repr f
  | CTime t => timestamp_str t
  | CObj r => r
  end.

(** [df.select_dtypes(include=["object"]).columns] *)
Definition select_dtypes_object (df : frame) : list string :=
  map fst (filter (fun c => bool_decide (snd c = DObject)) (columns df)).

(** The positions of the columns labelled [col]. *)
Fixpoint positions_from (i : nat) (col : string) (ls : list string) : list nat :=
  match ls with
  | [] => []
  | l :: r =>
      if String.eqb l col then i :: positions_from (S i) col r
      else positions_from (S i) col r
  end.

Definition positions (df : frame) (col : string) : list nat :=
  positions_from 0 col (labels df).

(** [col in df.columns] *)
Definition has_column (df : frame) (col : string) : bool :=
  bool_decide (col ∈ labels df).

Definition column_at (df : frame) (i : nat) : list cell :=
  map (fun r => default (CNull NaN) (r !! i)) (rows df).

(** Writes the cells [cs] (one per row) and the dtype [dt] at position [i]. *)
Fixpoint write_cells (i : nat) (cs : list cell) (rs : list (list cell))
  : list (list cell) :=
  match rs, cs with
  | r :: rs', c :: cs' => <[i := c]> r :: write_cells i cs' rs'
  | _, _ => rs
  end.

Definition write_column (i : nat) (dt : dtype) (cs : list cell) (df : frame) : frame :=
  mk_frame (alter (fun c => (fst c, dt)) i (columns df))
           (write_cells i cs (rows df)).

(** [df[col] = df[col].map(f)] where the mapped values and their dtype are
    computed by [g] from the whole column; every column that carries the
    label is mapped. *)
Definition assign_map (col : string) (g : list cell -> dtype * list cell)
    (df : frame) : frame :=
  fold_left (fun d i => let '(dt, cs) := g (column_at d i) in write_column i dt cs d)
            (positions df col) df.

(** [df.dropna(how="all")]: a row goes when none of its cells is non-null. *)
Definition dropna_all (df : frame) : frame :=
  mk_frame (columns df) (filter (fun r => existsb (fun c => negb (isna c)) r) (rows df)).

(** The cells of a row under the columns labelled in [cols], in the order
    of [cols]. *)
Definition project (df : frame) (cols : list string) (r : list cell) : list cell :=
  flat_map (fun col => omap (fun i => r !! i) (positions df col)) cols.

(** [df[~mask]] for a mask computed row by row. *)
Definition drop_rows (mask : list cell -> bool) (df : frame) : frame :=
  mk_frame (columns df) (filter (fun r => negb (mask r)) (rows df)).

(** Equality of cells as [factorize] sees it: all nulls are one value. *)
Definition cell_eqb_na (a b : cell) : bool :=
  (isna a && isna b) || bool_decide (a = b).

Fixpoint list_eqb {A} (eqb : A -> A -> bool) (l1 l2 : list A) : bool :=
  match l1, l2 with
  | [], [] => true
  | a :: r1, b :: r2 => eqb a b && list_eqb eqb r1 r2
  | _, _ => false
  end.

(** Equality of two rows on the columns [subset], as [duplicated] decides
    it: with one column among unique labels the values are compared as
    objects, otherwise through [factorize]. *)
Definition same_on (df : frame) (subset : list string) (r1 r2 : list cell) : bool :=
  match subset with
  | [_] =>
      if bool_decide (NoDup (labels df))
      then bool_decide (project df subset r1 = project df subset r2)
      else list_eqb cell_eqb_na (project df subset r1) (project df subset r2)
  | _ => list_eqb cell_eqb_na (project df subset r1) (project df subset r2)
  end.

(** Two rows with the same key. *)
Definition same_key {A K} `{EqDecision K} (key : A -> K) (x y : A) : bool :=
  bool_decide (key x = key y).

(** [keep="first"]: a row goes when a row before it is the same. *)
Fixpoint keep_first {A} (same : A -> A -> bool) (seen l : list A) : list A :=
  match l with
  | [] => []
  | r :: t =>
      if existsb (same r) seen then keep_first same (seen ++ [r]) t
      else r :: keep_first same (seen ++ [r]) t
  end.

(** [keep="last"]: a row goes when a row after it is the same. *)
Fixpoint keep_last {A} (same : A -> A -> bool) (l : list A) : list A :=
  match l with
  | [] => []
  | r :: t =>
      if existsb (same r) t then keep_last same t
      else r :: keep_last same t
  end.

(** [df.drop_duplicates()] *)
Definition drop_duplicates (df : frame) : frame :=
  mk_frame (columns df) (keep_first (same_on df (labels df)) [] (rows df)).

(** [df.drop_duplicates(subset=[col], keep="last")] *)
Definition drop_duplicates_last (col : string) (df : frame) : frame :=
  mk_frame (columns df) (keep_last (same_on df [col]) (rows df)).

(** The labels of all frames, each once, in the order they first appear. *)
Definition union_labels (dfs : list frame) : list string :=
  keep_first String.eqb [] (flat_map labels dfs).

Definition dtype_of (df : frame) (col : string) : option dtype :=
  (fun p => snd (snd p)) <$> list_find (fun c => String.eqb (fst c) col) (columns df).

(** The dtype of a column of the concatenation: the common dtype when the
    frames agree and the dtype can hold the missing cells, else object. *)
Definition concat_dtype (dfs : list frame) (col : string) : dtype :=
  let ds := map (fun d => dtype_of d col) dfs in
  match omap id ds with
  | [] => DObject
  | d :: r =>
      if forallb (fun x => bool_decide (x = d)) r
         && (forallb (fun o => bool_decide (o <> None)) ds
             || bool_decide (d <> DOther))
      then d else DObject
  end.

(** A row of [df] laid out under the labels [ls]; [NaN] where [df] has no
    such column. *)
Definition reindex (ls : list string) (df : frame) (r : list cell) : list cell :=
  map (fun col =>
         match positions df col with
         | i :: _ => default (CNull NaN) (r !! i)
         | [] => CNull NaN
         end) ls.

Definition InvalidIndexError : exn :=
  mk_exn (OtherException "InvalidIndexError")
         "Reindexing only valid with uniquely valued Index objects" [].

Definition NoObjectsToConcatenate : exn :=
  mk_exn ValueError "No objects to concatenate" [].

(** [pd.concat(dfs, ignore_index=True)] *)
Definition concat (dfs : list frame) : result frame :=
  match dfs with
  | [] => Raise NoObjectsToConcatenate
  | d0 :: rest =>
      if forallb (fun d => bool_decide (labels d = labels d0)) rest then
        Ok (mk_frame (map (fun c => (fst c, concat_dtype dfs (fst c))) (columns d0))
                     (flat_map rows dfs))
      else if forallb (fun d => bool_decide (NoDup (labels d))) dfs then
        let ls := union_labels dfs in
        Ok (mk_frame (map (fun l => (l, concat_dtype dfs l)) ls)
                     (flat_map (fun d => map (reindex ls d) (rows d)) dfs))
      else Raise InvalidIndexError
  end.

End Pandas.

(** ** Frames as Python objects

    A variable holds a reference to a frame; [df.copy()] and the indexing
    [df[...]] make a new object, the [inplace=True] methods and the item and
    attribute assignments change the object they are called on.  Functions
    are written in a state and exception monad over the store of frames. *)

Module Heap.
Import Exceptions Pandas.

Abbreviation ref := nat.
Abbreviation heap := (gmap nat frame).

Definition M (A : Type) : Type := heap -> result A * heap.

Definition ret {A} (a : A) : M A := fun h => (Ok a, h).

Definition bind {A B} (m : M A) (k : A -> M B) : M B :=
  fun h =>
    match m h with
    | (Ok a, h') => k a h'
    | (Raise e, h') => (Raise e, h')
    end.

Definition raise {A} (e : exn) : M A := fun h => (Raise e, h).

(** A new object holding [df]. *)
Definition alloc (df : frame) : M ref :=
  fun h => let r := fresh (dom h) in (Ok r, <[r := df]> h).

Definition read (r : ref) : M frame := fun h => (Ok (h !!! r), h).

(** An in-place change of the object [r]. *)
Definition modify (r : ref) (f : frame -> frame) : M unit :=
  fun h => (Ok tt, <[r := f (h !!! r)]> h).

(** An in-place change that may raise; the object is then as before. *)
Definition try_modify (r : ref) (f : frame -> result frame) : M unit :=
  fun h =>
    match f (h !!! r) with
    | Ok d => (Ok tt, <[r := d]> h)
    | Raise e => (Raise e, h)
    end.

(** [df.copy()] *)
Definition copy (r : ref) : M ref := bind (read r) alloc.

(** [for x in l: body(x)] *)
Fixpoint for_each {A} (l : list A) (body : A -> M unit) : M unit :=
  match l with
  | [] => ret tt
  | x :: r => bind (body x) (fun _ => for_each r body)
  end.

End Heap.

Declare Scope py_scope.
Delimit Scope py_scope with py.
Notation "'let*' x := c 'in' k" := (Heap.bind c (fun x => k))
  (at level 10, x binder, c at level 100, k at level 200) : py_scope.
Notation "'do' c 'then' k" := (Heap.bind c (fun _ => k))
  (at level 10, c at level 100, k at level 200) : py_scope.

(** ** cleaning.py *)

Module Cleaning.
Import PyStr PyFloat Exceptions Pandas Heap Config.
Local Open Scope py_scope.

Definition is_nl_cr_tab (c : ascii) : bool :=
  Ascii.eqb c "010" || Ascii.eqb c "013" || Ascii.eqb c "009".

Section WithLibrary.
Context `{PyLib}.

Definition _normalizar_string (valor : cell) : string :=
  if isna valor then ""
  else
    let s := py_str valor in
    let s := sub_runs is_nl_cr_tab 1 " " "" s in
    let s := sub_runs is_space 2 " " "" s in
    strip s.

Definition normalizar_strings (df : ref) : M ref :=
  let* df := copy df in
  let* d := read df in
  let cols_str := select_dtypes_object d in
  do for_each cols_str (fun col =>
       modify df (assign_map col (fun cs =>
         (DObject, map (fun v => CStr (_normalizar_string v)) cs))))
  then ret df.

End WithLibrary.

Definition is_prefix_char (c : ascii) : bool :=
  negb (is_digit c) && negb (Ascii.eqb c "-").

(** The text [s] of [_convertir_moneda_colombiana] once the prefix and
    the spaces are gone. *)
Definition sin_prefijo (valor : string) : string :=
  let s := strip valor in
  let s := drop_while is_prefix_char s in
  remove_char " " s.

Definition _convertir_moneda_colombiana (valor : string) : option pyfloat :=
  if negb (truthy valor) || String.eqb (strip valor) "" then None
  else
    let s := sin_prefijo valor in
    if negb (truthy s) then None
    else if contains_char "," s then
      let partes := split_char "," s in
      let entero := remove_char "." (nth 0 partes "") in
      let decimal := if (1 <? length partes)%nat then nth 1 partes "" else "0" in
      float_of_string (entero ++ "." ++ decimal)
    else if contains_char "." s then
      let partes := split_char "." s in
      let ultima := List.last partes "" in
      if (String.length ultima <=? 2)%nat && (1 <? length partes)%nat then
        let entero := join "" (removelast partes) in
        float_of_string (entero ++ "." ++ ultima)
      else float_of_string (remove_char "." s)
    else float_of_string s.

(** The currency rule in the words of the specification, to be compared
    with the function above: with a comma, what is before the last comma
    is the integer part with its thousands separators and what is after
    it the fraction; with dots only, the last group is the fraction when
    it has at most two characters, else every dot separates thousands. *)
Definition moneda_segun_spec (valor : string) : option pyfloat :=
  if String.eqb (strip valor) "" then None
  else
    let s := sin_prefijo valor in
    if String.eqb s "" then None
    else if contains_char "," s then
      float_of_string (remove_char "." (before_last "," s) ++ "." ++ after_last "," s)
    else if contains_char "." s then
      if (String.length (after_last "." s) <=? 2)%nat
      then float_of_string (remove_char "." (before_last "." s) ++ "." ++ after_last "." s)
      else float_of_string (remove_char "." s)
    else float_of_string s.

(** The column a [map] returning floats or [None] yields: [float64] with
    [NaN] for [None] when a float is present, else the objects as they
    are. *)
Definition infer_float_column (vs : list (option pyfloat)) : dtype * list cell :=
  if existsb (fun v => bool_decide (v <> None)) vs
  then (DFloat64, map (fun v => from_option cell_of_float (CNull NaN) v) vs)
  else (DObject, map (fun _ => CNull PyNone) vs).

Definition _FORMATOS_FECHA : list string :=
  [ "%d/%m/%Y"; "%d-%m-%Y"; "%Y-%m-%d"; "%d/%m/%Y %H:%M";
    "%d/%m/%Y %H:%M:%S"; "%Y-%m-%dT%H:%M:%S" ].

Definition cell_of_timestamp (t : option Z) : cell :=
  match t with Some ns => CTime ns | None => CNull NaT end.

(** The column a [map] returning time stamps or [None] yields. *)
Definition infer_time_column (vs : list (option cell)) : dtype * list cell :=
  if existsb (fun v => bool_decide (v <> None)) vs
  then (DDatetime64, map (fun v => default (CNull NaT) v) vs)
  else (DObject, map (fun _ => CNull PyNone) vs).

(** The values of a list of outcomes, or the first exception among them. *)
Fixpoint all_ok {A} (l : list (result A)) : result (list A) :=
  match l with
  | [] => Ok []
  | Ok a :: r =>
      match all_ok r with Ok t => Ok (a :: t) | Raise e => Raise e end
  | Raise e :: _ => Raise e
  end.

(** [df[col].map(f)] then the assignment to [df[col]], for an [f] that
    may raise: the column is assigned only when every call returned. *)
Definition map_or_raise (col : string) (f : cell -> result (option cell))
    (d : frame) : result frame :=
  match all_ok (map f (flat_map (column_at d) (positions d col))) with
  | Raise e => Raise e
  | Ok _ =>
      Ok (assign_map col (fun cs =>
            infer_time_column
              (map (fun v => match f v with Ok o => o | Raise _ => None end) cs)) d)
  end.

Section WithLibrary.
Context `{PyLib}.

Definition convertir_columnas_monetarias (df : ref) : M ref :=
  let* df := copy df in
  let* d := read df in
  let cols_presentes := filter (fun c => has_column d c) COLUMNAS_MONETARIAS in
  do for_each cols_presentes (fun col =>
       modify df (assign_map col (fun cs =>
         infer_float_column
           (map (fun v => _convertir_moneda_colombiana (py_str v)) cs))))
  then ret df.

(** The loop over the explicit formats, then the inference of pandas:
    [ValueError] and [TypeError] go on to the next attempt, any other
    exception leaves the function. *)
Fixpoint probar_formatos (s : string) (fmts : list string) : result (option cell) :=
  match fmts with
  | [] =>
      match pd_to_datetime s None with
      | Ok t => Ok (Some (cell_of_timestamp t))
      | Raise e =>
          if isinstance e ValueError || isinstance e TypeError
          then Ok None else Raise e
      end
  | fmt :: r =>
      match pd_to_datetime s (Some fmt) with
      | Ok t => Ok (Some (cell_of_timestamp t))
      | Raise e =>
          if isinstance e ValueError || isinstance e TypeError
          then probar_formatos s r else Raise e
      end
  end.

Definition _parsear_fecha (valor : string) : result (option cell) :=
  if negb (truthy valor) || String.eqb (strip valor) "" then Ok None
  else probar_formatos (strip valor) _FORMATOS_FECHA.

Definition convertir_columnas_fecha (df : ref) : M ref :=
  let* df := copy df in
  let* d := read df in
  let cols_presentes := filter (fun c => has_column d c) COLUMNAS_FECHA in
  do for_each cols_presentes (fun col =>
       try_modify df (map_or_raise col (fun v => _parsear_fecha (py_str v))))
  then ret df.

Definition eliminar_filas_vacias (df : ref) : M ref :=
  let* df := copy df in
  do modify df dropna_all then
  let* d := read df in
  let cols_str := select_dtypes_object d in
  let* df :=
    (if (0 <? length cols_str)%nat then
       let mask_vacios := fun row =>
         forallb (fun v => String.eqb (strip (py_str v)) "")
                 (project d cols_str row) in
       alloc (drop_rows mask_vacios d)
     else ret df) in
  ret df.

End WithLibrary.

Definition LengthMismatch (expected got : nat) : exn :=
  mk_exn ValueError "Length mismatch"
    [("expected", CtxInt (Z.of_nat expected)); ("new", CtxInt (Z.of_nat got))].

(** [df.rename(columns=mapeo, inplace=True)] *)
Definition rename (mapeo : gmap string string) (df : frame) : frame :=
  mk_frame (map (fun c => (default (fst c) (mapeo !! fst c), snd c)) (columns df))
           (rows df).

(** [df.columns = nuevas]: [ValueError] unless there is one label per
    column. *)
Definition set_columns (df : ref) (nuevas : list string) : M unit :=
  let* d := read df in
  if bool_decide (length nuevas = length (columns d)) then
    modify df (fun d =>
      mk_frame (zip_with (fun l c => (l, snd c)) nuevas (columns d)) (rows d))
  else raise (LengthMismatch (length (columns d)) (length nuevas)).

(** The truth value of the optional dictionary [mapeo]. *)
Definition mapeo_truthy (mapeo : option (gmap string string)) : option (gmap string string) :=
  match mapeo with
  | Some m => if bool_decide (m = ∅) then None else Some m
  | None => None
  end.

Definition renombrar_columnas (df : ref) (mapeo : option (gmap string string)) : M ref :=
  let* df := copy df in
  let* d := read df in
  do match mapeo_truthy mapeo with
     | Some m => modify df (rename m)
     | None =>
         if bool_decide (labels d <> COLUMNAS_RESULTADO) then
           if forallb (startswith "col_") (labels d) then
             let nuevas := take (length (labels d)) COLUMNAS_RESULTADO in
             set_columns df nuevas
           else ret tt
         else ret tt
     end
  then ret df.

Section WithLibrary.
Context `{PyLib}.

(** The quality report is computed from the result and only logged; it
    is left out, like the logging. *)
Definition limpiar_dataframe (df : ref) (mapeo_columnas : option (gmap string string))
  : M ref :=
  let* df := normalizar_strings df in
  let* df := eliminar_filas_vacias df in
  let* df := renombrar_columnas df mapeo_columnas in
  let* df := convertir_columnas_monetarias df in
  let* df := convertir_columnas_fecha df in
  ret df.

(** A call on a frame given by value: the frame is the only object of
    the store, the result is read back from it. *)
Definition call (f : ref -> M ref) (df : frame) : result frame :=
  match f 0%nat {[ 0%nat := df ]} with
  | (Ok r, h) => Ok (h !!! r)
  | (Raise e, _) => Raise e
  end.

End WithLibrary.

(** *** The frames the calls return

    Each function copies its argument and works on the copy, so what it
    returns is a function of the frame it is given.  The definitions
    below are those functions; [CleaningFacts] relates them to the
    programs above. *)

(** A loop of in-place changes that may raise, on the frame it changes. *)
Fixpoint fold_result {A} (step : A -> frame -> result frame) (l : list A)
    (d : frame) : result frame :=
  match l with
  | [] => Ok d
  | x :: r =>
      match step x d with
      | Ok d' => fold_result step r d'
      | Raise e => Raise e
      end
  end.

Definition and_then {A B} (r : result A) (k : A -> result B) : result B :=
  match r with Ok a => k a | Raise e => Raise e end.

Section WithLibrary.
Context `{PyLib}.

Definition normalizar_strings_val (d : frame) : frame :=
  fold_left (fun d col =>
               assign_map col (fun cs =>
                 (DObject, map (fun v => CStr (_normalizar_string v)) cs)) d)
            (select_dtypes_object d) d.

(** The test of the second step of [eliminar_filas_vacias] on a row. *)
Definition textos_vacios (d : frame) (row : list cell) : bool :=
  forallb (fun v => String.eqb (strip (py_str v)) "")
          (project d (select_dtypes_object d) row).

Definition eliminar_filas_vacias_val (d : frame) : frame :=
  let d := dropna_all d in
  if (0 <? length (select_dtypes_object d))%nat
  then drop_rows (textos_vacios d) d else d.

Definition renombrar_columnas_val (mapeo : option (gmap string string))
    (d : frame) : result frame :=
  match mapeo_truthy mapeo with
  | Some m => Ok (rename m d)
  | None =>
      if bool_decide (labels d <> COLUMNAS_RESULTADO)
         && forallb (startswith "col_") (labels d)
      then
        let nuevas := take (length (labels d)) COLUMNAS_RESULTADO in
        if bool_decide (length nuevas = length (columns d))
        then Ok (mk_frame (zip_with (fun l c => (l, snd c)) nuevas (columns d))
                          (rows d))
        else Raise (LengthMismatch (length (columns d)) (length nuevas))
      else Ok d
  end.

Definition convertir_columnas_monetarias_val (d : frame) : frame :=
  fold_left (fun d col =>
               assign_map col (fun cs =>
                 infer_float_column
                   (map (fun v => _convertir_moneda_colombiana (py_str v)) cs)) d)
            (filter (fun c => has_column d c) COLUMNAS_MONETARIAS) d.

Definition convertir_columnas_fecha_val (d : frame) : result frame :=
  fold_result (fun col => map_or_raise col (fun v => _parsear_fecha (py_str v)))
              (filter (fun c => has_column d c) COLUMNAS_FECHA) d.

Definition limpiar_dataframe_val (mapeo : option (gmap string string))
    (d : frame) : result frame :=
  and_then (renombrar_columnas_val mapeo
              (eliminar_filas_vacias_val (normalizar_strings_val d)))
    (fun d => convertir_columnas_fecha_val (convertir_columnas_monetarias_val d)).

End WithLibrary.

Section WithLibrary.
Context `{PyLib}.

(** A field that is blank or null. *)
Definition en_blanco (c : cell) : bool :=
  isna c || String.eqb (strip (py_str c)) "".

(** The frames string normalization leaves: a value under the label of
    a column of dtype object is a string, and under any other column it
    is null or has a text that is not blank (a number, a time stamp). *)
Definition celda_normalizada (df : frame) (col : string * dtype) (c : cell) : bool :=
  if bool_decide (fst col ∈ select_dtypes_object df)
  then match c with CStr _ => true | _ => false end
  else implb (en_blanco c) (isna c).

Definition normalizado (df : frame) : bool :=
  forallb (fun row =>
             (length row =? length (columns df))%nat
             && forallb (fun p => celda_normalizada df (snd p) (fst p))
                        (zip row (columns df)))
          (rows df).

(** The frames the pipeline gets: every row has one cell per column, and a
    value under a column of another dtype than object is null or has a
    text that is not blank. *)
Definition bien_tipado (df : frame) : bool :=
  forallb (fun row =>
             (length row =? length (columns df))%nat
             && forallb (fun p =>
                           bool_decide (fst (snd p) ∈ select_dtypes_object df)
                           || implb (en_blanco (fst p)) (isna (fst p)))
                        (zip row (columns df)))
          (rows df).

(** What a frame [d] is to the frame [df0] it was made from when the
    positions in [P] have been normalized and the others left alone. *)
Definition normalizado_en (df0 : frame) (P : nat -> Prop) (d : frame) : Prop :=
  labels d = labels df0
  /\ Forall2 (fun r0 r =>
                length r = length r0
                /\ forall i c, r !! i = Some c ->
                     (P i -> exists s, c = CStr s) /\ (~ P i -> r0 !! i = Some c))
             (rows df0) (rows d)
  /\ forall i col, columns d !! i = Some col ->
       (P i -> snd col = DObject) /\ (~ P i -> columns df0 !! i = Some col).

(** The cell at position [i] of a row replaced by its image under [f]. *)
Definition upd (f : cell -> cell) (i : nat) (r : list cell) : list cell :=
  <[i := f (default (CNull NaN) (r !! i))]> r.

(** One step of [assign_map] in [normalizar_strings]. *)
Definition paso_norm (d : frame) (i : nat) : frame :=
  let '(dt, cs) := (DObject, map (fun v => CStr (_normalizar_string v)) (column_at d i)) in
  write_column i dt cs d.

End WithLibrary.

(** The functions of the cleaning pipeline, with the mapping given to the
    two that take one. *)
Definition funciones_de_limpieza `{PyLib} (mapeo : option (gmap string string))
  : list (ref -> M ref) :=
  [ normalizar_strings; eliminar_filas_vacias;
    (fun df => renombrar_columnas df mapeo);
    convertir_columnas_monetarias; convertir_columnas_fecha;
    (fun df => limpiar_dataframe df mapeo) ].

(** [f] is a program that leaves every object of the store as it was and
    returns, in a new object, the frame [v] computes from its argument;
    when [v] raises, so does [f]. *)
Definition devuelve_nuevo (f : ref -> M ref) (v : frame -> result frame) : Prop :=
  forall (h : heap) (r : ref) (d : frame),
    h !! r = Some d ->
    exists h' : heap, h ⊆ h' /\
      match v d with
      | Ok d' => exists r', f r h = (Ok r', h') /\ h !! r' = None /\ h' !! r' = Some d'
      | Raise e => f r h = (Raise e, h')
      end.

End Cleaning.

(** ** The fragment of BeautifulSoup the parser uses

    A parsed document is the tree [BeautifulSoup(html, "html.parser")]
    builds; the text-to-tree step itself is the library's. *)

Module Soup.
Import PyStr.

Inductive node : Type :=
| Text (s : string)
| Tag (name : string) (attrs : list (string * string)) (children : list node).

(** Everything below a node, in document order. *)
Fixpoint descendants (n : node) : list node :=
  match n with
  | Text _ => []
  | Tag _ _ cs => flat_map (fun c => c :: descendants c) cs
  end.

Definition is_tag (name : string) (n : node) : bool :=
  match n with
  | Tag t _ _ => String.eqb t name
  | Text _ => false
  end.

(** [tag.get(key)] *)
Definition get_attr (key : string) (n : node) : option string :=
  match n with
  | Tag _ attrs _ =>
      snd <$> List.find (fun kv => String.eqb (fst kv) key) attrs
  | Text _ => None
  end.

(** [tag.find_all(name)] and [tag.find(name)] *)
Definition find_all (name : string) (n : node) : list node :=
  filter (fun d => is_tag name d) (descendants n).

Definition find (name : string) (n : node) : option node :=
  head (find_all name n).

(** [class_=cls]: one of the classes of the tag is [cls]. *)
Definition has_class (cls : string) (n : node) : bool :=
  match get_attr "class" n with
  | Some v => existsb (String.eqb cls) (split_ws v)
  | None => false
  end.

Definition find_class (name cls : string) (n : node) : option node :=
  head (filter (fun d => is_tag name d && has_class cls d) (descendants n)).

(** [tag.find_all(name, href=True)] *)
Definition find_all_href (name : string) (n : node) : list node :=
  filter (fun d => is_tag name d && bool_decide (get_attr "href" d <> None))
         (descendants n).

Definition text_of (n : node) : option string :=
  match n with Text s => Some s | Tag _ _ _ => None end.

(** [tag.get_text(strip=True)]: the stripped strings below the tag, the
    empty ones left out, joined without a separator. *)
Definition get_text_strip (n : node) : string :=
  join "" (filter (fun s => truthy s)
                  (map strip (omap text_of (descendants n)))).

(** A page as the parser gets it: the length of the text and its tree
    (the root stands for the [BeautifulSoup] object). *)
Record document : Type := mk_document {
  html_length : Z;
  soup : node
}.

End Soup.

(** ** parser.py *)

Module Parser.
Import PyStr Exceptions Pandas Config Soup.

(** [max(l, key=key)]: the first element with the largest key. *)
Fixpoint max_by {A} (key : A -> nat) (best : A) (l : list A) : A :=
  match l with
  | [] => best
  | x :: r => if (key best <? key x)%nat then max_by key x r else max_by key best r
  end.

Definition _encontrar_tabla (soup : node) : option node :=
  let clase_css := replace "table." "" SEL_TABLA_RESULTADOS in
  match find_class "table" clase_css soup with
  | Some tabla => Some tabla
  | None =>
      let tablas := find_all "table" soup in
      let por_filas :=
        match tablas with
        | t :: r =>
            let tabla_mayor := max_by (fun t => length (find_all "tr" t)) t r in
            let num_filas := length (find_all "tr" tabla_mayor) in
            if (1 <? num_filas)%nat then Some tabla_mayor else None
        | [] => None
        end in
      match por_filas with
      | Some tabla => Some tabla
      | None => find "table" soup
      end
  end.

Definition is_az09 (c : ascii) : bool :=
  let n := nat_of_ascii c in
  ((97 <=? n)%nat && (n <=? 122)%nat) || is_digit c.

(** The second byte of one of the letters á é í ó ú ñ ü (first byte 0xC3). *)
Definition is_accent_tail (c : ascii) : bool :=
  existsb (Nat.eqb (nat_of_ascii c)) [161; 169; 173; 179; 186; 177; 188]%nat.

(** [re.sub(r"[^a-záéíóúñü0-9]+", "_", s)]; [inside] tells that the run of
    other characters being read has already given its underscore. *)
Fixpoint sub_otros (inside : bool) (s : string) : string :=
  match s with
  | EmptyString => EmptyString
  | String c r =>
      if is_az09 c then String c (sub_otros false r)
      else
        match r with
        | String c2 r2 =>
            if Ascii.eqb c "195" && is_accent_tail c2
            then String c (String c2 (sub_otros false r2))
            else if inside then sub_otros true r
            else String "_" (sub_otros true r)
        | EmptyString => if inside then EmptyString else "_"
        end
  end.

Definition is_underscore (c : ascii) : bool := Ascii.eqb c "_".

Definition normalizar_encabezado (h : string) : string :=
  let h_clean := sub_otros false (strip (lower h)) in
  strip_with is_underscore (sub_runs is_underscore 1 "_" "" h_clean).

Definition _extraer_encabezados (tabla : node) : list string :=
  let de_thead :=
    match find "thead" tabla with
    | Some thead => map get_text_strip (find_all "th" thead)
    | None => []
    end in
  let encabezados :=
    match de_thead with
    | [] =>
        match find "tr" tabla with
        | Some primera_fila => map get_text_strip (find_all "th" primera_fila)
        | None => []
        end
    | _ => de_thead
    end in
  map normalizar_encabezado encabezados.

(** [tabla.find("tbody") or tabla] *)
Definition contenedor (tabla : node) : node :=
  default tabla (find "tbody" tabla).

Definition _extraer_filas (tabla : node) : list (list string) :=
  flat_map (fun tr =>
    match find_all "td" tr with
    | [] => []
    | celdas =>
        let fila := map get_text_strip celdas in
        if forallb (fun c => String.eqb c "") fila then [] else [fila]
    end) (find_all "tr" (contenedor tabla)).

Section WithLibrary.
Context `{PyLib}.

(** The first link of the row that points to a detail page. *)
Definition url_de_fila (tr : node) : option string :=
  (fun a => urljoin SECOP_BASE_URL (default "" (get_attr "href" a))) <$>
  List.find (fun a =>
               let href := default "" (get_attr "href" a) in
               contains "detalleProceso" href || contains "detalle" (lower href))
            (find_all_href "a" tr).

Definition _extraer_urls_detalle_html (tabla : node) : list (option string) :=
  flat_map (fun tr =>
    match find_all "td" tr with
    | [] => []
    | _ => [url_de_fila tr]
    end) (find_all "tr" (contenedor tabla)).

End WithLibrary.

Definition SinTabla (html_length : Z) : exn :=
  mk_exn SecopParsingError "No se encontró tabla de resultados en el HTML."
         [("html_length", CtxInt html_length)].

Definition SinFilas (encabezados : list string) : exn :=
  mk_exn SecopParsingError "Tabla encontrada pero sin filas de datos."
         [("encabezados", CtxStrings encabezados)].

(** [range(n)] as the texts [col_0], [col_1], ...; the digits come from
    the decimal printer of the library. *)
Definition col_generica (i : nat) : string := "col_" +:+ pretty i.

(** A row brought to [num_cols] cells: filled with empty strings or cut. *)
Definition igualar (num_cols : nat) (fila : list string) : list string :=
  if (length fila <? num_cols)%nat
  then fila ++ replicate (num_cols - length fila) ""
  else if (num_cols <? length fila)%nat then take num_cols fila
  else fila.

(** [df[col] = values]: the columns labelled [col] are replaced, or a new
    last column is added. *)
Definition set_item (col : string) (values : list cell) (df : frame) : frame :=
  match positions df col with
  | [] => mk_frame (columns df ++ [(col, DObject)])
                   (zip_with (fun r v => r ++ [v]) (rows df) values)
  | ps => fold_left (fun d i => write_column i DObject values d) ps df
  end.

Section WithLibrary.
Context `{PyLib}.

Definition parsear_pagina (html : document) : result frame :=
  match _encontrar_tabla (soup html) with
  | None => Raise (SinTabla (html_length html))
  | Some tabla =>
      let encabezados := _extraer_encabezados tabla in
      let filas := _extraer_filas tabla in
      match filas with
      | [] => Raise (SinFilas encabezados)
      | fila0 :: _ =>
          let num_cols := length fila0 in
          let columnas :=
            if bool_decide (encabezados <> []) && (length encabezados =? num_cols)%nat
            then encabezados
            else if (num_cols <=? length COLUMNAS_RESULTADO)%nat
            then take num_cols COLUMNAS_RESULTADO
            else map col_generica (seq 0 num_cols) in
          let filas_normalizadas := map (igualar num_cols) filas in
          let df := mk_frame (map (fun c => (c, DObject)) columnas)
                             (map (map CStr) filas_normalizadas) in
          let urls := _extraer_urls_detalle_html tabla in
          if bool_decide (urls <> []) && (length urls =? len df)%nat
          then Ok (set_item "url_detalle"
                     (map (from_option CStr (CNull PyNone)) urls) df)
          else Ok (set_item "url_detalle"
                     (replicate (len df) (CNull PyNone)) df)
      end
  end.

Definition SinPaginas : exn :=
  mk_exn SecopEmptyTableError "No se recibieron páginas HTML para parsear." [].

Definition NingunaPagina (paginas errores : nat) : exn :=
  mk_exn SecopEmptyTableError
         ("Ninguna de las " +:+ pretty paginas +:+ " páginas produjo datos ("
          +:+ pretty errores +:+ " errores de parsing).") [].

(** The loop over the pages: the frames parsed so far and the count of
    pages given up; an exception that is not a [SecopParsingError]
    leaves the function. *)
Fixpoint parsear_cada_pagina (paginas_html : list document)
    (dataframes : list frame) (errores : nat) : result (list frame * nat) :=
  match paginas_html with
  | [] => Ok (dataframes, errores)
  | html :: r =>
      match parsear_pagina html with
      | Ok df_pagina => parsear_cada_pagina r (dataframes ++ [df_pagina]) errores
      | Raise exc =>
          if isinstance exc SecopParsingError
          then parsear_cada_pagina r dataframes (S errores)
          else Raise exc
      end
  end.

Definition parsear_todas_paginas (paginas_html : list document) : result frame :=
  match paginas_html with
  | [] => Raise SinPaginas
  | _ =>
      match parsear_cada_pagina paginas_html [] 0 with
      | Raise e => Raise e
      | Ok ([], errores) => Raise (NingunaPagina (length paginas_html) errores)
      | Ok (dataframes, _) =>
          match concat dataframes with
          | Raise e => Raise e
          | Ok df_consolidado => Ok (drop_duplicates df_consolidado)
          end
      end
  end.

End WithLibrary.

End Parser.

(** ** api_scraper.py *)

Module ApiScraper.
Import PyStr Exceptions Pandas Config.

Definition MODALIDAD_MAP : gmap string string :=
  list_to_map
    [ ("1",  "Licitación pública");
      ("11", "Selección Abreviada de Menor Cuantía");
      ("9",  "Selección abreviada subasta inversa");
      ("13", "Mínima cuantía");
      ("17", "Selección Abreviada servicios de Salud");
      ("10", "Concurso de méritos abierto");
      ("12", "Contratación directa");
      ("4",  "Contratación régimen especial");
      ("2",  "Contratación Directa (con ofertas)") ].

Definition DEPARTAMENTO_MAP : gmap string string :=
  list_to_map
    [ ("91000",  "Amazonas");
      ("5000",   "Antioquia");
      ("81000",  "Arauca");
      ("8000",   "Atlántico");
      ("1100",   "Bogotá D.C.");
      ("1300",   "Bolívar");
      ("15000",  "Boyacá");
      ("17000",  "Caldas");
      ("1800",   "Caquetá");
      ("85000",  "Casanare");
      ("19000",  "Cauca");
      ("20000",  "Cesar");
      ("27000",  "Chocó");
      ("23000",  "Córdoba");
      ("25000",  "Cundinamarca");
      ("94000",  "Guainía");
      ("95000",  "Guaviare");
      ("41000",  "Huila");
      ("44000",  "La Guajira");
      ("47000",  "Magdalena");
      ("50000",  "Meta");
      ("52000",  "Nariño");
      ("54000",  "Norte De Santander");
      ("86000",  "Putumayo");
      ("63000",  "Quindío");
      ("66000",  "Risaralda");
      ("88000",  "San Andrés, Providencia y Santa Catalina");
      ("668000", "Santander");
      ("70000",  "Sucre");
      ("73000",  "Tolima");
      ("76000",  "Valle del Cauca");
      ("97000",  "Vaupés");
      ("99000",  "Vichada") ].

Definition ESTADO_CELEBRADO_EQUIVALENTES : list string :=
  [ "Cerrado"; "terminado"; "En ejecución"; "Modificado"; "Prorrogado"; "cedido" ].

Definition API_MAX_RECORDS : Z := 300000.

Definition COLUMNAS_API : list string :=
  [ "nombre_entidad"; "nit_entidad"; "departamento"; "ciudad";
    "modalidad_de_contratacion"; "estado_contrato"; "tipo_de_contrato";
    "objeto_del_contrato"; "valor_del_contrato"; "valor_pagado";
    "fecha_de_inicio_del_contrato"; "fecha_de_fin_del_contrato";
    "documento_proveedor"; "proveedor_adjudicado"; "proceso_de_compra";
    "id_contrato"; "urlproceso" ].

(** [pd.DataFrame(columns=COLUMNAS_API)], what [consultar_contratos]
    returns when the count query finds nothing. *)
Definition sin_registros : frame :=
  mk_frame (map (fun c => (c, DObject)) COLUMNAS_API) [].

(** The [modalidad] argument: one text, or a list or tuple of texts. *)
Inductive modalidad_arg : Type :=
| Una (m : string)
| Varias (ms : list string).

(** [d.get(k, k)] *)
Definition get_or_self (d : gmap string string) (k : string) : string :=
  default k (d !! k).

(** ['x'] *)
Definition comillas (x : string) : string := "'" +:+ x +:+ "'".

(** An optional text that is given and not empty. *)
Definition presente (o : option string) : option string :=
  match o with
  | Some x => if truthy x then Some x else None
  | None => None
  end.

Definition cond_departamento (departamento : option string) : list string :=
  match presente departamento with
  | Some d => [ "departamento=" +:+ comillas (get_or_self DEPARTAMENTO_MAP d) ]
  | None => []
  end.

Definition cond_modalidad (modalidad : option modalidad_arg) : list string :=
  match modalidad with
  | Some (Varias ((_ :: _) as ms)) =>
      let mods := map (get_or_self MODALIDAD_MAP) ms in
      let mods_str := join "," (map comillas mods) in
      [ "modalidad_de_contratacion in(" +:+ mods_str +:+ ")" ]
  | Some (Una m) =>
      if truthy m
      then [ "modalidad_de_contratacion=" +:+ comillas (get_or_self MODALIDAD_MAP m) ]
      else []
  | _ => []
  end.

Definition cond_estado (estado : option string) : list string :=
  match presente estado with
  | Some e =>
      if String.eqb (lower e) "celebrado" then
        let estados_str := join "," (map comillas ESTADO_CELEBRADO_EQUIVALENTES) in
        [ "estado_contrato in(" +:+ estados_str +:+ ")" ]
      else [ "estado_contrato=" +:+ comillas e ]
  | None => []
  end.

Definition cond_palabra_clave (palabra_clave : option string) : list string :=
  match presente palabra_clave with
  | Some k => [ "upper(objeto_del_contrato) like upper('%" +:+ k +:+ "%')" ]
  | None => []
  end.

(** The dd/MM/yyyy date as a bound of the start date; a text that is not
    three parts between slashes gives no condition. *)
Definition cond_fecha (fecha : option string) (op hora : string) : list string :=
  match presente fecha with
  | Some f =>
      match split_char "/" f with
      | [p0; p1; p2] =>
          let iso := p2 +:+ "-" +:+ p1 +:+ "-" +:+ p0 +:+ hora in
          [ "fecha_de_inicio_del_contrato " +:+ op +:+ " " +:+ comillas iso ]
      | _ => []
      end
  | None => []
  end.

Definition _construir_where
    (departamento : option string) (modalidad : option modalidad_arg)
    (estado palabra_clave fecha_inicio fecha_fin : option string) : string :=
  let condiciones :=
    cond_departamento departamento ++ cond_modalidad modalidad
    ++ cond_estado estado ++ cond_palabra_clave palabra_clave
    ++ cond_fecha fecha_inicio ">=" "T00:00:00"
    ++ cond_fecha fecha_fin "<=" "T23:59:59" in
  join " AND " condiciones.

(** What [consultar_contratos] asks the service: the predicate of the
    count query (no dates), the predicate of the page queries and the
    largest number of records.  The requests themselves belong to the
    environment of a run. *)
Record consulta : Type := mk_consulta {
  where_total : string;
  where_paginas : string;
  max_registros : Z
}.

Definition consulta_de_contratos
    (departamento : option string) (modalidad : option modalidad_arg)
    (estado palabra_clave fecha_inicio fecha_fin : option string)
    (max_registros : Z) : consulta :=
  mk_consulta
    (_construir_where departamento modalidad estado palabra_clave None None)
    (_construir_where departamento modalidad estado palabra_clave fecha_inicio fecha_fin)
    max_registros.

(** The query [consultar_desde_params] makes. *)
Definition consulta_desde_params (params : SearchParams) : consulta :=
  consulta_de_contratos
    (departamento params) (Una <$> modalidad params) (estado params)
    (palabra_clave params) (fecha_inicio params) (fecha_fin params)
    (max_pages params * 25).

End ApiScraper.

(** ** detail_scraper.py *)

Module DetailScraper.
Import PyStr Exceptions Pandas.

(** The files of frames: a path is mapped to the frame a reader gets. *)
Abbreviation filesystem := (gmap string frame).

Definition last_component (ruta : string) : string :=
  List.last (filter (fun c => truthy c) (split_char "/" ruta)) "".

(** The position after the last dot of [name], counted from the end. *)
Definition ext_of (name : string) : string := List.last (split_char "." name) "".

(** [Path(ruta).suffix]: from the last dot of the name on, unless the dot
    is the first or the last character of the name. *)
Definition path_suffix (ruta : string) : string :=
  let name := last_component ruta in
  let ext := ext_of name in
  if contains_char "." name
     && (0 <? String.length ext)%nat
     && (String.length ext + 1 <? String.length name)%nat
  then "." +:+ ext else "".

Definition is_parquet (ruta : string) : bool :=
  String.eqb (path_suffix ruta) ".parquet".

Section WithLibrary.
Context `{PyLib}.

(** [to_parquet] keeps the frame; [to_csv] keeps its text. *)
Definition guardar (ruta : string) (df : frame) (fs : filesystem) : filesystem :=
  <[ruta := if is_parquet ruta then df else csv_reload df]> fs.

Definition actualizar_base_historica
    (nuevos : frame) (ruta_historica : string) (columna_clave : string)
    (fs : filesystem) : result frame * filesystem :=
  let historica := default empty_frame (fs !! ruta_historica) in
  match concat [historica; nuevos] with
  | Raise e => (Raise e, fs)
  | Ok combinado =>
      let combinado :=
        if has_column combinado columna_clave
        then drop_duplicates_last columna_clave combinado
        else combinado in
      (Ok combinado, guardar ruta_historica combinado fs)
  end.

End WithLibrary.

Definition columna_clave_default : string := "numero_proceso".

(** The keys of a frame: the value of every row under the key column. *)
Definition claves (df : frame) (clave : string) : list (list cell) :=
  map (project df [clave]) (rows df).

End DetailScraper.

(** ** main.py: the search mode *)

Module Main.
Import PyStr Exceptions Pandas Config Soup Parser Cleaning ApiScraper DetailScraper.

(** The command-line arguments [ejecutar_modo_busqueda] reads. *)
Record Namespace : Type := {
  arg_palabra_clave : option string;
  arg_numero_proceso : option string;
  arg_entidad : option string;
  arg_fecha_inicio : option string;
  arg_fecha_fin : option string;
  arg_objeto : option string;
  arg_modalidad : option string;
  arg_departamento : option string;
  arg_municipio : option string;
  arg_estado : option string;
  arg_max_paginas : Z;
  arg_salida : option string;
  arg_historica : option string
}.

Definition args_a_search_params (args : Namespace) : SearchParams :=
  {| palabra_clave := arg_palabra_clave args;
     numero_proceso := arg_numero_proceso args;
     entidad := arg_entidad args;
     fecha_inicio := arg_fecha_inicio args;
     fecha_fin := arg_fecha_fin args;
     objeto := arg_objeto args;
     modalidad := arg_modalidad args;
     departamento := arg_departamento args;
     municipio := arg_municipio args;
     estado := arg_estado args;
     familia := None;
     max_pages := arg_max_paginas args |}.

(** What the world outside the process does during one run: each field is
    the outcome of the call of that name ([None]: no exception). *)
Record entorno : Type := {
  generar_ruta_salida : option string -> result string;
  importar_selenium : option exn;
  crear_driver : option exn;
  ejecutar_scraping : SearchParams -> result (list document * list string);
  driver_quit : option exn;
  consultar_contratos : consulta -> result frame;
  to_csv : option exn
}.

(** What a run does that can be seen from outside, in order. *)
Inductive evento : Type :=
| NavegadorCerrado
| AvisoFalloSelenium (exc_selenium : exn)
| ConsultaApi (q : consulta)
| SinResultadosApi
| ErrorApi (exc_api : exn)
| ErrorCombinado (exc_selenium exc_api : exn)
| Exportado (ruta : string) (df : frame)
| HistoricaActualizada (ruta : string)
| VistaPrevia (df : frame).

(** A source step: what it did, the outcome and the files after it. *)
Definition paso (A : Type) : Type := list evento * result A * filesystem.

Definition UnboundLocal (name : string) : exn :=
  mk_exn UnboundLocalError
    ("cannot access local variable '" +:+ name
     +:+ "' where it is not associated with a value") [].

(** [scraper.cerrar_driver]: only a [WebDriverException] of [quit] is
    caught. *)
Definition cerrar_driver (env : entorno) : list evento * option exn :=
  match driver_quit env with
  | None => ([NavegadorCerrado], None)
  | Some exc =>
      if isinstance exc WebDriverException then ([], None) else ([], Some exc)
  end.

Section WithLibrary.
Context `{PyLib}.

(** The body of the inner [try] of the first attempt: the value of
    [df_limpio] when it ends and the exception it ends with, if any. *)
Definition cuerpo_selenium (env : entorno) (params : SearchParams)
  : option frame * option exn :=
  match ejecutar_scraping env params with
  | Raise e => (None, Some e)
  | Ok (paginas_html, _) =>
      match parsear_todas_paginas paginas_html with
      | Raise e => (None, Some e)
      | Ok df_crudo =>
          match call (fun df => limpiar_dataframe df None) df_crudo with
          | Raise e => (None, Some e)
          | Ok df_limpio => (Some df_limpio, None)
          end
      end
  end.

(** The outer [try] of the first attempt with its [finally]: an
    exception of [cerrar_driver] replaces the one of the body. *)
Definition intento_selenium (env : entorno) (params : SearchParams)
  : list evento * option frame * option exn :=
  match importar_selenium env with
  | Some e => ([], None, Some e)
  | None =>
      match crear_driver env with
      | Some e => ([], None, Some e)
      | None =>
          let '(df_limpio, exc) := cuerpo_selenium env params in
          let '(evs, exc_cierre) := cerrar_driver env in
          (evs, df_limpio, match exc_cierre with Some e => Some e | None => exc end)
      end
  end.

(** [df_limpio is None or df_limpio.empty] *)
Definition falta_resultado (df_limpio : option frame) : bool :=
  match df_limpio with
  | None => true
  | Some df => is_empty df
  end.

(** The export, the optional update of the historical store and the
    summary. *)
Definition exportar (env : entorno) (args : Namespace) (ruta_salida : string)
    (df_limpio : frame) (fs : filesystem) : paso Z :=
  match to_csv env with
  | Some e => ([], Raise e, fs)
  | None =>
      let fs := <[ruta_salida := csv_reload df_limpio]> fs in
      let evs := [Exportado ruta_salida df_limpio] in
      match presente (arg_historica args) with
      | Some ruta =>
          match actualizar_base_historica df_limpio ruta columna_clave_default fs with
          | (Raise e, fs) => (evs, Raise e, fs)
          | (Ok _, fs) =>
              (evs ++ [HistoricaActualizada ruta; VistaPrevia df_limpio], Ok 0%Z, fs)
          end
      | None => (evs ++ [VistaPrevia df_limpio], Ok 0%Z, fs)
      end
  end.

(** The handler [except Exception as exc_api]: the message it prints
    reads the variable [exc_selenium]. *)
Definition manejar_error_api (exc_selenium : option exn) (exc_api : exn)
    (fs : filesystem) : paso Z :=
  match exc_selenium with
  | Some exc_sel => ([ErrorApi exc_api; ErrorCombinado exc_sel exc_api], Ok 1%Z, fs)
  | None => ([ErrorApi exc_api], Raise (UnboundLocal "exc_selenium"), fs)
  end.

(** The second attempt, the query of the open-data service. *)
Definition intento_api (env : entorno) (args : Namespace) (params : SearchParams)
    (ruta_salida : string) (exc_selenium : option exn) (fs : filesystem) : paso Z :=
  let q := consulta_desde_params params in
  match consultar_contratos env q with
  | Raise exc_api =>
      let '(evs, r, fs) := manejar_error_api exc_selenium exc_api fs in
      (ConsultaApi q :: evs, r, fs)
  | Ok df_api =>
      if is_empty df_api then ([ConsultaApi q; SinResultadosApi], Ok 0%Z, fs)
      else
        match call (fun df => limpiar_dataframe df None) df_api with
        | Raise exc_api =>
            let '(evs, r, fs) := manejar_error_api exc_selenium exc_api fs in
            (ConsultaApi q :: evs, r, fs)
        | Ok df_limpio =>
            let '(evs, r, fs) := exportar env args ruta_salida df_limpio fs in
            (ConsultaApi q :: evs, r, fs)
        end
  end.

(** The name a handler binds with [as] is deleted when the handler
    ends, and was never bound when the handler did not run: after the
    first attempt [exc_selenium] holds nothing. *)
Definition exc_selenium_tras_intento (exc : option exn) : option exn := None.

Definition ejecutar_modo_busqueda (env : entorno) (args : Namespace)
    (fs : filesystem) : paso Z :=
  let params := args_a_search_params args in
  match generar_ruta_salida env (arg_salida args) with
  | Raise e => ([], Raise e, fs)
  | Ok ruta_salida =>
      let '(evs1, df_limpio, exc) := intento_selenium env params in
      let evs2 := match exc with
                  | Some exc_selenium => [AvisoFalloSelenium exc_selenium]
                  | None => []
                  end in
      let exc_selenium := exc_selenium_tras_intento exc in
      let '(evs3, r, fs) :=
        if falta_resultado df_limpio
        then intento_api env args params ruta_salida exc_selenium fs
        else exportar env args ruta_salida (default empty_frame df_limpio) fs in
      (evs1 ++ evs2 ++ evs3, r, fs)
  end.

End WithLibrary.

(** How many times the run called the open-data service. *)
Definition es_consulta_api (e : evento) : bool :=
  match e with ConsultaApi _ => true | _ => false end.

Definition es_exportado (e : evento) : bool :=
  match e with Exportado _ _ => true | _ => false end.

Definition consultas_api (evs : list evento) : nat :=
  length (List.filter es_consulta_api evs).

Definition exportaciones (evs : list evento) : nat :=
  length (List.filter es_exportado evs).

End Main.

(** ** A library for the examples

    The statements below hold for every [PyLib]; the examples are run with
    this one: floats are printed as mantissa and exponent, time stamps as
    their number, no text is recognised as a date, a link is appended to the
    base address and a frame is read back from its CSV file as it was. *)

Module Ejemplos.
Import PyStr PyFloat Exceptions Pandas Config Soup Parser ApiScraper Main.

Definition float_repr_ejemplo (f : pyfloat) : string :=
  match f with
  | PFinite neg m e =>
      (if neg then "-" else "") +:+ pretty m +:+ "e" +:+ pretty e
  | PInf neg => if neg then "-inf" else "inf"
  | PNan => "nan"
  end.

Definition lib_ejemplo : PyLib :=
  {| float_repr := float_repr_ejemplo;
     timestamp_str := fun ns => pretty ns;
     pd_to_datetime := fun s _ =>
       Raise (mk_exn ValueError ("time data " +:+ s +:+ " is not a date") []);
     urljoin := fun base href => base +:+ href;
     csv_reload := fun df => df |}.


Definition td (s : string) : node := Tag "td" [] [Text s].
Definition th (s : string) : node := Tag "th" [] [Text s].

(** A results page with one contract. *)
Definition pagina_un_contrato : document :=
  mk_document 412
    (Tag "[document]" []
       [Tag "html" []
          [Tag "body" []
             [Tag "table" [("class", "tbl_resulados")]
                [Tag "tr" [] [th "Numero Proceso"; th "Entidad"; th "Cuantia"];
                 Tag "tr" []
                   [Tag "td" []
                      [Tag "a" [("href", "/consultas/detalleProceso.do?numConstancia=25-13-1")]
                         [Text " MC-001-2025 "]];
                    td "ALCALDIA DE BUCARAMANGA";
                    td "$1.234.567"]]]]]).

(** A page without any table, and a page whose table has a header only. *)
Definition pagina_sin_tabla : document :=
  mk_document 58
    (Tag "[document]" []
       [Tag "html" [] [Tag "body" [] [Tag "p" [] [Text "Sin resultados"]]]]).

Definition pagina_tabla_vacia : document :=
  mk_document 97
    (Tag "[document]" []
       [Tag "html" []
          [Tag "body" []
             [Tag "table" [("class", "tbl_resulados")]
                [Tag "tr" [] [th "Numero Proceso"; th "Entidad"]]]]]).

Definition sin_argumentos : Namespace :=
  {| arg_palabra_clave := None; arg_numero_proceso := None; arg_entidad := None;
     arg_fecha_inicio := None; arg_fecha_fin := None; arg_objeto := None;
     arg_modalidad := None; arg_departamento := None; arg_municipio := None;
     arg_estado := None; arg_max_paginas := 200;
     arg_salida := Some "output/resultados.csv"; arg_historica := None |}.

Definition un_registro_api : frame :=
  mk_frame [("nombre_entidad", DObject); ("valor_del_contrato", DObject)]
           [[CStr "ALCALDIA DE GIRON"; CStr "2500000"]].

(** A run in which every call succeeds and the portal shows one page. *)
Definition entorno_sin_fallos : entorno :=
  {| generar_ruta_salida := fun salida => Ok (default "output/secop.csv" salida);
     importar_selenium := None;
     crear_driver := None;
     ejecutar_scraping := fun _ => Ok ([pagina_un_contrato], []);
     driver_quit := None;
     consultar_contratos := fun _ => Ok un_registro_api;
     to_csv := None |}.

(** The same run, but closing the browser fails with an exception that is
    not a [WebDriverException]. *)
Definition entorno_cierre_falla : entorno :=
  {| generar_ruta_salida := generar_ruta_salida entorno_sin_fallos;
     importar_selenium := None;
     crear_driver := None;
     ejecutar_scraping := ejecutar_scraping entorno_sin_fallos;
     driver_quit := Some (mk_exn (OtherException "MaxRetryError")
                                 "Max retries exceeded with url: /session" []);
     consultar_contratos := consultar_contratos entorno_sin_fallos;
     to_csv := None |}.

Definition chrome_no_inicia : exn :=
  mk_exn WebDriverException "unknown error: Chrome failed to start" [].

(** A run in which the browser does not start and the service has no
    record for the query. *)
Definition entorno_sin_datos : entorno :=
  {| generar_ruta_salida := generar_ruta_salida entorno_sin_fallos;
     importar_selenium := None;
     crear_driver := Some chrome_no_inicia;
     ejecutar_scraping := ejecutar_scraping entorno_sin_fallos;
     driver_quit := None;
     consultar_contratos := fun _ => Ok sin_registros;
     to_csv := None |}.



(** A frame of eleven columns with the generic labels the parser gives to
    a table wider than the canonical schema. *)
Definition tabla_generica_11 : frame :=
  mk_frame (map (fun i => (col_generica i, DObject)) (seq 0 11))
           [map (fun i => CStr (pretty i)) (seq 0 11)].

(** A frame with a text column and a column of integers. *)
Definition texto_y_numero : frame :=
  mk_frame [("entidad", DObject); ("anio", DOther)]
           [[CStr ""; CObj "2024"]; [CStr "ALCALDIA"; CObj "2025"]].

(** Two snapshots of the historical store that share the key MC-001. *)
Definition historica_ejemplo : frame :=
  mk_frame [("numero_proceso", DObject); ("estado", DObject)]
           [[CStr "MC-001"; CStr "Convocado"]; [CStr "MC-002"; CStr "Celebrado"]].

Definition nuevos_ejemplo : frame :=
  mk_frame [("numero_proceso", DObject); ("estado", DObject)]
           [[CStr "MC-001"; CStr "Celebrado"]; [CStr "MC-003"; CStr "Convocado"]].

End Ejemplos.

(** ** parser.py: the rows of a table and their links *)

Module ParserFilas.
Import PyStr Exceptions Pandas Soup Parser.

(** The rows [tr] of the table that hold cells [td]. *)
Definition filas_con_celdas (tabla : node) : list node :=
  filter (fun tr => bool_decide (find_all "td" tr <> []))
         (find_all "tr" (contenedor tabla)).

(** Those among them whose cells are all without text: [_extraer_filas]
    leaves them out, [_extraer_urls_detalle_html] does not. *)
Definition filas_en_blanco (tabla : node) : list node :=
  filter (fun tr => forallb (fun c => String.eqb c "")
                            (map get_text_strip (find_all "td" tr)))
         (filas_con_celdas tabla).

Section WithLibrary.
Context `{PyLib}.

(** The frames of the pages that parse, in the order of the pages. *)
Definition frames_de (paginas_html : list document) : list frame :=
  omap (fun html => match parsear_pagina html with
                    | Ok df_pagina => Some df_pagina
                    | Raise _ => None
                    end) paginas_html.

End WithLibrary.

End ParserFilas.

(** Pages for the examples about the parser. *)

Module EjemplosParser.
Import PyStr Exceptions Pandas Soup Parser Ejemplos.

(** A results page whose table ends with a row of empty cells. *)
Definition tabla_fila_en_blanco : node :=
  Tag "table" [("class", "tbl_resulados")]
    [Tag "tr" [] [th "Numero Proceso"; th "Entidad"];
     Tag "tr" []
       [Tag "td" []
          [Tag "a" [("href", "/consultas/detalleProceso.do?numConstancia=25-13-1")]
             [Text "MC-001-2025"]];
        td "ALCALDIA DE BUCARAMANGA"];
     Tag "tr" [] [td ""; td "  "]].

Definition pagina_fila_en_blanco : document :=
  mk_document 350
    (Tag "[document]" [] [Tag "html" [] [Tag "body" [] [tabla_fila_en_blanco]]]).

End EjemplosParser.

(** ** Shapes of texts *)

Module PyStrForma.
Import PyStr.

(** No two characters of the class [p] follow each other in [s]. *)
Fixpoint sin_dobles (p : ascii -> bool) (s : string) : bool :=
  match s with
  | String c r =>
      match r with
      | String d _ => negb (p c && p d) && sin_dobles p r
      | EmptyString => true
      end
  | EmptyString => true
  end.

End PyStrForma.

(** ** cleaning.py: the cells of the currency columns *)

Module CleaningCeldas.
Import PyStr PyFloat Exceptions Pandas Config Cleaning.

Section WithLibrary.
Context `{PyLib}.

(** What the conversion makes of a cell [c] of a currency column. *)
Definition convertida (c c' : cell) : Prop :=
  match _convertir_moneda_colombiana (py_str c) with
  | Some f => c' = cell_of_float f
  | None => isna c' = true
  end.

(** One turn of the loop of [convertir_columnas_monetarias]. *)
Definition paso_monetario (d : frame) (col : string) : frame :=
  assign_map col (fun cs =>
    infer_float_column (map (fun v => _convertir_moneda_colombiana (py_str v)) cs)) d.

(** The state of the loop over the currency columns after the columns
    [hechas]: the cells under them are converted, the others are as in
    the frame [d0] the loop began with. *)
Definition tras_columnas (d0 : frame) (hechas : list string) (d : frame) : Prop :=
  labels d = labels d0
  /\ Forall2 (fun r r' =>
                length r' = length r
                /\ forall j l c, labels d0 !! j = Some l -> r !! j = Some c ->
                     exists c', r' !! j = Some c'
                                /\ (l ∈ hechas -> convertida c c')
                                /\ (l ∉ hechas -> c' = c))
             (rows d0) (rows d).

End WithLibrary.

End CleaningCeldas.

(** Frames for the examples about the cleaning functions. *)

Module EjemplosLimpieza.
Import PyStr Pandas.

(** Two contracts, one with an amount in the Colombian format and one
    without an amount. *)
Definition contratos_con_cuantia : frame :=
  mk_frame [("entidad", DObject); ("cuantia", DObject)]
           [[CStr "ALCALDIA DE GIRON"; CStr "$1.234.567"];
            [CStr "ALCALDIA DE LEBRIJA"; CStr "N/A"]].

End EjemplosLimpieza.

(** ** main.py: what a run shows *)

Module MainEventos.
Import Exceptions Main.

Definition es_navegador_cerrado (e : evento) : bool :=
  match e with NavegadorCerrado => true | _ => false end.

(** How many times the run closed the browser. *)
Definition cierres (evs : list evento) : nat :=
  length (List.filter es_navegador_cerrado evs).


End MainEventos.

(** ** api_scraper.py: the requests of a query *)

Module ApiConsulta.
Import PyStr Exceptions Pandas Config ApiScraper.

Definition DATASET_CONTRATOS : string := "jbjy-vk9h".
Definition API_PAGE_SIZE : Z := 50000.
Definition ORDEN_POR_DEFECTO : string := "fecha_de_inicio_del_contrato DESC".

(** The dictionary [params] of [_fetch_page] with the data set it is sent
    to: [$limit] and [$offset] always, [$where], [$select] and [$order]
    when the text given for them is not empty. *)
Record peticion : Type := mk_peticion {
  pet_dataset : string;
  pet_limit : Z;
  pet_offset : Z;
  pet_where : option string;
  pet_select : option string;
  pet_order : option string
}.

Definition params_de (dataset where_ select : string) (limit offset : Z)
    (order : string) : peticion :=
  mk_peticion dataset limit offset
    (presente (Some where_)) (presente (Some select)) (presente (Some order)).

(** The request of [contar_registros] and the request of one page. *)
Definition peticion_total (where_ : string) : peticion :=
  params_de DATASET_CONTRATOS where_ "count(*) as total" 1 0 "".

Definition peticion_pagina (where_ : string) (limit offset : Z) : peticion :=
  params_de DATASET_CONTRATOS where_ (join "," COLUMNAS_API) limit offset
            ORDEN_POR_DEFECTO.

Section Servicio.

(** A record of the service, as [json.loads] returns it. *)
Variable registro : Type.

(** What the service answers to the [n]-th request of a query (the call
    of [urlopen] and the decoding), and [int(data[0]["total"])] on a
    record of the count. *)
Variable servicio : nat -> peticion -> result (list registro).
Variable leer_total : registro -> result Z.

(** What [consultar_contratos] returns: [pd.DataFrame(columns=COLUMNAS_API)]
    or the frame [pd.DataFrame(all_records)] of the records read. *)
Inductive marco_api : Type :=
| SinColumnas (df : frame)
| DeRegistros (all_records : list registro).

(** The requests made, each with the number of records it was answered
    with ([None] when it raised). *)
Definition traza : Type := list (peticion * option nat).

Definition contar_registros (where_ : string) : traza * result Z :=
  let p := peticion_total where_ in
  match servicio 0 p with
  | Raise e => ([(p, None)], Raise e)
  | Ok data =>
      ([(p, Some (length data))],
       match data with
       | r :: _ => leer_total r
       | [] => Ok 0%Z
       end)
  end.

(** The loop [while offset < registros_a_obtener]; [n] is the number of
    the next request.  A turn that goes on has read at least one record,
    so [fuel] turns are enough when [fuel] is not less than the records
    still to read: see [ApiConsultaSpec.paginar_termina]. *)
Fixpoint paginar (fuel : nat) (where_ : string) (registros_a_obtener : Z)
    (n : nat) (offset : Z) (all_records : list registro)
  : option (traza * result (list registro)) :=
  if negb (offset <? registros_a_obtener)%Z then Some ([], Ok all_records)
  else
    match fuel with
    | O => None
    | S fuel' =>
        let page_size := Z.min API_PAGE_SIZE (registros_a_obtener - offset) in
        let p := peticion_pagina where_ page_size offset in
        match servicio n p with
        | Raise e => Some ([(p, None)], Raise e)
        | Ok page =>
            let paso := (p, Some (length page)) in
            match page with
            | [] => Some ([paso], Ok all_records)
            | _ =>
                let all_records := all_records ++ page in
                let offset := (offset + Z.of_nat (length page))%Z in
                if (Z.of_nat (length page) <? page_size)%Z
                then Some ([paso], Ok all_records)
                else
                  match paginar fuel' where_ registros_a_obtener (S n) offset
                                all_records with
                  | Some (t, r) => Some (paso :: t, r)
                  | None => None
                  end
            end
        end
    end.

(** [consultar_contratos] for the predicates and the bound of the query
    [q]; [None] would mean that the loop has not ended. *)
Definition consultar_contratos (q : consulta) : option (traza * result marco_api) :=
  match contar_registros (where_total q) with
  | (t, Raise e) => Some (t, Raise e)
  | (t, Ok total) =>
      if (total =? 0)%Z then Some (t, Ok (SinColumnas sin_registros))
      else
        let registros_a_obtener := Z.min total (max_registros q) in
        match paginar (Z.to_nat registros_a_obtener) (where_paginas q)
                      registros_a_obtener 1 0 [] with
        | Some (t', Ok all_records) => Some (t ++ t', Ok (DeRegistros all_records))
        | Some (t', Raise e) => Some (t ++ t', Raise e)
        | None => None
        end
  end.

End Servicio.

(** The records the requests of a trace were answered with. *)
Definition leidos (t : traza) : nat :=
  sum_list (map (fun p => default 0%nat (snd p)) t).

(** The requests of a trace are the requests for the pages of a query:
    each asks for the records after those read so far, as many as are
    left to read and at most [API_PAGE_SIZE], and is made only while
    records are left. *)
Fixpoint contigua (where_ : string) (registros_a_obtener offset : Z) (t : traza)
  : Prop :=
  match t with
  | [] => True
  | (p, k) :: t' =>
      (offset < registros_a_obtener)%Z
      /\ p = peticion_pagina where_
               (Z.min API_PAGE_SIZE (registros_a_obtener - offset)) offset
      /\ contigua where_ registros_a_obtener
                  (offset + Z.of_nat (default 0%nat k)) t'
  end.

(** No request was answered with more records than its [$limit]. *)
Definition respeta_limite (t : traza) : Prop :=
  Forall (fun p => (Z.of_nat (default 0%nat (snd p)) <= pet_limit (fst p))%Z) t.

(** The service holds the list [datos] and answers every request for a
    page of the predicate [where_] with the records the request asks
    for: [$limit] records after the first [$offset]. *)
Definition sirve_datos {registro : Type}
    (servicio : nat -> peticion -> result (list registro))
    (datos : list registro) (where_ : string) : Prop :=
  forall n limit offset,
    (0 < limit)%Z -> (0 <= offset)%Z ->
    servicio n (peticion_pagina where_ limit offset)
    = Ok (take (Z.to_nat limit) (drop (Z.to_nat offset) datos)).

Arguments SinColumnas {registro} df.
Arguments DeRegistros {registro} all_records.

End ApiConsulta.

Module EjemplosApi.
Import PyStr Exceptions Pandas Config ApiScraper ApiConsulta.

(** A service with three records, named by their numbers: a count is
    answered with one record that holds 3, a page with the records asked
    for. *)
Definition tres_contratos : list Z := [101; 102; 103]%Z.

Definition servicio_tres (n : nat) (p : peticion) : result (list Z) :=
  match pet_select p with
  | Some "count(*) as total" => Ok [Z.of_nat (length tres_contratos)]
  | _ => Ok (take (Z.to_nat (pet_limit p)) (drop (Z.to_nat (pet_offset p)) tres_contratos))
  end.

Definition leer_total_tres (r : Z) : result Z := Ok r.

(** The contracts of Santander, two records at most. *)
Definition dos_de_santander : consulta :=
  consulta_de_contratos (Some "668000") None None None None None 2.

End EjemplosApi.

(** ** detail_scraper.py: the pages of detail *)

Module DetalleNavegacion.
Import PyStr Exceptions Pandas.

Definition MAX_RETRIES : nat := 3.
Definition RETRY_BACKOFF : Q := 2.

Definition COLUMNAS_DETALLE : list string :=
  [ "numero_proceso"; "entidad"; "objeto_contrato"; "modalidad";
    "fecha_apertura"; "fecha_cierre"; "fecha_adjudicacion";
    "valor_estimado"; "valor_adjudicado"; "valor_contrato";
    "proveedor"; "nit_proveedor"; "departamento"; "municipio";
    "estado"; "url_detalle" ].

Record DetalleProceso : Type := mk_detalle {
  numero_proceso : string;
  entidad : string;
  objeto_contrato : string;
  modalidad : string;
  fecha_apertura : string;
  fecha_cierre : string;
  fecha_adjudicacion : string;
  valor_estimado : string;
  valor_adjudicado : string;
  valor_contrato : string;
  proveedor : string;
  nit_proveedor : string;
  departamento : string;
  municipio : string;
  estado : string;
  url_detalle : string
}.

(** [asdict(self)]: the fields in the order of their declaration. *)
Definition to_dict (d : DetalleProceso) : list (string * string) :=
  [ ("numero_proceso", numero_proceso d); ("entidad", entidad d);
    ("objeto_contrato", objeto_contrato d); ("modalidad", modalidad d);
    ("fecha_apertura", fecha_apertura d); ("fecha_cierre", fecha_cierre d);
    ("fecha_adjudicacion", fecha_adjudicacion d);
    ("valor_estimado", valor_estimado d);
    ("valor_adjudicado", valor_adjudicado d);
    ("valor_contrato", valor_contrato d);
    ("proveedor", proveedor d); ("nit_proveedor", nit_proveedor d);
    ("departamento", departamento d); ("municipio", municipio d);
    ("estado", estado d); ("url_detalle", url_detalle d) ].

(** What a call of the browser raises, as the handlers of
    [extraer_detalle_proceso] tell it apart: a [TimeoutException], another
    [WebDriverException], or an exception of another class. *)
Inductive fallo : Type :=
| Timeout
| ErrorWebDriver (exc : exn)
| Otra (exc : exn).

(** What the browser does during one visit of a page: the outcome of each
    call of the body of the [try], in the order of the calls ([None]: the
    call raised nothing). *)
Record visita : Type := mk_visita {
  v_get : option fallo;
  v_wait_body : option fallo;
  v_default_content : option fallo;
  v_find_iframes : fallo + bool;
  v_switch_frame : option fallo;
  v_page_source : fallo + string
}.

(** What a run does that can be seen from outside: [driver.get(url)] and
    [time.sleep(segundos)]. *)
Inductive suceso : Type :=
| Navega (url : string)
| Duerme (segundos : Q).

Section Navegador.

(** [_parsear_detalle_html], which reads the text of a page and raises
    nothing. *)
Variable _parsear_detalle_html : string -> string -> DetalleProceso.

(** The browser: what it does at the [n]-th visit of a run when asked
    for [url]. *)
Variable navegador : nat -> string -> visita.

(** The inner [try]: a [WebDriverException] of [switch_to.frame] is
    passed over. *)
Definition entrar_iframe (v : visita) : option fallo :=
  match v_switch_frame v with
  | Some (Otra exc) => Some (Otra exc)
  | _ => None
  end.

(** The body of the [try] of one attempt. *)
Definition cuerpo_intento (v : visita) (url : string) : fallo + DetalleProceso :=
  match v_get v with
  | Some f => inl f
  | None =>
      match v_wait_body v with
      | Some f => inl f
      | None =>
          match v_default_content v with
          | Some f => inl f
          | None =>
              match v_find_iframes v with
              | inl f => inl f
              | inr iframes =>
                  match (if iframes then entrar_iframe v else None) with
                  | Some f => inl f
                  | None =>
                      match v_page_source v with
                      | inl f => inl f
                      | inr html => inr (_parsear_detalle_html html url)
                      end
                  end
              end
          end
      end
  end.

(** [RETRY_BACKOFF ** intento] *)
Definition espera (intento : nat) : Q := Qpower RETRY_BACKOFF (Z.of_nat intento).

(** The loop [for intento in range(1, MAX_RETRIES + 1)] over the attempts
    left; [n] counts the visits of the run. *)
Fixpoint reintentar (intentos : list nat) (n : nat) (url : string)
  : list suceso * result (option DetalleProceso) * nat :=
  match intentos with
  | [] => ([], Ok None, n)
  | intento :: resto =>
      match cuerpo_intento (navegador n url) url with
      | inr detalle => ([Navega url], Ok (Some detalle), S n)
      | inl Timeout =>
          let '(evs, r, n') := reintentar resto (S n) url in
          (Navega url :: Duerme (espera intento) :: evs, r, n')
      | inl (ErrorWebDriver _) =>
          if (intento <? MAX_RETRIES)%nat then
            let '(evs, r, n') := reintentar resto (S n) url in
            (Navega url :: Duerme (espera intento) :: evs, r, n')
          else ([Navega url], Ok None, S n)
      | inl (Otra exc) => ([Navega url], Raise exc, S n)
      end
  end.

Definition extraer_detalle_proceso (n : nat) (url : string)
  : list suceso * result (option DetalleProceso) * nat :=
  reintentar (seq 1 MAX_RETRIES) n url.

(** The loop [for idx, url in enumerate(urls, start=1)]. *)
Fixpoint recorrer (idx total : nat) (urls : list string) (delay : Q)
    (max_errores : Z) (errores_consecutivos : Z)
    (resultados : list DetalleProceso) (n : nat)
  : list suceso * result (list DetalleProceso) * nat :=
  match urls with
  | [] => ([], Ok resultados, n)
  | url :: resto =>
      match extraer_detalle_proceso n url with
      | (evs, Raise exc, n') => (evs, Raise exc, n')
      | (evs, Ok detalle, n') =>
          let '(resultados, errores_consecutivos) :=
            match detalle with
            | Some d => (resultados ++ [d], 0%Z)
            | None => (resultados, (errores_consecutivos + 1)%Z)
            end in
          if (max_errores <=? errores_consecutivos)%Z
          then (evs, Ok resultados, n')
          else
            let pausa := if (idx <? total)%nat then [Duerme delay] else [] in
            let '(evs', r, n'') :=
              recorrer (S idx) total resto delay max_errores
                       errores_consecutivos resultados n' in
            (evs ++ pausa ++ evs', r, n'')
      end
  end.

(** [pd.DataFrame(resultados)] for dictionaries of the same keys, with
    the columns in the order [cols_presentes + cols_extra]; the frame of
    [COLUMNAS_DETALLE] without rows when nothing was read. *)
Definition fila_de (d : DetalleProceso) : list cell :=
  map (fun kv => CStr (snd kv)) (to_dict d).

Definition marco_de_detalles (resultados : list DetalleProceso) : frame :=
  match resultados with
  | [] => mk_frame (map (fun c => (c, DObject)) COLUMNAS_DETALLE) []
  | d :: _ =>
      let df := mk_frame (map (fun kv => (fst kv, DObject)) (to_dict d))
                         (map fila_de resultados) in
      let cols_presentes :=
        filter (fun c => c ∈ labels df) COLUMNAS_DETALLE in
      let cols_extra :=
        filter (fun c => c ∉ COLUMNAS_DETALLE) (labels df) in
      let cols := cols_presentes ++ cols_extra in
      mk_frame (map (fun c => (c, DObject)) cols)
               (map (project df cols) (rows df))
  end.

Definition extraer_detalles_masivo (urls : list string) (delay : Q)
    (max_errores : Z) (n : nat) : list suceso * result frame * nat :=
  match recorrer 1 (length urls) urls delay max_errores 0 [] n with
  | (evs, Ok resultados, n') => (evs, Ok (marco_de_detalles resultados), n')
  | (evs, Raise exc, n') => (evs, Raise exc, n')
  end.

End Navegador.

(** The pages a run has asked for and the time it has slept. *)
Definition visitadas (evs : list suceso) : list string :=
  omap (fun e => match e with Navega url => Some url | Duerme _ => None end) evs.

Definition dormido (evs : list suceso) : Q :=
  foldr (fun e t => match e with Duerme s => (s + t)%Q | Navega _ => t end) 0%Q evs.

(** An attempt that ends in one of the two handlers. *)
Definition es_reintentable (r : fallo + DetalleProceso) : bool :=
  match r with
  | inl Timeout | inl (ErrorWebDriver _) => true
  | _ => false
  end.

(** The value of [errores_consecutivos] after the outcomes [res], from the
    value [errores]. *)
Definition racha (errores : Z) (res : list (option DetalleProceso)) : Z :=
  fold_left (fun e o => match o with Some _ => 0%Z | None => (e + 1)%Z end)
            res errores.

(** The lists of [ls] in a row, with [sep] between each two. *)
Fixpoint intercalar {A} (sep : list A) (ls : list (list A)) : list A :=
  match ls with
  | [] => []
  | l :: ls' =>
      match ls' with
      | [] => l
      | _ :: _ => l ++ sep ++ intercalar sep ls'
      end
  end.

End DetalleNavegacion.

Module EjemplosDetalle.
Import PyStr Exceptions Pandas DetalleNavegacion.

(** A parser that reads the number of the process in the whole text. *)
Definition detalle_con_numero (html url : string) : DetalleProceso :=
  mk_detalle html "" "" "" "" "" "" "" "" "" "" "" "" "" "" url.

Definition visita_cargada (html : string) : visita :=
  mk_visita None None None (inr false) None (inr html).

Definition visita_sin_respuesta : visita :=
  mk_visita None (Some Timeout) None (inr false) None (inr "").

(** A browser that loads every page but the page [/b], which never
    answers in time. *)
Definition navegador_sin_b (n : nat) (url : string) : visita :=
  if String.eqb url "/b" then visita_sin_respuesta else visita_cargada url.

(** A file of results: two pages of detail, one of them twice, and a
    row without a page. *)
Definition entrada_con_urls : frame :=
  mk_frame [("numero_proceso", DObject); ("url_detalle", DObject)]
           [[CStr "MC-001"; CStr "/a"]; [CStr "MC-002"; CStr "/b"];
            [CStr "MC-003"; CNull NaN]; [CStr "MC-001"; CStr "/a"]].

End EjemplosDetalle.

(** ** main.py: the detail mode *)

Module MainDetalle.
Import PyStr Exceptions Pandas Config Cleaning ApiScraper DetailScraper Main.
Import DetalleNavegacion.

(** What a run in detail mode does to the browser and to the files, in
    order: the browser is started, a page is asked for or the run
    sleeps, and the events of [Main.evento] for the closing of the
    browser, the export, the update of the store and the preview.  The
    messages the run prints when it ends early or fails are not among
    the acts. *)
Inductive acto : Type :=
| NavegadorAbierto
| Web (s : suceso)
| Visto (e : evento).

(** A selection by a label that several columns carry is a frame, which
    has no [unique]. *)
Definition SinUnique : exn :=
  mk_exn (OtherException "AttributeError")
         "'DataFrame' object has no attribute 'unique'" [].

(** [max_errores] of [extraer_detalles_masivo], which the run does not
    give. *)
Definition MAX_ERRORES_POR_DEFECTO : Z := 10.

Section WithLibrary.
Context `{PyLib}.

Variable _parsear_detalle_html : string -> string -> DetalleProceso.
Variable navegador : nat -> string -> visita.

(** [df_entrada["url_detalle"].dropna().unique().tolist()] for the column
    at position [i]; read with [dtype=str], a cell is a text or a null. *)
Definition urls_de (df_entrada : frame) (i : nat) : list string :=
  keep_first String.eqb []
    (omap (fun c => if isna c then None else Some (py_str c))
          (column_at df_entrada i)).

(** The body of the [try] with its two handlers, which both return 1. *)
Definition cuerpo_detalle (env : entorno) (args : Namespace) (urls : list string)
    (delay_detalle : Q) (ruta_salida : string) (fs : filesystem)
  : list acto * result Z * filesystem :=
  let '(sucesos, r, _) :=
    extraer_detalles_masivo _parsear_detalle_html navegador urls delay_detalle
                            MAX_ERRORES_POR_DEFECTO 0 in
  let actos := map Web sucesos in
  match r with
  | Raise exc => (actos, Ok 1%Z, fs)
  | Ok df_detalles =>
      if is_empty df_detalles then (actos, Ok 0%Z, fs)
      else
        match call (fun df => limpiar_dataframe df None) df_detalles with
        | Raise exc => (actos, Ok 1%Z, fs)
        | Ok df_limpio =>
            match to_csv env with
            | Some exc => (actos, Ok 1%Z, fs)
            | None =>
                let fs := <[ruta_salida := csv_reload df_limpio]> fs in
                let actos := actos ++ [Visto (Exportado ruta_salida df_limpio)] in
                match presente (arg_historica args) with
                | Some ruta =>
                    match actualizar_base_historica df_limpio ruta
                            columna_clave_default fs with
                    | (Raise exc, fs) => (actos, Ok 1%Z, fs)
                    | (Ok _, fs) =>
                        (actos ++ [Visto (HistoricaActualizada ruta);
                                   Visto (VistaPrevia df_limpio)], Ok 0%Z, fs)
                    end
                | None => (actos ++ [Visto (VistaPrevia df_limpio)], Ok 0%Z, fs)
                end
            end
        end
  end.

(** [ejecutar_modo_detalle]; [entrada] and [delay_detalle] are the fields
    of [args] of these names. *)
Definition ejecutar_modo_detalle (env : entorno) (args : Namespace)
    (entrada : option string) (delay_detalle : Q) (fs : filesystem)
  : list acto * result Z * filesystem :=
  match importar_selenium env with
  | Some exc => ([], Raise exc, fs)
  | None =>
      match presente entrada with
      | None => ([], Ok 1%Z, fs)
      | Some ruta_entrada =>
          match fs !! ruta_entrada with
          | None => ([], Ok 1%Z, fs)
          | Some df_entrada =>
              match generar_ruta_salida env (arg_salida args) with
              | Raise exc => ([], Raise exc, fs)
              | Ok ruta_salida =>
                  match positions df_entrada "url_detalle" with
                  | [] => ([], Ok 1%Z, fs)
                  | _ :: _ :: _ => ([], Raise SinUnique, fs)
                  | [i] =>
                      match urls_de df_entrada i with
                      | [] => ([], Ok 0%Z, fs)
                      | urls =>
                          match crear_driver env with
                          | Some exc => ([], Raise exc, fs)
                          | None =>
                              let '(actos, r, fs) :=
                                cuerpo_detalle env args urls delay_detalle
                                               ruta_salida fs in
                              let '(evs, exc_cierre) := cerrar_driver env in
                              (NavegadorAbierto :: actos ++ map Visto evs,
                               match exc_cierre with
                               | Some exc => Raise exc
                               | None => r
                               end, fs)
                          end
                      end
                  end
              end
          end
      end
  end.

End WithLibrary.

(** The pages asked for, the files written and the closings of the
    browser among the acts of a run. *)
Definition paginas_pedidas (actos : list acto) : list string :=
  omap (fun a => match a with Web (Navega url) => Some url | _ => None end) actos.

Definition vistos (actos : list acto) : list evento :=
  omap (fun a => match a with Visto e => Some e | _ => None end) actos.

End MainDetalle.

(** ** detail_scraper.py: the labels of a page of detail *)

Module DetalleEtiquetas.
Import PyStr Parser.

Definition _MAPEO_ETIQUETAS : list (string * string) :=
  [ ("número del proceso", "numero_proceso");
    ("numero del proceso", "numero_proceso");
    ("nro. proceso", "numero_proceso");
    ("proceso", "numero_proceso");
    ("entidad", "entidad");
    ("nombre entidad", "entidad");
    ("objeto del contrato", "objeto_contrato");
    ("objeto a contratar", "objeto_contrato");
    ("descripción", "objeto_contrato");
    ("modalidad de contratación", "modalidad");
    ("modalidad de contratacion", "modalidad");
    ("modalidad", "modalidad");
    ("fecha de apertura", "fecha_apertura");
    ("fecha apertura", "fecha_apertura");
    ("fecha de publicación", "fecha_apertura");
    ("fecha de cierre", "fecha_cierre");
    ("fecha cierre", "fecha_cierre");
    ("fecha de adjudicación", "fecha_adjudicacion");
    ("fecha adjudicación", "fecha_adjudicacion");
    ("fecha adjudicacion", "fecha_adjudicacion");
    ("valor estimado del contrato", "valor_estimado");
    ("valor estimado", "valor_estimado");
    ("cuantía", "valor_estimado");
    ("cuantia", "valor_estimado");
    ("presupuesto", "valor_estimado");
    ("valor del contrato", "valor_contrato");
    ("valor contrato", "valor_contrato");
    ("valor adjudicado", "valor_adjudicado");
    ("valor de adjudicación", "valor_adjudicado");
    ("proveedor adjudicado", "proveedor");
    ("contratista", "proveedor");
    ("proveedor", "proveedor");
    ("razón social", "proveedor");
    ("razon social", "proveedor");
    ("nit", "nit_proveedor");
    ("nit proveedor", "nit_proveedor");
    ("identificación del contratista", "nit_proveedor");
    ("departamento", "departamento");
    ("departamento entidad", "departamento");
    ("municipio", "municipio");
    ("ciudad", "municipio");
    ("ciudad entidad", "municipio");
    ("estado", "estado");
    ("estado del proceso", "estado") ].

(** [_MAPEO_ETIQUETAS.get(etiqueta)]; no key is written twice. *)
Definition campo_de (etiqueta : string) : option string :=
  snd <$> List.find (fun kv => String.eqb (fst kv) etiqueta) _MAPEO_ETIQUETAS.

(** The text is a run of the characters [:], [-], U+2013 and U+2014 (the
    two dashes are the bytes E2 80 93 and E2 80 94). *)
Fixpoint es_final (s : string) : bool :=
  match s with
  | EmptyString => true
  | String c r =>
      if Ascii.eqb c ":" || Ascii.eqb c "-" then es_final r
      else
        match r with
        | String c2 (String c3 r3) =>
            Ascii.eqb c "226" && Ascii.eqb c2 "128"
            && (Ascii.eqb c3 "147" || Ascii.eqb c3 "148") && es_final r3
        | _ => false
        end
  end.

(** [re.sub(r"[:\-–—]+$", "", s)] on a text that does not end in a line
    break: the longest run of these characters at the end goes. *)
Fixpoint quitar_final (s : string) : string :=
  match s with
  | EmptyString => EmptyString
  | String c r => if es_final s then EmptyString else String c (quitar_final r)
  end.

(** [re.sub(r"[^a-záéíóúñü0-9\s]", "", s)] *)
Fixpoint solo_permitidos (s : string) : string :=
  match s with
  | EmptyString => EmptyString
  | String c r =>
      if is_az09 c || is_space c then String c (solo_permitidos r)
      else
        match r with
        | String c2 r2 =>
            if Ascii.eqb c "195" && is_accent_tail c2
            then String c (String c2 (solo_permitidos r2))
            else solo_permitidos r
        | EmptyString => EmptyString
        end
  end.

(** White space is that of [is_space], as everywhere in [PyStr]. *)
Definition _normalizar_etiqueta (texto : string) : string :=
  let s := strip (lower texto) in
  let s := strip (quitar_final s) in
  let s := solo_permitidos s in
  let s := sub_runs is_space 1 " " "" s in
  strip s.

(** A byte that is not of a lower-case letter of ASCII, a digit, the
    space or one of the letters á é í ó ú ñ ü. *)
Definition es_otro (c : ascii) : bool :=
  negb (is_az09 c || Ascii.eqb c " " || Ascii.eqb c "195" || is_accent_tail c).

End DetalleEtiquetas.

(** ** scraper.py: the pages of results *)

Module ScraperPaginas.
Import PyStr Exceptions DetalleNavegacion.

(** What a call of the browser raises, as the handlers of the pagination
    tell it apart: a [NoSuchElementException], another
    [WebDriverException], or an exception of another class. *)
Inductive excepcion : Type :=
| NoSuchElement
| OtraWebDriver (exc : exn)
| NoWebDriver (exc : exn).

(** What the browser does while the pages are collected; [p] is the
    number of the page it shows and [i] the number of the attempt. *)
Record navegador_paginas : Type := {
  page_source : nat -> result string;
  buscar_siguiente : nat -> option excepcion;
  is_displayed : nat -> excepcion + bool;
  ir_buscar : nat -> nat -> option excepcion;
  ir_clic : nat -> nat -> option excepcion;
  manejar_recaptcha : nat -> option exn
}.

(** What is seen of the collection: a page is read, and a click on the
    link to the next page is tried. *)
Inductive paso_pagina : Type :=
| Capturada (pagina : nat)
| Clic (pagina intento : nat) (exito : bool).

(** The handler of the [try]: only a [NoSuchElementException] is caught. *)
Definition sin_enlace (e : excepcion) : result bool :=
  match e with
  | NoSuchElement => Ok false
  | OtraWebDriver exc => Raise exc
  | NoWebDriver exc => Raise exc
  end.

Definition _hay_pagina_siguiente (nav : navegador_paginas) (p : nat) : result bool :=
  match buscar_siguiente nav p with
  | Some e => sin_enlace e
  | None =>
      match is_displayed nav p with
      | inl e => sin_enlace e
      | inr visible => Ok visible
      end
  end.

(** The sleep after the click is left out. *)
Definition _ir_pagina_siguiente (nav : navegador_paginas) (p i : nat) : result bool :=
  match ir_buscar nav p i with
  | Some (NoWebDriver exc) => Raise exc
  | Some _ => Ok false
  | None =>
      match ir_clic nav p i with
      | Some (NoWebDriver exc) => Raise exc
      | Some _ => Ok false
      | None => Ok true
      end
  end.

(** The loop [for intento in range(1, MAX_RETRIES + 1)] over the attempts
    left; the value is the one of [exito].  The sleeps between the
    attempts are left out. *)
Fixpoint avanzar (nav : navegador_paginas) (p : nat) (intentos : list nat)
  : list paso_pagina * result bool :=
  match intentos with
  | [] => ([], Ok false)
  | intento :: resto =>
      match _ir_pagina_siguiente nav p intento with
      | Raise exc => ([], Raise exc)
      | Ok true => ([Clic p intento true], Ok true)
      | Ok false =>
          let '(pasos, r) := avanzar nav p resto in
          (Clic p intento false :: pasos, r)
      end
  end.

(** The loop [while pagina_actual <= max_pages]; [restantes] is
    [max_pages - pagina_actual + 1], the turns that are left. *)
Fixpoint recopilar (nav : navegador_paginas) (restantes pagina_actual : nat)
    (paginas_html : list string) : list paso_pagina * result (list string) :=
  match restantes with
  | O => ([], Ok paginas_html)
  | S restantes' =>
      match page_source nav pagina_actual with
      | Raise exc => ([], Raise exc)
      | Ok html =>
          let paginas_html := paginas_html ++ [html] in
          match _hay_pagina_siguiente nav pagina_actual with
          | Raise exc => ([Capturada pagina_actual], Raise exc)
          | Ok false => ([Capturada pagina_actual], Ok paginas_html)
          | Ok true =>
              match avanzar nav pagina_actual (seq 1 MAX_RETRIES) with
              | (pasos, Raise exc) => (Capturada pagina_actual :: pasos, Raise exc)
              | (pasos, Ok false) => (Capturada pagina_actual :: pasos, Ok paginas_html)
              | (pasos, Ok true) =>
                  let pagina_actual' := S pagina_actual in
                  match manejar_recaptcha nav pagina_actual' with
                  | Some exc =>
                      (Capturada pagina_actual :: pasos,
                       if isinstance exc SecopRecaptchaError
                       then Ok paginas_html else Raise exc)
                  | None =>
                      let '(pasos', r) :=
                        recopilar nav restantes' pagina_actual' paginas_html in
                      (Capturada pagina_actual :: pasos ++ pasos', r)
                  end
              end
          end
      end
  end.

Definition recopilar_html_paginas (nav : navegador_paginas) (max_pages : Z)
  : list paso_pagina * result (list string) :=
  recopilar nav (Z.to_nat max_pages) 1 [].

(** The pages the browser has left by a click on the link. *)
Definition paginas_dejadas (pasos : list paso_pagina) : list nat :=
  omap (fun e => match e with Clic p _ true => Some p | _ => None end) pasos.

(** The clicks tried on the link of the page [p]. *)
Definition clics_en (p : nat) (pasos : list paso_pagina) : nat :=
  length (List.filter (fun e => match e with
                                | Clic q _ _ => Nat.eqb q p
                                | _ => false
                                end) pasos).

End ScraperPaginas.

Module EjemplosPaginas.
Import PyStr Exceptions ScraperPaginas.

(** A portal whose every page has a link to the next one that answers
    the first click. *)
Definition portal_sin_fin : navegador_paginas :=
  {| page_source := fun p => Ok ("pagina " +:+ pretty p);
     buscar_siguiente := fun _ => None;
     is_displayed := fun _ => inr true;
     ir_buscar := fun _ _ => None;
     ir_clic := fun _ _ => None;
     manejar_recaptcha := fun _ => None |}.

End EjemplosPaginas.

(** ** scraper.py: the count of the results *)

Module ScraperResultados.
Import PyStr PyFloat Exceptions ScraperPaginas.

(** What the browser shows when the results are checked: the outcome of
    each call in the order of the calls ([None]: the element was found). *)
Record pagina_resultados : Type := {
  buscar_total : option excepcion;
  texto_total : excepcion + string;
  buscar_tabla : option excepcion;
  buscar_tabla_generica : option excepcion;
  texto_pagina : result string;
  current_url : string
}.

(** How [verificar_resultados] ends: it returns the number of records, or
    0 when nothing tells it; it raises a [SecopEmptyTableError] with a
    message and the address of the page in its context; or it ends with
    the exception of a call that no handler catches. *)
Inductive veredicto : Type :=
| Total (total : Z)
| Desconocido
| SinResultados (mensaje url : string)
| Falla (exc : exn).

(** [texto.isdigit()] and [int(texto)] for a text of ASCII; since Python
    3.11 the conversion refuses more than 4300 digits. *)
Definition isdigit (texto : string) : bool :=
  truthy texto && all_chars is_digit texto.

Definition MAX_STR_DIGITS : nat := 4300.

Definition DemasiadosDigitos (n : nat) : exn :=
  mk_exn ValueError
    ("Exceeds the limit (4300 digits) for integer string conversion: value has "
     +:+ pretty n +:+ " digits; use sys.set_int_max_str_digits() to increase the limit")
    [].

Definition int_de (texto : string) : result Z :=
  if (MAX_STR_DIGITS <? String.length texto)%nat
  then Raise (DemasiadosDigitos (String.length texto))
  else Ok (Z.of_N (read_digits 0 0 texto).1.1).

Definition mensajes_vacios : list string :=
  [ "no se encontraron resultados"; "sin resultados"; "no records found";
    "0 registro" ].

(** The handlers [except NoSuchElementException] of the function: [None]
    when the exception is caught and the function goes on. *)
Definition no_encontrado (e : excepcion) : option exn :=
  match e with
  | NoSuchElement => None
  | OtraWebDriver exc => Some exc
  | NoWebDriver exc => Some exc
  end.

(** The first [try]: [None] when the element of the total is not
    there. *)
Definition leer_total (pg : pagina_resultados) : option veredicto :=
  match buscar_total pg with
  | Some e => Falla <$> no_encontrado e
  | None =>
      match texto_total pg with
      | inl e => Falla <$> no_encontrado e
      | inr text =>
          let texto := remove_char "," (remove_char "." (strip text)) in
          match (if isdigit texto then int_de texto else Ok 0%Z) with
          | Raise exc => Some (Falla exc)
          | Ok total =>
              if (total =? 0)%Z
              then Some (SinResultados "La consulta retornó 0 registros."
                                       (current_url pg))
              else Some (Total total)
          end
      end
  end.

(** The loop over [mensajes_vacios]. *)
Fixpoint buscar_mensaje (mensajes : list string) (page_text url : string)
  : veredicto :=
  match mensajes with
  | [] => Desconocido
  | msg :: resto =>
      if contains msg page_text
      then SinResultados ("Sin resultados: '" +:+ msg +:+ "' detectado en la página.")
                         url
      else buscar_mensaje resto page_text url
  end.

Definition verificar_resultados (pg : pagina_resultados) : veredicto :=
  match leer_total pg with
  | Some v => v
  | None =>
      match buscar_tabla pg with
      | None => Desconocido
      | Some e =>
          match no_encontrado e with
          | Some exc => Falla exc
          | None =>
              match buscar_tabla_generica pg with
              | None => Desconocido
              | Some e =>
                  match no_encontrado e with
                  | Some exc => Falla exc
                  | None =>
                      match texto_pagina pg with
                      | Raise exc => Falla exc
                      | Ok source =>
                          buscar_mensaje mensajes_vacios (lower source)
                                         (current_url pg)
                      end
                  end
              end
          end
      end
  end.

(** A byte of ASCII. *)
Definition es_ascii (c : ascii) : bool := (nat_of_ascii c <? 128)%nat.

End ScraperResultados.

Module EjemplosResultados.
Import PyStr Exceptions ScraperPaginas ScraperResultados.

(** A page whose counter reads [Total: 25]. *)
Definition pagina_total_25 : pagina_resultados :=
  {| buscar_total := None;
     texto_total := inr " Total: 25 ";
     buscar_tabla := None;
     buscar_tabla_generica := None;
     texto_pagina := Ok "<html></html>";
     current_url := "https://www.contratos.gov.co/consultas/resultados" |}.

End EjemplosResultados.

(** ** cleaning.py: what is assumed of pandas *)

Module CleaningBiblioteca.
Import Exceptions Pandas.


End CleaningBiblioteca.

(** * Properties *)

(** ** Python strings *)

Module PyStrFacts.
Import PyStr.

Lemma split_char_cons c s : exists h t, split_char c s = h :: t.
Proof. destruct s as [|x r]; simpl; [eauto|]. destruct (Ascii.eqb x c); [eauto|].
  destruct (split_char c r); eauto. Qed.

Lemma split_char_first c s : nth 0 (split_char c s) "" = before_first c s.
Proof.
  induction s as [|x r IH]; simpl; [done|].
  destruct (Ascii.eqb x c); [done|].
  destruct (split_char_cons c r) as (h & t & Hs). rewrite Hs in *. simpl in *. by rewrite IH.
Qed.

Lemma contains_char_cons c x r : contains_char c (String x r) = Ascii.eqb c x || contains_char c r.
Proof. reflexivity. Qed.

Lemma split_char_no_sep c s : contains_char c s = false -> split_char c s = [s].
Proof.
  induction s as [|x r IH]; simpl; [done|]. rewrite contains_char_cons.
  intros [Hx Hr]%orb_false_elim. rewrite Ascii.eqb_sym, Hx. by rewrite (IH Hr).
Qed.

Lemma split_char_tail c s :
  contains_char c s = true ->
  exists t, split_char c s = before_first c s :: split_char c (after_first c s)
            /\ t = split_char c (after_first c s).
Proof.
  induction s as [|x r IH]; simpl; [done|]. rewrite contains_char_cons.
  rewrite (Ascii.eqb_sym c x). destruct (Ascii.eqb x c) eqn:Hx; simpl.
  - eauto.
  - intros Hr. destruct (IH Hr) as (t & -> & _). eauto.
Qed.

Lemma split_char_second c s :
  contains_char c s = true ->
  (1 <? length (split_char c s))%nat = true
  /\ nth 1 (split_char c s) "" = before_first c (after_first c s).
Proof.
  intros Hc. destruct (split_char_tail c s Hc) as (t & -> & _). simpl.
  destruct (split_char_cons c (after_first c s)) as (h & t' & Hs).
  split.
  - rewrite Hs. reflexivity.
  - apply split_char_first.
Qed.

Lemma split_char_last c s : List.last (split_char c s) "" = after_last c s.
Proof.
  induction s as [|x r IH]; [done|].
  cbn [split_char after_last].
  destruct (contains_char c r) eqn:Hr.
  - destruct (Ascii.eqb x c).
    + destruct (split_char_cons c r) as (h & t & Hs). rewrite Hs in *. exact IH.
    + destruct (split_char_cons c r) as (h & t & Hs). rewrite Hs in *.
      destruct (split_char_tail c r Hr) as (t1 & Hs1 & _). rewrite Hs in Hs1.
      injection Hs1 as -> ->.
      destruct (split_char_cons c (after_first c r)) as (h2 & t2 & Hs2).
      rewrite Hs2 in *. exact IH.
  - rewrite (split_char_no_sep c r Hr). destruct (Ascii.eqb x c); reflexivity.
Qed.

Lemma app_cons x a b : String x a +:+ b = String x (a +:+ b).
Proof. reflexivity. Qed.
Lemma app_nil_l b : "" +:+ b = b.
Proof. reflexivity. Qed.
Lemma app_nil_r a : a +:+ "" = a.
Proof. induction a as [|x a IH]; [done|]. by rewrite app_cons, IH. Qed.

Lemma join_empty_cons h t : join "" (h :: t) = (h ++ join "" t)%string.
Proof.
  destruct t; simpl; [|done]. by rewrite app_nil_r.
Qed.

Lemma filter_chars_app p a b : filter_chars p (a ++ b) = (filter_chars p a ++ filter_chars p b)%string.
Proof.
  induction a as [|x a IH]; [done|]. rewrite app_cons. simpl.
  destruct (p x); by rewrite IH.
Qed.

Lemma remove_char_absent c s : contains_char c s = false -> remove_char c s = s.
Proof.
  induction s as [|x r IH]; simpl; [done|]. rewrite contains_char_cons.
  intros [Hx Hr]%orb_false_elim. unfold remove_char in *. simpl.
  rewrite Ascii.eqb_sym, Hx. simpl. by rewrite (IH Hr).
Qed.

Lemma split_char_init c s :
  contains_char c s = true ->
  join "" (removelast (split_char c s)) = remove_char c (before_last c s).
Proof.
  induction s as [|x r IH]; [done|].
  rewrite contains_char_cons. cbn [split_char before_last].
  destruct (contains_char c r) eqn:Hr.
  - intros _. specialize (IH eq_refl).
    destruct (split_char_tail c r Hr) as (t1 & Hs1 & _).
    destruct (split_char_cons c (after_first c r)) as (h2 & t2 & Hs2).
    rewrite Hs1, Hs2 in *.
    destruct (Ascii.eqb x c) eqn:Hx.
    + change (removelast ("" :: before_first c r :: h2 :: t2))
        with ("" :: removelast (before_first c r :: h2 :: t2)).
      rewrite join_empty_cons, IH. unfold remove_char. simpl. rewrite Hx. reflexivity.
    + change (removelast (String x (before_first c r) :: h2 :: t2))
        with (String x (before_first c r) :: removelast (h2 :: t2)).
      change (removelast (before_first c r :: h2 :: t2))
        with (before_first c r :: removelast (h2 :: t2)) in IH.
      rewrite join_empty_cons in *. unfold remove_char in *. simpl. rewrite Hx. simpl.
      by rewrite <- IH.
  - rewrite orb_false_r. intros Hx. rewrite Ascii.eqb_sym in Hx. rewrite Hx.
    rewrite (split_char_no_sep c r Hr). reflexivity.
Qed.

(** With one comma only, the first comma is the last one. *)
Lemma one_comma (c : ascii) (s : string) :
  contains_char c s = true -> contains_char c (after_first c s) = false ->
  before_first c s = before_last c s
  /\ before_first c (after_first c s) = after_last c s.
Proof.
  induction s as [|x r IH]; [done|].
  rewrite contains_char_cons. cbn [before_first after_first before_last after_last].
  rewrite (Ascii.eqb_sym c x).
  destruct (Ascii.eqb x c) eqn:Hx; simpl.
  - intros _ Hr. rewrite Hr. split; [done|].
    clear -Hr. induction r as [|y r IH]; [done|].
    rewrite contains_char_cons in Hr. apply orb_false_elim in Hr as [Hy Hr].
    simpl. rewrite Ascii.eqb_sym, Hy. by rewrite (IH Hr).
  - intros Hr Ha. rewrite Hr. destruct (IH Hr Ha) as [-> ->]. done.
Qed.

(** The characters of a part of a text are characters of the text. *)
Lemma has_char_app p a b : has_char p (a +:+ b) = has_char p a || has_char p b.
Proof.
  induction a as [|x a IH]; [done|]. rewrite app_cons. simpl. by rewrite IH, orb_assoc.
Qed.

Lemma has_char_drop_while p q s : has_char p (drop_while q s) = true -> has_char p s = true.
Proof.
  induction s as [|x s IH]; simpl; [done|]. destruct (q x); [|done].
  intros H%IH. by rewrite H, orb_true_r.
Qed.

Lemma has_char_filter p q s : has_char p (filter_chars q s) = true -> has_char p s = true.
Proof.
  induction s as [|x s IH]; simpl; [done|]. destruct (q x); simpl.
  - intros [->|H%IH]%orb_true_iff; [done|by rewrite H, orb_true_r].
  - intros H%IH. by rewrite H, orb_true_r.
Qed.

Lemma has_char_rstrip p q s : has_char p (rstrip_with q s) = true -> has_char p s = true.
Proof.
  induction s as [|x s IH]; simpl; [done|].
  destruct (rstrip_with q s) as [|y r] eqn:Hr.
  - destruct (q x); simpl; [done|]. rewrite orb_false_r. by intros ->.
  - change (has_char p (String x (String y r))) with (p x || has_char p (String y r)).
    intros [->|H%IH]%orb_true_iff; [done|by rewrite H, orb_true_r].
Qed.

Lemma has_char_strip p s : has_char p (strip s) = true -> has_char p s = true.
Proof. unfold strip, strip_with, lstrip_with. by intros ?%has_char_rstrip%has_char_drop_while. Qed.

Lemma has_char_before_first p c s : has_char p (before_first c s) = true -> has_char p s = true.
Proof.
  induction s as [|x s IH]; simpl; [done|]. destruct (Ascii.eqb x c); simpl; [done|].
  intros [->|H%IH]%orb_true_iff; [done|by rewrite H, orb_true_r].
Qed.

Lemma has_char_after_first p c s : has_char p (after_first c s) = true -> has_char p s = true.
Proof.
  induction s as [|x s IH]; simpl; [done|]. destruct (Ascii.eqb x c).
  - intros ->. by rewrite orb_true_r.
  - intros H%IH. by rewrite H, orb_true_r.
Qed.

Lemma has_char_before_last p c s : has_char p (before_last c s) = true -> has_char p s = true.
Proof.
  induction s as [|x s IH]; simpl; [done|]. destruct (contains_char c s); simpl; [|done].
  intros [->|H%IH]%orb_true_iff; [done|by rewrite H, orb_true_r].
Qed.

Lemma has_char_after_last p c s : has_char p (after_last c s) = true -> has_char p s = true.
Proof.
  induction s as [|x s IH]; simpl; [done|]. destruct (contains_char c s).
  - intros H%IH. by rewrite H, orb_true_r.
  - destruct (Ascii.eqb x c); [|done]. intros ->. by rewrite orb_true_r.
Qed.

End PyStrFacts.

(** ** The store of frames *)

Module HeapFacts.
Import Exceptions Pandas Heap.

Lemma fresh_not_in (h : heap) : h !! fresh (dom h) = None.
Proof. apply not_elem_of_dom, is_fresh. Qed.

Lemma fresh_ne (h : heap) (r : ref) (d : frame) :
  h !! r = Some d -> fresh (dom h) <> r.
Proof. intros Hr Heq. rewrite <- Heq, fresh_not_in in Hr. discriminate. Qed.

(** A loop whose body changes the object [r] in place leaves [r] with
    the changes made in turn, and every other object as it was. *)
Lemma for_each_modify {A} (l : list A) (r : ref) (g : A -> frame -> frame)
    (h : heap) (d : frame) :
  h !! r = Some d ->
  for_each l (fun x => modify r (g x)) h
  = (Ok tt, <[r := fold_left (fun d x => g x d) l d]> h).
Proof.
  revert h d. induction l as [|x l IH]; intros h d Hr; simpl.
  - unfold ret. by rewrite insert_id.
  - unfold bind, modify at 1.
    rewrite (IH (<[r := g x (h !!! r)]> h) (g x (h !!! r))).
    + rewrite insert_insert_eq. by rewrite (lookup_total_correct _ _ _ Hr).
    + apply lookup_insert_eq.
Qed.

End HeapFacts.

(** ** cleaning.py: the programs and the frames they return *)

Module CleaningFacts.
Import PyStr PyFloat Exceptions Pandas Heap Config Cleaning HeapFacts.

Lemma for_each_try_modify {A} (l : list A) (r : ref)
    (k : A -> frame -> result frame) (h : heap) (d : frame) :
  h !! r = Some d ->
  exists d'',
    for_each l (fun x => try_modify r (k x)) h
    = (match fold_result k l d with Ok _ => Ok tt | Raise e => Raise e end,
       <[r := d'']> h)
    /\ (forall d', fold_result k l d = Ok d' -> d'' = d').
Proof.
  revert h d. induction l as [|x l IH]; intros h d Hr; simpl.
  - exists d. split; [|congruence]. unfold ret. by rewrite insert_id.
  - unfold bind, try_modify at 1. rewrite (lookup_total_correct _ _ _ Hr).
    destruct (k x d) as [d1|e] eqn:Hk.
    + destruct (IH (<[r := d1]> h) d1) as (d'' & Hrun & Hd'').
      { apply lookup_insert_eq. }
      exists d''. rewrite Hrun, insert_insert_eq. auto.
    + exists d. split; [|congruence]. by rewrite insert_id.
Qed.

(** The first step of every function: the copy is a new object. *)
Lemma copy_run (h : heap) (r : ref) (d : frame) :
  h !! r = Some d ->
  copy r h = (Ok (fresh (dom h)), <[fresh (dom h) := d]> h).
Proof.
  intros Hr. unfold copy, bind, read, alloc.
  by rewrite (lookup_total_correct _ _ _ Hr).
Qed.

Lemma insert_fresh_subseteq (h : heap) (d : frame) :
  h ⊆ <[fresh (dom h) := d]> h.
Proof. apply insert_subseteq, fresh_not_in. Qed.

Section WithLibrary.
Context `{PyLib}.

Lemma normalizar_strings_devuelve_nuevo :
  devuelve_nuevo normalizar_strings (fun d => Ok (normalizar_strings_val d)).
Proof.
  intros h r d Hr. set (r1 := fresh (dom h)).
  exists (<[r1 := normalizar_strings_val d]> h). split.
  { apply insert_subseteq, fresh_not_in. }
  exists r1. split; [|split].
  - unfold normalizar_strings, bind at 1. rewrite (copy_run h r d Hr).
    fold r1. unfold bind at 1, read at 1.
    rewrite lookup_total_insert_eq. unfold bind.
    rewrite (for_each_modify _ r1 _ _ d) by apply lookup_insert_eq.
    rewrite insert_insert_eq. reflexivity.
  - apply fresh_not_in.
  - apply lookup_insert_eq.
Qed.

Lemma convertir_columnas_monetarias_devuelve_nuevo :
  devuelve_nuevo convertir_columnas_monetarias
                 (fun d => Ok (convertir_columnas_monetarias_val d)).
Proof.
  intros h r d Hr. set (r1 := fresh (dom h)).
  exists (<[r1 := convertir_columnas_monetarias_val d]> h). split.
  { apply insert_subseteq, fresh_not_in. }
  exists r1. split; [|split].
  - unfold convertir_columnas_monetarias, bind at 1. rewrite (copy_run h r d Hr).
    fold r1. unfold bind at 1, read at 1.
    rewrite lookup_total_insert_eq. unfold bind.
    rewrite (for_each_modify _ r1 _ _ d) by apply lookup_insert_eq.
    rewrite insert_insert_eq. reflexivity.
  - apply fresh_not_in.
  - apply lookup_insert_eq.
Qed.

Lemma convertir_columnas_fecha_devuelve_nuevo :
  devuelve_nuevo convertir_columnas_fecha convertir_columnas_fecha_val.
Proof.
  intros h r d Hr. set (r1 := fresh (dom h)).
  destruct (for_each_try_modify
              (filter (fun c => has_column d c) COLUMNAS_FECHA) r1
              (fun col => map_or_raise col (fun v => _parsear_fecha (py_str v)))
              (<[r1 := d]> h) d) as (d'' & Hrun & Hd'').
  { apply lookup_insert_eq. }
  exists (<[r1 := d'']> h). split.
  { apply insert_subseteq, fresh_not_in. }
  assert (Hprog : convertir_columnas_fecha r h
            = (match convertir_columnas_fecha_val d with
               | Ok _ => Ok r1 | Raise e => Raise e end, <[r1 := d'']> h)).
  { unfold convertir_columnas_fecha, bind at 1. rewrite (copy_run h r d Hr).
    fold r1. unfold bind at 1, read at 1.
    rewrite lookup_total_insert_eq. unfold bind.
    rewrite Hrun, insert_insert_eq. unfold convertir_columnas_fecha_val.
    destruct (fold_result _ _ d); reflexivity. }
  unfold convertir_columnas_fecha_val in *.
  destruct (fold_result _ _ d) as [d'|e] eqn:Hf.
  - exists r1. rewrite (Hd'' d' eq_refl) in *. split; [exact Hprog|split].
    + apply fresh_not_in.
    + apply lookup_insert_eq.
  - exact Hprog.
Qed.

Lemma eliminar_filas_vacias_devuelve_nuevo :
  devuelve_nuevo eliminar_filas_vacias (fun d => Ok (eliminar_filas_vacias_val d)).
Proof.
  intros h r d Hr. set (r1 := fresh (dom h)).
  set (h1 := <[r1 := dropna_all d]> h).
  assert (Hsub : h ⊆ h1) by apply insert_subseteq, fresh_not_in.
  assert (Hstart : eliminar_filas_vacias r h
            = (if (0 <? length (select_dtypes_object (dropna_all d)))%nat
               then alloc (drop_rows (textos_vacios (dropna_all d)) (dropna_all d))
               else ret r1) h1).
  { unfold eliminar_filas_vacias, bind at 1. rewrite (copy_run h r d Hr).
    fold r1. unfold bind at 1, modify at 1.
    rewrite lookup_total_insert_eq, insert_insert_eq. fold h1.
    assert (Hh1 : h1 !!! r1 = dropna_all d) by apply lookup_total_insert_eq.
    unfold bind at 1, read at 1. rewrite Hh1. unfold bind.
    destruct (0 <? length (select_dtypes_object (dropna_all d)))%nat;
      [unfold alloc, ret|unfold ret]; reflexivity. }
  unfold eliminar_filas_vacias_val.
  destruct (0 <? length (select_dtypes_object (dropna_all d)))%nat.
  - set (v := drop_rows (textos_vacios (dropna_all d)) (dropna_all d)).
    exists (<[fresh (dom h1) := v]> h1). split.
    { etrans; [exact Hsub|]. apply insert_subseteq, fresh_not_in. }
    exists (fresh (dom h1)). split; [exact Hstart|split].
    + destruct (h !! fresh (dom h1)) as [d0|] eqn:Hd0; [|done].
      pose proof (lookup_weaken _ _ _ _ Hd0 Hsub) as Hd1.
      by rewrite fresh_not_in in Hd1.
    + apply lookup_insert_eq.
  - exists h1. split; [exact Hsub|].
    exists r1. split; [exact Hstart|split].
    + apply fresh_not_in.
    + apply lookup_insert_eq.
Qed.

Lemma renombrar_columnas_devuelve_nuevo (mapeo : option (gmap string string)) :
  devuelve_nuevo (fun df => renombrar_columnas df mapeo)
                 (renombrar_columnas_val mapeo).
Proof.
  intros h r d Hr. set (r1 := fresh (dom h)).
  assert (Hstart : renombrar_columnas r mapeo h
            = bind (match mapeo_truthy mapeo with
                    | Some m => modify r1 (rename m)
                    | None =>
                        if bool_decide (labels d <> COLUMNAS_RESULTADO) then
                          if forallb (startswith "col_") (labels d) then
                            set_columns r1 (take (length (labels d)) COLUMNAS_RESULTADO)
                          else ret tt
                        else ret tt
                    end) (fun _ => ret r1) (<[r1 := d]> h)).
  { unfold renombrar_columnas, bind at 1. rewrite (copy_run h r d Hr).
    fold r1. unfold bind at 1, read at 1.
    rewrite lookup_total_insert_eq. reflexivity. }
  unfold renombrar_columnas_val.
  destruct (mapeo_truthy mapeo) as [m|].
  - exists (<[r1 := rename m d]> h). split.
    { apply insert_subseteq, fresh_not_in. }
    exists r1. split; [|split].
    + rewrite Hstart. unfold bind, modify, ret.
      by rewrite lookup_total_insert_eq, insert_insert_eq.
    + apply fresh_not_in.
    + apply lookup_insert_eq.
  - destruct (bool_decide (labels d <> COLUMNAS_RESULTADO)); simpl in *.
    2:{ exists (<[r1 := d]> h). split; [apply insert_subseteq, fresh_not_in|].
        exists r1. split; [exact Hstart|split];
          [apply fresh_not_in|apply lookup_insert_eq]. }
    destruct (forallb (startswith "col_") (labels d)); simpl in *.
    2:{ exists (<[r1 := d]> h). split; [apply insert_subseteq, fresh_not_in|].
        exists r1. split; [exact Hstart|split];
          [apply fresh_not_in|apply lookup_insert_eq]. }
    unfold set_columns in Hstart. unfold bind, read in Hstart.
    rewrite lookup_total_insert_eq in Hstart.
    destruct (bool_decide (length (take (length (labels d)) COLUMNAS_RESULTADO)
                           = length (columns d))).
    + eexists (<[r1 := _]> h). split; [apply insert_subseteq, fresh_not_in|].
      exists r1. split; [|split].
      * rewrite Hstart. unfold modify, ret.
        by rewrite lookup_total_insert_eq, insert_insert_eq.
      * apply fresh_not_in.
      * apply lookup_insert_eq.
    + exists (<[r1 := d]> h). split; [apply insert_subseteq, fresh_not_in|].
      exact Hstart.
Qed.

End WithLibrary.

(** Two programs of this kind, one after the other, are of this kind. *)
Lemma devuelve_nuevo_bind (f g : ref -> M ref) (v w : frame -> result frame) :
  devuelve_nuevo f v -> devuelve_nuevo g w ->
  devuelve_nuevo (fun r => bind (f r) g) (fun d => and_then (v d) w).
Proof.
  intros Hf Hg h r d Hr.
  destruct (Hf h r d Hr) as (h1 & Hsub1 & Hv).
  destruct (v d) as [d1|e]; simpl.
  - destruct Hv as (r1 & Hrun1 & Hnew1 & Hr1).
    destruct (Hg h1 r1 d1 Hr1) as (h2 & Hsub2 & Hw).
    exists h2. split; [by etrans|].
    destruct (w d1) as [d2|e].
    + destruct Hw as (r2 & Hrun2 & Hnew2 & Hr2).
      exists r2. split; [|split; [|exact Hr2]].
      * unfold bind. by rewrite Hrun1.
      * destruct (h !! r2) as [d0|] eqn:Hd0; [|done].
        pose proof (lookup_weaken _ _ _ _ Hd0 Hsub1) as Hd1. congruence.
    + unfold bind. by rewrite Hrun1.
  - exists h1. split; [done|]. unfold bind. by rewrite Hv.
Qed.

Lemma devuelve_nuevo_ext (f g : ref -> M ref) (v w : frame -> result frame) :
  (forall r h, f r h = g r h) -> (forall d, v d = w d) ->
  devuelve_nuevo f v -> devuelve_nuevo g w.
Proof.
  intros Hfg Hvw Hf h r d Hr. destruct (Hf h r d Hr) as (h' & Hsub & Hv).
  exists h'. split; [done|]. rewrite <- Hvw.
  destruct (v d); [|by rewrite <- Hfg].
  destruct Hv as (r' & ? & ? & ?). exists r'. by rewrite <- Hfg.
Qed.

Lemma bind_ret {A} (m : M A) (h : heap) : bind m ret h = m h.
Proof. unfold bind, ret. by destruct (m h) as [[a|e] h']. Qed.

Section WithLibrary.
Context `{PyLib}.

Lemma limpiar_dataframe_devuelve_nuevo (mapeo : option (gmap string string)) :
  devuelve_nuevo (fun df => limpiar_dataframe df mapeo) (limpiar_dataframe_val mapeo).
Proof.
  pose proof (devuelve_nuevo_bind _ _ _ _ normalizar_strings_devuelve_nuevo
    (devuelve_nuevo_bind _ _ _ _ eliminar_filas_vacias_devuelve_nuevo
      (devuelve_nuevo_bind _ _ _ _ (renombrar_columnas_devuelve_nuevo mapeo)
        (devuelve_nuevo_bind _ _ _ _ convertir_columnas_monetarias_devuelve_nuevo
          convertir_columnas_fecha_devuelve_nuevo)))) as Hall.
  eapply devuelve_nuevo_ext; [| |exact Hall].
  - intros r h. unfold limpiar_dataframe, bind.
    destruct (normalizar_strings r h) as [[r1|e] h1]; [|done].
    destruct (eliminar_filas_vacias r1 h1) as [[r2|e] h2]; [|done].
    destruct (renombrar_columnas r2 mapeo h2) as [[r3|e] h3]; [|done].
    destruct (convertir_columnas_monetarias r3 h3) as [[r4|e] h4]; [|done].
    by destruct (convertir_columnas_fecha r4 h4) as [[r5|e] h5].
  - intros d. unfold limpiar_dataframe_val, and_then. reflexivity.
Qed.

(** A call on a frame given by value returns what the value-level
    function computes. *)
Lemma call_devuelve_nuevo (f : ref -> M ref) (v : frame -> result frame)
    (df : frame) :
  devuelve_nuevo f v -> call f df = v df.
Proof.
  intros Hf. destruct (Hf {[ 0%nat := df ]} 0%nat df) as (h' & _ & Hv).
  { apply lookup_singleton_eq. }
  unfold call. destruct (v df) as [d'|e].
  - destruct Hv as (r' & -> & _ & Hr'). by rewrite (lookup_total_correct _ _ _ Hr').
  - by rewrite Hv.
Qed.

End WithLibrary.

End CleaningFacts.

(** ** api_scraper.py: the translation of the filters *)

Module ApiScraperSpec.
Import PyStr Config ApiScraper.

Lemma lower_celebrado_truthy (estado : string) :
  lower estado = "celebrado" -> truthy estado = true.
Proof. destruct estado; [discriminate|reflexivity]. Qed.

(** C8.  With the department code 668000, the modality code 13 and a status
    that is "Celebrado" in any mix of upper and lower case, the predicate
    of the fallback query names the department "Santander", the modality
    "Mínima cuantía" and the six statuses of the equivalence set in an
    IN clause. *)
Theorem construir_where_santander_minima_celebrado (estado : string) :
  lower estado = "celebrado" ->
  _construir_where (Some "668000") (Some (Una "13")) (Some estado) None None None
  = "departamento='Santander' AND modalidad_de_contratacion='Mínima cuantía' AND estado_contrato in('Cerrado','terminado','En ejecución','Modificado','Prorrogado','cedido')"
  /\ DEPARTAMENTO_MAP !! "668000" = Some "Santander"
  /\ MODALIDAD_MAP !! "13" = Some "Mínima cuantía"
  /\ length ESTADO_CELEBRADO_EQUIVALENTES = 6%nat.
Proof.
  intros He. split; [|by vm_compute].
  unfold _construir_where, cond_estado, presente.
  rewrite (lower_celebrado_truthy _ He), He. by vm_compute.
Qed.

Lemma construir_where_santander_minima_celebrado_witness :
  lower "CELEbrado" = "celebrado"
  /\ where_paginas (consulta_desde_params SEARCH_SANTANDER_MINIMA_CELEBRADO)
     = "departamento='Santander' AND modalidad_de_contratacion='Mínima cuantía' AND estado_contrato in('Cerrado','terminado','En ejecución','Modificado','Prorrogado','cedido')".
Proof.
  split; [reflexivity|].
  exact (proj1 (construir_where_santander_minima_celebrado "Celebrado" eq_refl)).
Defined.

End ApiScraperSpec.

(** ** cleaning.py: the currency rule *)

Module CurrencySpec.
Import PyStr PyFloat Pandas Cleaning PyStrFacts.

(** The conversion, with the parts of the split written as the texts
    around the first comma and around the last dot. *)
Lemma convertir_moneda_desplegada (valor : string) :
  _convertir_moneda_colombiana valor
  = (if String.eqb (strip valor) "" || String.eqb (sin_prefijo valor) "" then None
     else if contains_char "," (sin_prefijo valor) then
       float_of_string (remove_char "." (before_first "," (sin_prefijo valor)) ++ "."
                        ++ before_first "," (after_first "," (sin_prefijo valor)))
     else if contains_char "." (sin_prefijo valor) then
       if (String.length (after_last "." (sin_prefijo valor)) <=? 2)%nat
       then float_of_string (remove_char "." (before_last "." (sin_prefijo valor)) ++ "."
                             ++ after_last "." (sin_prefijo valor))
       else float_of_string (remove_char "." (sin_prefijo valor))
     else float_of_string (sin_prefijo valor)).
Proof.
  set (s := sin_prefijo valor).
  unfold _convertir_moneda_colombiana. fold s.
  assert (Hblank : negb (truthy valor) || String.eqb (strip valor) ""
                   = String.eqb (strip valor) "").
  { destruct valor; reflexivity. }
  rewrite Hblank. destruct (String.eqb (strip valor) ""); [done|]. simpl.
  unfold truthy. rewrite negb_involutive.
  destruct (String.eqb s ""); [done|].
  destruct (contains_char "," s) eqn:Hc.
  - destruct (split_char_second "," s Hc) as [-> ->].
    by rewrite split_char_first.
  - destruct (contains_char "." s) eqn:Hd; [|done].
    rewrite split_char_last.
    destruct (split_char_tail "." s Hd) as (t & Hs & _).
    destruct (split_char_cons "." (after_first "." s)) as (h2 & t2 & Hs2).
    assert (Hlen : (1 <? length (split_char "." s))%nat = true).
    { rewrite Hs, Hs2. reflexivity. }
    rewrite Hlen, andb_true_r.
    destruct (String.length (after_last "." s) <=? 2)%nat; [|done].
    by rewrite (split_char_init "." s Hd).
Qed.

(** Without a digit at its head, [read_digits] reads nothing. *)
Lemma read_digits_count acc cnt s :
  has_char is_digit s = false -> snd (fst (read_digits acc cnt s)) = cnt.
Proof.
  destruct s as [|x s]; simpl; [done|].
  intros [Hx _]%orb_false_elim. by rewrite Hx.
Qed.

Lemma read_digits_rest acc cnt s :
  has_char is_digit s = false -> snd (read_digits acc cnt s) = s.
Proof.
  destruct s as [|x s]; simpl; [done|].
  intros [Hx _]%orb_false_elim. by rewrite Hx.
Qed.

(** [strtod] returns a finite number only from a text with a digit. *)
Lemma strtod_sin_digitos s :
  has_char is_digit s = false ->
  strtod s = None \/ (exists neg, strtod s = Some (PInf neg)) \/ strtod s = Some PNan.
Proof.
  intros Hs. unfold strtod.
  destruct (read_sign s) as [neg r] eqn:Hsign.
  assert (Hr : has_char is_digit r = false).
  { unfold read_sign in Hsign.
    destruct s as [|x s']; [by injection Hsign as <- <-|].
    simpl in Hs. apply orb_false_elim in Hs as [Hx Hs'].
    destruct (ascii_dec x "-") as [->|]; [by injection Hsign as <- <-|].
    destruct (ascii_dec x "+") as [->|]; [by injection Hsign as <- <-|].
    assert (r = String x s') as ->.
    { destruct x as [[] [] [] [] [] [] [] []]; try congruence; by injection Hsign. }
    simpl. by rewrite Hx, Hs'. }
  destruct (String.eqb (lower r) "inf" || String.eqb (lower r) "infinity"); [eauto|].
  destruct (String.eqb (lower r) "nan"); [eauto|].
  pose proof (read_digits_count 0 0 r Hr) as Hc.
  pose proof (read_digits_rest 0 0 r Hr) as Hrest.
  destruct (read_digits 0 0 r) as [[i ni] r1]. simpl in Hc, Hrest. subst ni r1.
  left. destruct r as [|y r']; [done|].
  destruct (ascii_dec y ".") as [->|Hy].
  - simpl in Hr.
    pose proof (read_digits_count i 0 r' Hr) as Hc'.
    destruct (read_digits i 0 r') as [[m nf] r2]. simpl in Hc'. by subst nf.
  - assert (Hm : match String y r' with String "." r'0 => read_digits i 0 r'0 | _ => (i, 0%nat, String y r') end = (i, 0%nat, String y r')).
    { destruct y as [[] [] [] [] [] [] [] []]; try reflexivity. congruence. }
    rewrite Hm. reflexivity.
Qed.

(** So does [float]: stripping and removing underscores add no digit. *)
Lemma float_of_string_sin_digitos t :
  has_char is_digit t = false ->
  float_of_string t = None \/ (exists neg, float_of_string t = Some (PInf neg))
  \/ float_of_string t = Some PNan.
Proof.
  intros Ht. unfold float_of_string.
  destruct (underscores_ok _ _); [|by left].
  apply strtod_sin_digitos.
  destruct (has_char is_digit (remove_char "_" (strip t))) eqn:H; [|done].
  apply has_char_filter, has_char_strip in H. congruence.
Qed.

Lemma sin_prefijo_sin_digitos valor :
  has_char is_digit valor = false -> has_char is_digit (sin_prefijo valor) = false.
Proof.
  intros Hv. destruct (has_char is_digit (sin_prefijo valor)) eqn:H; [|done].
  apply has_char_filter, has_char_drop_while, has_char_strip in H. congruence.
Qed.

Ltac sin_digito :=
  match goal with
  | |- has_char ?p ?s = false =>
      let H := fresh in
      destruct (has_char p s) eqn:H; [exfalso|reflexivity]
  end.

(** A text without any digit is converted to null, to an infinity or to
    NaN, never to a finite number. *)
Lemma convertir_moneda_sin_digitos valor :
  has_char is_digit valor = false ->
  _convertir_moneda_colombiana valor = None
  \/ (exists neg, _convertir_moneda_colombiana valor = Some (PInf neg))
  \/ _convertir_moneda_colombiana valor = Some PNan.
Proof.
  intros Hv. pose proof (sin_prefijo_sin_digitos valor Hv) as Hs.
  rewrite convertir_moneda_desplegada.
  set (s := sin_prefijo valor) in *.
  destruct (_ || _); [by left|].
  destruct (contains_char "," s).
  { apply float_of_string_sin_digitos. rewrite !has_char_app. 
    apply orb_false_intro; [|apply orb_false_intro; [done|]]; sin_digito.
    - apply has_char_filter, has_char_before_first in H. congruence.
    - apply has_char_before_first, has_char_after_first in H. congruence. }
  destruct (contains_char "." s); [|by apply float_of_string_sin_digitos].
  destruct (_ <=? _)%nat.
  - apply float_of_string_sin_digitos. rewrite !has_char_app.
    apply orb_false_intro; [|apply orb_false_intro; [done|]]; sin_digito.
    + apply has_char_filter, has_char_before_last in H. congruence.
    + apply has_char_after_last in H. congruence.
  - apply float_of_string_sin_digitos. sin_digito.
    apply has_char_filter in H. congruence.
Qed.

(** The two examples of the docstring, and texts without a number. *)
Lemma convertir_moneda_ejemplos :
  _convertir_moneda_colombiana "$1.234.567.890" = Some (PFinite false 1234567890 0)
  /\ _convertir_moneda_colombiana "$1.234.567,89" = Some (PFinite false 123456789 (-2))
  /\ value (PFinite false 123456789 (-2)) = Some (123456789 # 100)
  /\ _convertir_moneda_colombiana "" = None
  /\ _convertir_moneda_colombiana "   " = None
  /\ _convertir_moneda_colombiana "sin valor" = None
  /\ _convertir_moneda_colombiana "N/A" = None.
Proof. by vm_compute. Qed.

(** C3.  The text "-inf" holds no digit, and the currency conversion does
    not return null for it: the sign stops the removal of the prefix and
    [float] reads the rest as minus infinity. *)
Theorem convertir_moneda_menos_inf :
  has_char is_digit "-inf" = false
  /\ _convertir_moneda_colombiana "-inf" = Some (PInf true)
  /\ cell_of_float (PInf true) = CFloat (PInf true)
  /\ isna (CFloat (PInf true)) = false.
Proof. by vm_compute. Qed.

(** C4, as the code has it.  With a comma in the cleaned text, the integer
    part is what stands before the first comma, dots removed, and the
    fraction is what stands between the first comma and the second (or
    the end); with exactly one comma these are the parts before and after
    the last comma.  With dots only, the last group is the fraction when
    it has at most two characters, else every dot is removed.  The result
    is null exactly when [float] rejects the text built this way. *)
Theorem convertir_moneda_por_partes (valor : string) :
  let s := sin_prefijo valor in
  _convertir_moneda_colombiana valor
  = (if String.eqb (strip valor) "" || String.eqb s "" then None
     else if contains_char "," s then
       float_of_string (remove_char "." (before_first "," s) ++ "."
                        ++ before_first "," (after_first "," s))
     else if contains_char "." s then
       if (String.length (after_last "." s) <=? 2)%nat
       then float_of_string (remove_char "." (before_last "." s) ++ "."
                             ++ after_last "." s)
       else float_of_string (remove_char "." s)
     else float_of_string s)
  /\ (contains_char "," s = true ->
      contains_char "," (after_first "," s) = false ->
      _convertir_moneda_colombiana valor = moneda_segun_spec valor).
Proof.
  intros s. pose proof (convertir_moneda_desplegada valor) as Heq. fold s in Heq.
  split; [exact Heq|].
  intros Hc Hone. rewrite Heq. unfold moneda_segun_spec. fold s.
  destruct (String.eqb (strip valor) ""); [done|]. simpl.
  destruct (String.eqb s ""); [done|]. rewrite Hc.
  by destruct (one_comma "," s Hc Hone) as [-> ->].
Qed.

Lemma convertir_moneda_por_partes_witness :
  contains_char "," (sin_prefijo "$1.234.567,89") = true
  /\ contains_char "," (after_first "," (sin_prefijo "$1.234.567,89")) = false
  /\ _convertir_moneda_colombiana "$1.234.567,89" = moneda_segun_spec "$1.234.567,89".
Proof.
  split; [reflexivity|]. split; [reflexivity|].
  apply (proj2 (convertir_moneda_por_partes "$1.234.567,89")); reflexivity.
Defined.

(** C4, as the specification words it, fails on a text with two commas:
    the code takes "1" and "2" and returns 1.2, while the parts around
    the last comma are "1,2" and "3", which is no number. *)
Lemma convertir_moneda_ultima_coma_counterexample :
  _convertir_moneda_colombiana "1,2,3" = Some (PFinite false 12 (-1))
  /\ before_last "," (sin_prefijo "1,2,3") = "1,2"
  /\ after_last "," (sin_prefijo "1,2,3") = "3"
  /\ moneda_segun_spec "1,2,3" = None
  /\ _convertir_moneda_colombiana "1,2,3" <> moneda_segun_spec "1,2,3".
Proof. by vm_compute. Qed.

(** *** The converted column *)

Lemma write_cells_length (i : nat) (cs : list cell) (rs : list (list cell)) :
  length (write_cells i cs rs) = length rs.
Proof.
  revert cs. induction rs as [|r rs IH]; intros [|c cs]; simpl; [done..|].
  by rewrite IH.
Qed.

Lemma fold_left_inv {A B : Type} (P : A -> Prop) (f : A -> B -> A) (l : list B) (a : A) :
  P a -> (forall a b, P a -> P (f a b)) -> P (fold_left f l a).
Proof. intros Ha Hf. revert a Ha. induction l as [|b l IH]; simpl; auto. Qed.

Lemma assign_map_filas (col : string) (g : list cell -> dtype * list cell) (d : frame) :
  length (rows (assign_map col g d)) = length (rows d).
Proof.
  unfold assign_map.
  apply (fold_left_inv (fun d' => length (rows d') = length (rows d))); [done|].
  intros a i Ha. destruct (g (column_at a i)) as [dt cs]. simpl.
  by rewrite write_cells_length.
Qed.

Section Columna.
Context `{PyLib}.

(** The conversion of the currency columns keeps every row. *)
Lemma convertir_columnas_monetarias_filas (d : frame) :
  length (rows (convertir_columnas_monetarias_val d)) = length (rows d).
Proof.
  unfold convertir_columnas_monetarias_val.
  apply (fold_left_inv (fun d' => length (rows d') = length (rows d))); [done|].
  intros a col Ha. by rewrite assign_map_filas.
Qed.

End Columna.

(** In the converted column a value the conversion rejects is a null, at
    the place of the value. *)
Lemma infer_float_column_nulo (vs : list (option pyfloat)) (i : nat) :
  vs !! i = Some None ->
  exists k, (infer_float_column vs).2 !! i = Some (CNull k).
Proof.
  intros Hi. unfold infer_float_column.
  destruct (existsb _ vs); simpl; rewrite list_lookup_fmap, Hi; simpl; eauto.
Qed.

End CurrencySpec.

(** ** pandas: duplicates *)

Module PandasFacts.
Import Pandas.

Lemma list_eqb_refl {A} (eqb : A -> A -> bool) (l : list A) :
  (forall a, eqb a a = true) -> list_eqb eqb l l = true.
Proof. intros He. induction l as [|a l IH]; simpl; [done|]. by rewrite He, IH. Qed.

Lemma cell_eqb_na_refl (c : cell) : cell_eqb_na c c = true.
Proof. unfold cell_eqb_na. rewrite bool_decide_eq_true_2 by done. apply orb_true_r. Qed.

Lemma same_on_refl (df : frame) (subset : list string) (r : list cell) :
  same_on df subset r r = true.
Proof.
  unfold same_on.
  assert (Hl : list_eqb cell_eqb_na (project df subset r) (project df subset r) = true)
    by apply list_eqb_refl, cell_eqb_na_refl.
  destruct subset as [|c [|c' cs]]; try exact Hl.
  destruct (bool_decide (NoDup (labels df))); [|exact Hl].
  by apply bool_decide_eq_true_2.
Qed.

Lemma same_on_labels (d1 d2 : frame) (subset : list string) (r1 r2 : list cell) :
  labels d1 = labels d2 -> same_on d1 subset r1 r2 = same_on d2 subset r1 r2.
Proof.
  intros Hl. unfold same_on, project, positions. by rewrite Hl.
Qed.

Lemma existsb_app_l {A} (f : A -> bool) (l1 l2 : list A) :
  existsb f l1 = true -> existsb f (l1 ++ l2) = true.
Proof. intros Hf. rewrite existsb_app, Hf. reflexivity. Qed.

Lemma keep_first_app {A} (same : A -> A -> bool) (seen l1 l2 : list A) :
  keep_first same seen (l1 ++ l2)
  = keep_first same seen l1 ++ keep_first same (seen ++ l1) l2.
Proof.
  revert seen. induction l1 as [|x l1 IH]; intros seen; simpl.
  - by rewrite app_nil_r.
  - rewrite IH, <- app_assoc. simpl. by destruct (existsb (same x) seen).
Qed.

Lemma keep_first_seen {A} (same : A -> A -> bool) (seen l : list A) :
  (forall x, x ∈ l -> existsb (same x) seen = true) -> keep_first same seen l = [].
Proof.
  revert seen. induction l as [|x l IH]; intros seen Hall; simpl; [done|].
  rewrite (Hall x) by apply list_elem_of_here.
  apply IH. intros y Hy. apply existsb_app_l, Hall. by apply list_elem_of_further.
Qed.

Lemma keep_first_twice {A} (same : A -> A -> bool) (l : list A) :
  (forall x, same x x = true) ->
  keep_first same [] (l ++ l) = keep_first same [] l.
Proof.
  intros Hrefl. rewrite keep_first_app, (keep_first_seen same ([] ++ l) l);
    [by rewrite app_nil_r|].
  intros x Hx. simpl. apply existsb_exists. exists x.
  split; [by apply list_elem_of_In|apply Hrefl].
Qed.

Lemma keep_first_not_seen {A} (same : A -> A -> bool) (seen l : list A) (x : A) :
  x ∈ keep_first same seen l -> x ∈ l /\ existsb (same x) seen = false.
Proof.
  revert seen. induction l as [|y l IH]; intros seen; simpl; [by intros ?%elem_of_nil|].
  destruct (existsb (same y) seen) eqn:Hy.
  - intros [Hin Hs]%IH. split; [by apply list_elem_of_further|].
    rewrite existsb_app in Hs. by apply orb_false_elim in Hs as [? _].
  - intros [->|[Hin Hs]%IH]%elem_of_cons.
    + split; [apply list_elem_of_here|done].
    + split; [by apply list_elem_of_further|].
      rewrite existsb_app in Hs. by apply orb_false_elim in Hs as [? _].
Qed.

Lemma keep_first_NoDup {A} (same : A -> A -> bool) (seen l : list A) :
  (forall x, same x x = true) -> NoDup (keep_first same seen l).
Proof.
  intros Hrefl. revert seen. induction l as [|y l IH]; intros seen; simpl.
  - apply NoDup_nil_2.
  - destruct (existsb (same y) seen); [apply IH|].
    apply NoDup_cons_2; [|apply IH].
    intros [_ Hs]%keep_first_not_seen. rewrite existsb_app in Hs.
    apply orb_false_elim in Hs as [_ Hs]. simpl in Hs. by rewrite Hrefl in Hs.
Qed.

Lemma keep_first_elem {A} (same : A -> A -> bool) (seen l : list A) (x : A) :
  (forall a b, same a b = true -> a = b) ->
  x ∈ l -> existsb (same x) seen = false -> x ∈ keep_first same seen l.
Proof.
  intros Heq. revert seen. induction l as [|y l IH]; intros seen Hin Hs;
    [by apply elem_of_nil in Hin|].
  simpl. destruct (same x y) eqn:Hxy.
  - apply Heq in Hxy as <-. rewrite Hs. apply list_elem_of_here.
  - apply elem_of_cons in Hin as [->|Hin].
    + destruct (existsb (same y) seen); [done|apply list_elem_of_here].
    + assert (Hs' : existsb (same x) (seen ++ [y]) = false).
      { rewrite existsb_app, Hs. simpl. by rewrite Hxy. }
      destruct (existsb (same y) seen); [by apply IH|].
      apply list_elem_of_further. by apply IH.
Qed.

Lemma keep_first_sin_repetidos {A} (same : A -> A -> bool) (seen l : list A) :
  (forall a b, same a b = true -> a = b) ->
  NoDup l -> (forall x, x ∈ l -> existsb (same x) seen = false) ->
  keep_first same seen l = l.
Proof.
  intros Heq. revert seen. induction l as [|y l IH]; intros seen Hnd Hs; [done|].
  apply NoDup_cons in Hnd as [Hy Hnd]. simpl.
  rewrite (Hs y) by apply list_elem_of_here. f_equal. apply IH; [done|].
  intros x Hx. rewrite existsb_app, (Hs x) by (by apply list_elem_of_further).
  simpl. rewrite orb_false_r. destruct (same x y) eqn:Hxy; [|done].
  apply Heq in Hxy as ->. done.
Qed.

Lemma union_labels_elem (dfs : list frame) (l : string) :
  l ∈ flat_map labels dfs -> l ∈ union_labels dfs.
Proof.
  intros Hin. apply keep_first_elem; [|done..].
  intros a b. apply String.eqb_eq.
Qed.

Lemma concat_dtype_twice (df : frame) (col : string) :
  concat_dtype [df; df] col = concat_dtype [df] col.
Proof.
  unfold concat_dtype. simpl. destruct (dtype_of df col) as [d|]; [|done].
  by destruct d.
Qed.

Lemma keep_first_ext {A} (same1 same2 : A -> A -> bool) (seen l : list A) :
  (forall x y, same1 x y = same2 x y) ->
  keep_first same1 seen l = keep_first same2 seen l.
Proof.
  intros He. revert seen. induction l as [|x l IH]; intros seen; simpl; [done|].
  rewrite IH. assert (Hx : existsb (same1 x) seen = existsb (same2 x) seen).
  { clear -He. induction seen as [|y seen IH]; simpl; [done|]. by rewrite He, IH. }
  by rewrite Hx.
Qed.

(** Removing the duplicates of a table laid twice end to end gives what
    removing the duplicates of the table gives. *)
Lemma drop_duplicates_twice (cols1 cols2 : list (string * dtype)) (rs : list (list cell)) :
  map fst cols1 = map fst cols2 ->
  rows (drop_duplicates (mk_frame cols1 (rs ++ rs)))
  = rows (drop_duplicates (mk_frame cols2 rs)).
Proof.
  intros Hl. unfold drop_duplicates. simpl.
  rewrite keep_first_twice by (intros; apply same_on_refl).
  apply keep_first_ext. intros x y.
  unfold labels. simpl. rewrite Hl. by apply same_on_labels.
Qed.

Section KeepLast.
Context {A K : Type} `{EqDecision K} (key : A -> K).
Abbreviation same := (same_key key).

Lemma existsb_same (x : A) (l : list A) :
  existsb (same x) l = true <-> key x ∈ map key l.
Proof.
  rewrite existsb_exists. change (map key l) with (key <$> l).
  rewrite list_elem_of_fmap. split.
  - intros (y & Hy & Hs). apply bool_decide_eq_true in Hs.
    exists y. split; [done|by apply list_elem_of_In].
  - intros (y & Hk & Hy). exists y. split; [by apply list_elem_of_In|].
    by apply bool_decide_eq_true.
Qed.

Lemma keep_last_app (l1 l2 : list A) :
  keep_last same (l1 ++ l2)
  = filter (fun r => negb (existsb (same r) l2)) (keep_last same l1)
    ++ keep_last same l2.
Proof.
  induction l1 as [|x l1 IH]; simpl; [done|].
  rewrite existsb_app.
  destruct (existsb (same x) l1) eqn:H1; simpl; [exact IH|].
  destruct (existsb (same x) l2) eqn:H2; simpl.
  - rewrite filter_cons_False; [exact IH|]. rewrite H2. simpl. tauto.
  - rewrite filter_cons_True; [by rewrite IH|]. by rewrite H2.
Qed.

Lemma keep_last_sub (l : list A) (x : A) : x ∈ keep_last same l -> x ∈ l.
Proof.
  induction l as [|y l IH]; simpl; [done|].
  destruct (existsb (same y) l).
  - intros ?%IH. by apply list_elem_of_further.
  - intros [->|?%IH]%elem_of_cons; [apply list_elem_of_here|by apply list_elem_of_further].
Qed.

Lemma keep_last_keys (l : list A) (k : K) :
  k ∈ map key (keep_last same l) <-> k ∈ map key l.
Proof.
  induction l as [|y l IH]; simpl; [done|].
  destruct (existsb (same y) l) eqn:Hy.
  - rewrite IH, elem_of_cons. split; [auto|].
    intros [->|?]; [|done]. by apply existsb_same.
  - simpl. rewrite !elem_of_cons, IH. done.
Qed.

Lemma keep_last_NoDup (l : list A) : NoDup (map key (keep_last same l)).
Proof.
  induction l as [|y l IH]; simpl; [apply NoDup_nil_2|].
  destruct (existsb (same y) l) eqn:Hy; [done|].
  simpl. apply NoDup_cons_2; [|done].
  rewrite keep_last_keys. intros Hin%existsb_same. congruence.
Qed.

(** The last row of a key is kept. *)
Lemma keep_last_last (l1 l2 : list A) (x : A) :
  key x ∉ map key l2 -> x ∈ keep_last same (l1 ++ x :: l2).
Proof.
  intros Hx. rewrite keep_last_app, elem_of_app. right. simpl.
  destruct (existsb (same x) l2) eqn:Hs; [|apply list_elem_of_here].
  by apply existsb_same in Hs.
Qed.
End KeepLast.

Lemma keep_last_ext {A} (same1 same2 : A -> A -> bool) (l : list A) :
  (forall x y, same1 x y = same2 x y) -> keep_last same1 l = keep_last same2 l.
Proof.
  intros He. induction l as [|x l IH]; simpl; [done|].
  assert (Hx : existsb (same1 x) l = existsb (same2 x) l).
  { clear -He. induction l as [|y l IH]; simpl; [done|]. by rewrite He, IH. }
  by rewrite Hx, IH.
Qed.

Lemma project_labels (d1 d2 : frame) (cols : list string) (r : list cell) :
  labels d1 = labels d2 -> project d1 cols r = project d2 cols r.
Proof. intros Hl. unfold project, positions. by rewrite Hl. Qed.

Lemma same_on_key (df : frame) (clave : string) (x y : list cell) :
  NoDup (labels df) ->
  same_on df [clave] x y = bool_decide (project df [clave] x = project df [clave] y).
Proof. intros Hnd. unfold same_on. by rewrite bool_decide_eq_true_2. Qed.

End PandasFacts.

(** ** parser.py: errors of a page, consolidation *)

Module ParserSpec.
Import PyStr Exceptions Pandas Config Soup Parser PandasFacts Ejemplos.

Section WithLibrary.
Context `{PyLib}.

(** C5, as the code has it.  A page without a table and a page whose
    table has no data row both make [parsear_pagina] raise a
    [SecopParsingError]: the two errors are of one class and differ in
    their message and context.  [parsear_pagina] raises nothing else,
    and never a [SecopEmptyTableError]; that class is raised by the
    consolidation of pages when no page gave rows. *)
Theorem parsear_pagina_errores (html : document) :
  match _encontrar_tabla (soup html) with
  | None => parsear_pagina html = Raise (SinTabla (html_length html))
  | Some tabla =>
      _extraer_filas tabla = [] ->
      parsear_pagina html = Raise (SinFilas (_extraer_encabezados tabla))
  end
  /\ (forall e, parsear_pagina html = Raise e ->
        exn_cls e = SecopParsingError
        /\ isinstance e SecopEmptyTableError = false
        /\ (e = SinTabla (html_length html)
            \/ exists enc, e = SinFilas enc)
        /\ parsear_todas_paginas [html] = Raise (NingunaPagina 1 1)
        /\ exn_cls (NingunaPagina 1 1) = SecopEmptyTableError)
  /\ (forall n enc, exn_message (SinTabla n) <> exn_message (SinFilas enc)).
Proof.
  split; [|split].
  - unfold parsear_pagina. destruct (_encontrar_tabla (soup html)) as [tabla|]; [|done].
    by intros ->.
  - intros e He.
    assert (Hcases : e = SinTabla (html_length html) \/ exists enc, e = SinFilas enc).
    { unfold parsear_pagina in He.
      destruct (_encontrar_tabla (soup html)) as [tabla|]; [|left; congruence].
      destruct (_extraer_filas tabla) as [|fila0 filas];
        [right; injection He as <-; eauto|].
      by destruct (_ && _). }
    assert (Hcls : exn_cls e = SecopParsingError).
    { by destruct Hcases as [->|[enc ->]]. }
    split; [done|]. split; [|split; [done|]].
    + unfold isinstance. by rewrite Hcls.
    + unfold parsear_todas_paginas, parsear_cada_pagina. rewrite He.
      unfold isinstance. by rewrite Hcls.
  - intros n enc. discriminate.
Qed.

(** C6.  A page that parses, consolidated alone and consolidated twice
    over, gives the same frame, hence the same number of rows; in that
    frame no row occurs twice and every row is a row of the page. *)
Theorem consolidar_pagina_repetida (p : document) (df : frame) :
  parsear_pagina p = Ok df ->
  exists d,
    parsear_todas_paginas [p] = Ok d
    /\ parsear_todas_paginas [p; p] = Ok d
    /\ labels d = labels df
    /\ NoDup (rows d)
    /\ (forall r, r ∈ rows d -> r ∈ rows df).
Proof.
  intros Hp. unfold parsear_todas_paginas, parsear_cada_pagina. rewrite Hp. simpl.
  unfold concat. simpl.
  rewrite bool_decide_eq_true_2 by done. simpl. rewrite !app_nil_r.
  eexists. split; [reflexivity|]. split; [|split; [|split]].
  - f_equal. unfold drop_duplicates at 1 2.
    f_equal.
    + apply map_ext. intros c. by rewrite concat_dtype_twice.
    + apply (drop_duplicates_twice _ _ (rows df)). simpl.
      by rewrite !map_map.
  - unfold labels. simpl. by rewrite map_map.
  - unfold drop_duplicates. simpl. apply keep_first_NoDup. intros; apply same_on_refl.
  - unfold drop_duplicates. simpl. by intros r [? _]%keep_first_not_seen.
Qed.

End WithLibrary.

Lemma parsear_pagina_errores_witness :
  _extraer_filas
    (Tag "table" [("class", "tbl_resulados")]
       [Tag "tr" [] [th "Numero Proceso"; th "Entidad"]]) = []
  /\ @parsear_pagina lib_ejemplo pagina_tabla_vacia
     = Raise (SinFilas ["numero_proceso"; "entidad"])
  /\ @parsear_pagina lib_ejemplo pagina_sin_tabla = Raise (SinTabla 58).
Proof.
  split; [reflexivity|]. split.
  - exact (proj1 (@parsear_pagina_errores lib_ejemplo pagina_tabla_vacia) eq_refl).
  - exact (proj1 (@parsear_pagina_errores lib_ejemplo pagina_sin_tabla)).
Defined.

(** C5 as stated fails: the error for a page without a table and the error
    for a table without rows are not two classes of the taxonomy, both
    are [SecopParsingError], and neither is the [SecopEmptyTableError]. *)
Lemma parsear_pagina_misma_clase_counterexample :
  exists e1 e2,
    _encontrar_tabla (soup pagina_sin_tabla) = None
    /\ @parsear_pagina lib_ejemplo pagina_sin_tabla = Raise e1
    /\ _encontrar_tabla (soup pagina_tabla_vacia) <> None
    /\ @parsear_pagina lib_ejemplo pagina_tabla_vacia = Raise e2
    /\ exn_cls e1 = exn_cls e2
    /\ exn_cls e2 <> SecopEmptyTableError.
Proof.
  exists (SinTabla 58), (SinFilas ["numero_proceso"; "entidad"]).
  by vm_compute.
Qed.

Lemma consolidar_pagina_repetida_witness :
  exists d,
    @parsear_todas_paginas lib_ejemplo [pagina_un_contrato] = Ok d
    /\ @parsear_todas_paginas lib_ejemplo [pagina_un_contrato; pagina_un_contrato] = Ok d
    /\ len d = 1%nat.
Proof.
  destruct (@consolidar_pagina_repetida lib_ejemplo pagina_un_contrato _ eq_refl)
    as (d & H1 & H2 & _).
  exists d. split; [exact H1|]. split; [exact H2|].
  vm_compute in H1. by injection H1 as <-.
Defined.

End ParserSpec.

(** ** detail_scraper.py: the historical store *)

Module DetailScraperSpec.
Import PyStr Exceptions Pandas DetailScraper PandasFacts Ejemplos.

Section WithLibrary.
Context `{PyLib}.

(** C7.  Merging a new snapshot into a stored one with the same unique
    column labels, the key column among them: the result is the stored
    rows whose key the new snapshot does not have, then the new rows,
    each key kept in its last row.  So a key of both snapshots keeps the
    row of the new snapshot only, the keys of the result are the keys
    of one snapshot or the other, and no key occurs twice.  The result
    is what is written back. *)
Theorem actualizar_base_historica_claves
    (historica nuevos : frame) (ruta clave : string) (fs : filesystem) :
  fs !! ruta = Some historica ->
  labels historica = labels nuevos -> NoDup (labels nuevos) -> clave ∈ labels nuevos ->
  exists combinado,
    actualizar_base_historica nuevos ruta clave fs
    = (Ok combinado, guardar ruta combinado fs)
    /\ labels combinado = labels nuevos
    /\ rows combinado
       = filter (fun r => project nuevos [clave] r ∉ claves nuevos clave)
                (keep_last (same_on nuevos [clave]) (rows historica))
         ++ keep_last (same_on nuevos [clave]) (rows nuevos)
    /\ (forall k, k ∈ claves combinado clave <->
                  k ∈ claves historica clave \/ k ∈ claves nuevos clave)
    /\ NoDup (claves combinado clave)
    /\ (forall r, r ∈ rows combinado ->
          project nuevos [clave] r ∈ claves nuevos clave -> r ∈ rows nuevos).
Proof.
  intros Hfs Hlab Hnd Hclave.
  unfold actualizar_base_historica. rewrite Hfs. simpl.
  unfold concat. simpl. rewrite bool_decide_eq_true_2 by done. simpl.
  rewrite app_nil_r.
  set (cols := map (fun c => (c.1, concat_dtype [historica; nuevos] c.1)) (columns historica)).
  set (c0 := mk_frame cols (rows historica ++ rows nuevos)).
  assert (Hl0 : labels c0 = labels nuevos).
  { unfold labels, c0, cols. simpl. rewrite map_map. simpl. exact Hlab. }
  assert (Hhas : has_column c0 clave = true).
  { unfold has_column. apply bool_decide_eq_true_2. by rewrite Hl0. }
  rewrite Hhas.
  set (key := project nuevos [clave]).
  assert (Hsame : forall x y, same_on c0 [clave] x y = same_key key x y).
  { intros x y. rewrite (same_on_labels c0 nuevos) by done. by apply same_on_key. }
  assert (Hsame' : forall x y, same_on nuevos [clave] x y = same_key key x y).
  { intros x y. by apply same_on_key. }
  assert (Hrows : rows (drop_duplicates_last clave c0)
                  = filter (fun r => key r ∉ map key (rows nuevos))
                           (keep_last (same_key key) (rows historica))
                    ++ keep_last (same_key key) (rows nuevos)).
  { unfold drop_duplicates_last. simpl.
    rewrite (keep_last_ext _ _ _ Hsame), (keep_last_app key). f_equal.
    apply list_filter_iff. intros r. rewrite Is_true_true, negb_true_iff.
    rewrite <- not_true_iff_false. by rewrite (existsb_same key). }
  exists (drop_duplicates_last clave c0).
  assert (Hl : labels (drop_duplicates_last clave c0) = labels nuevos) by exact Hl0.
  split; [done|]. split; [done|].
  split; [|split; [|split]].
  - rewrite Hrows, !(keep_last_ext _ _ _ Hsame'). done.
  - intros k. unfold claves.
    rewrite (map_ext _ key) by (intros; by apply project_labels).
    rewrite (map_ext (project historica [clave]) key) by (intros; by apply project_labels).
    fold (claves nuevos clave). unfold claves. fold key.
    unfold drop_duplicates_last. simpl. rewrite (keep_last_ext _ _ _ Hsame).
    rewrite (keep_last_keys key). rewrite map_app, elem_of_app. done.
  - unfold claves.
    rewrite (map_ext _ key) by (intros; by apply project_labels).
    unfold drop_duplicates_last. simpl. rewrite (keep_last_ext _ _ _ Hsame).
    apply (keep_last_NoDup key).
  - intros r. rewrite Hrows, elem_of_app. unfold claves. fold key.
    intros [[Hno _]%list_elem_of_filter|Hin] Hk; [done|].
    by eapply (keep_last_sub key).
Qed.

End WithLibrary.

Lemma actualizar_base_historica_claves_witness :
  claves historica_ejemplo "numero_proceso" = [[CStr "MC-001"]; [CStr "MC-002"]]
  /\ claves nuevos_ejemplo "numero_proceso" = [[CStr "MC-001"]; [CStr "MC-003"]]
  /\ exists combinado,
       fst (@actualizar_base_historica lib_ejemplo nuevos_ejemplo "historica.csv"
              "numero_proceso" {[ "historica.csv" := historica_ejemplo ]})
       = Ok combinado
       /\ rows combinado
          = [[CStr "MC-002"; CStr "Celebrado"]; [CStr "MC-001"; CStr "Celebrado"];
             [CStr "MC-003"; CStr "Convocado"]]
       /\ NoDup (claves combinado "numero_proceso").
Proof.
  split; [reflexivity|]. split; [reflexivity|].
  destruct (@actualizar_base_historica_claves lib_ejemplo
              historica_ejemplo nuevos_ejemplo "historica.csv" "numero_proceso"
              {[ "historica.csv" := historica_ejemplo ]})
    as (combinado & Hrun & _ & Hrows & _ & Hnd & _).
  - apply lookup_singleton_eq.
  - reflexivity.
  - apply (bool_decide_unpack _). by vm_compute.
  - apply (bool_decide_unpack _). by vm_compute.
  - exists combinado. rewrite Hrun. split; [reflexivity|]. split; [|exact Hnd].
    rewrite Hrows. by vm_compute.
Defined.

End DetailScraperSpec.

(** ** cleaning.py: empty rows, and the input of every function *)

Module CleaningSpec.
Import PyStr PyFloat Exceptions Pandas Heap Config Cleaning Parser.
Import HeapFacts CleaningFacts Ejemplos.

Section WithLibrary.
Context `{PyLib}.

Lemma positions_from_spec col ls k i :
  i ∈ positions_from k col ls <-> exists j, i = (k + j)%nat /\ ls !! j = Some col.
Proof.
  revert k. induction ls as [|l ls IH]; intros k; simpl.
  - split; [by intros ?%elem_of_nil|]. by intros (j & _ & ?).
  - destruct (String.eqb l col) eqn:Hl.
    + apply String.eqb_eq in Hl as ->. rewrite elem_of_cons, IH. split.
      * intros [->|(j & -> & Hj)]; [exists 0%nat; split; [lia|done]|].
        exists (S j). split; [lia|done].
      * intros ([|j] & -> & Hj); [left; lia|]. right. exists j. split; [lia|done].
    + apply String.eqb_neq in Hl. rewrite IH. split.
      * intros (j & -> & Hj). exists (S j). split; [lia|done].
      * intros ([|j] & -> & Hj); [simpl in Hj; congruence|].
        exists j. split; [lia|done].
Qed.

Lemma positions_spec df col i :
  i ∈ positions df col <-> labels df !! i = Some col.
Proof.
  unfold positions. rewrite positions_from_spec. split.
  - by intros (j & -> & Hj).
  - intros Hi. by exists i.
Qed.

Lemma elem_of_project df cols row c :
  c ∈ project df cols row <->
  exists col i, col ∈ cols /\ labels df !! i = Some col /\ row !! i = Some c.
Proof.
  unfold project. rewrite list_elem_of_In, in_flat_map. split.
  - intros (col & Hcol & Hc). apply list_elem_of_In in Hcol, Hc.
    apply list_elem_of_omap in Hc as (i & Hi & Hri).
    apply positions_spec in Hi. eauto.
  - intros (col & i & Hcol & Hi & Hri). exists col. rewrite <- !list_elem_of_In.
    split; [done|]. apply list_elem_of_omap. exists i. by rewrite positions_spec.
Qed.

Lemma elem_of_project_row df cols row c : c ∈ project df cols row -> c ∈ row.
Proof. intros (col & i & _ & _ & Hri)%elem_of_project. by eapply list_elem_of_lookup_2. Qed.

Lemma labels_lookup df i col :
  labels df !! i = Some col <-> exists dt, columns df !! i = Some (col, dt).
Proof.
  unfold labels. change (map fst (columns df)) with (fst <$> columns df).
  rewrite list_lookup_fmap. destruct (columns df !! i) as [[l dt]|]; simpl.
  - split; [intros [= ->]; eauto|]. by intros (? & [= -> ->]).
  - split; [done|]. by intros (? & ?).
Qed.

Lemma elem_of_select_dtypes_object df col :
  col ∈ select_dtypes_object df <-> (col, DObject) ∈ columns df.
Proof.
  unfold select_dtypes_object. change (map fst ?l) with (fst <$> l).
  rewrite list_elem_of_fmap. split.
  - intros ([l dt] & -> & [Hdt Hin]%list_elem_of_filter). simpl in *.
    apply bool_decide_spec in Hdt. by subst.
  - intros Hin. exists (col, DObject). split; [done|].
    apply list_elem_of_filter. split; [|done]. by apply bool_decide_spec.
Qed.

Lemma forallb_false_exists {A} (f : A -> bool) (l : list A) :
  forallb f l = false <-> exists x, x ∈ l /\ f x = false.
Proof.
  induction l as [|a l IH]; simpl.
  - split; [done|]. by intros (x & ?%elem_of_nil & _).
  - rewrite andb_false_iff, IH. split.
    + intros [Ha|(x & Hx & Hfx)]; [exists a|exists x]; split; auto;
        [apply list_elem_of_here|by apply list_elem_of_further].
    + intros (x & [->|Hx]%elem_of_cons & Hfx); eauto.
Qed.

(** The rows [eliminar_filas_vacias] keeps. *)
Lemma elem_of_eliminar df row :
  row ∈ rows (eliminar_filas_vacias_val df) <->
  row ∈ rows df /\ existsb (fun c => negb (isna c)) row = true
  /\ (select_dtypes_object df = [] \/ textos_vacios df row = false).
Proof.
  unfold eliminar_filas_vacias_val.
  change (select_dtypes_object (dropna_all df)) with (select_dtypes_object df).
  change (textos_vacios (dropna_all df)) with (textos_vacios df).
  destruct (select_dtypes_object df) as [|c0 cs] eqn:Hobj; simpl.
  - rewrite list_elem_of_filter, Is_true_true. split; [intros [??]|intros (?&?&?)]; auto.
  - rewrite !list_elem_of_filter, !Is_true_true, negb_true_iff. split.
    + intros (?&?&?); auto.
    + intros (?&?&[?|?]); [done|auto].
Qed.

Lemma normalizado_fila (df : frame) (row : list cell) :
  normalizado df = true -> row ∈ rows df ->
  length row = length (columns df)
  /\ forall i c col, row !! i = Some c -> columns df !! i = Some col ->
        celda_normalizada df col c = true.
Proof.
  unfold normalizado. rewrite forallb_forall. intros Hall Hrow.
  specialize (Hall row (proj1 (list_elem_of_In _ _) Hrow)).
  apply andb_prop in Hall as [Hlen Hcells]. apply Nat.eqb_eq in Hlen.
  split; [done|]. intros i c col Hc Hcol.
  rewrite forallb_forall in Hcells. apply (Hcells (c, col)).
  apply list_elem_of_In, list_elem_of_lookup. exists i.
  apply lookup_zip_with_Some. eauto.
Qed.

(** Empty-row elimination on a frame that string normalization has left:
    the rows removed and the rows kept.  In such a frame, a
    row whose fields are all blank or null is removed, and a row with a
    text field (a field under a column of dtype object) that is not
    blank is kept; when the frame has no text column a row is kept
    exactly when one of its fields is not null, and when it has one a row
    whose text fields are all empty is removed.  The columns stay. *)
Lemma eliminar_filas_vacias_normalizado (df : frame) (row : list cell) :
  normalizado df = true -> row ∈ rows df ->
  call eliminar_filas_vacias df = Ok (eliminar_filas_vacias_val df)
  /\ columns (eliminar_filas_vacias_val df) = columns df
  /\ (forallb en_blanco row = true -> row ∉ rows (eliminar_filas_vacias_val df))
  /\ (existsb (fun c => negb (en_blanco c)) (project df (select_dtypes_object df) row) = true ->
      row ∈ rows (eliminar_filas_vacias_val df))
  /\ (select_dtypes_object df = [] ->
      (row ∈ rows (eliminar_filas_vacias_val df) <-> existsb (fun c => negb (isna c)) row = true))
  /\ (select_dtypes_object df <> [] -> textos_vacios df row = true ->
      row ∉ rows (eliminar_filas_vacias_val df)).
Proof.
  intros Hnorm Hrow. destruct (normalizado_fila df row Hnorm Hrow) as [Hlen Hcells].
  split; [|split; [|split; [|split; [|split]]]].
  - apply (call_devuelve_nuevo _ _ df eliminar_filas_vacias_devuelve_nuevo).
  - unfold eliminar_filas_vacias_val.
    by destruct (0 <? length (select_dtypes_object (dropna_all df)))%nat.
  - intros Hblank (_ & Hnn & Htxt)%elem_of_eliminar.
    rewrite forallb_forall in Hblank. apply existsb_exists in Hnn as (c & Hc & Hcn).
    apply negb_true_iff in Hcn.
    destruct Htxt as [Hobj|Htxt].
    + (* no text column: the cell is null *)
      apply list_elem_of_In, list_elem_of_lookup in Hc as (i & Hi).
      assert (Hlt : (i < length (columns df))%nat).
      { rewrite <- Hlen. by eapply lookup_lt_Some. }
      apply lookup_lt_is_Some in Hlt as [col Hcol].
      specialize (Hcells i c col Hi Hcol). unfold celda_normalizada in Hcells.
      rewrite Hobj in Hcells.
      rewrite bool_decide_eq_false_2 in Hcells by apply not_elem_of_nil.
      rewrite Hblank in Hcells by (by eapply list_elem_of_In, list_elem_of_lookup_2).
      simpl in Hcells. congruence.
    + (* a text column with a text that is not blank *)
      unfold textos_vacios in Htxt.
      apply forallb_false_exists in Htxt as (c' & Hc' & Htest).
      pose proof (elem_of_project_row _ _ _ _ Hc') as Hin.
      apply elem_of_project in Hc' as (col & i & Hcol & Hi & Hri).
      apply labels_lookup in Hi as (dt & Hi).
      specialize (Hcells i c' (col, dt) Hri Hi). unfold celda_normalizada in Hcells.
      simpl in Hcells. rewrite bool_decide_eq_true_2 in Hcells by done.
      destruct c' as [| s | | |]; try discriminate.
      specialize (Hblank (CStr s)). unfold en_blanco in Hblank. simpl in *.
      rewrite Hblank in Htest; [done|]. by apply list_elem_of_In.
  - intros (c & Hc & Hcb)%existsb_exists. apply list_elem_of_In in Hc.
    apply negb_true_iff in Hcb. unfold en_blanco in Hcb.
    apply orb_false_elim in Hcb as [Hna Htest].
    apply elem_of_eliminar. split; [done|]. split.
    + apply existsb_exists. exists c. split.
      * by eapply list_elem_of_In, elem_of_project_row.
      * by rewrite Hna.
    + right. unfold textos_vacios. apply forallb_false_exists. eauto.
  - intros Hobj. rewrite elem_of_eliminar. split; [by intros (?&?&?)|auto].
  - intros Hobj Htxt (_ & _ & [?|?])%elem_of_eliminar; congruence.
Qed.

Lemma write_cells_upd (f : cell -> cell) (i : nat) (rs : list (list cell)) :
  write_cells i (map f (map (fun r => default (CNull NaN) (r !! i)) rs)) rs
  = map (upd f i) rs.
Proof. induction rs as [|r rs IH]; simpl; [done|]. by rewrite IH. Qed.

Lemma labels_alter (i : nat) (dt : dtype) (cols : list (string * dtype)) :
  map fst (alter (fun c => (c.1, dt)) i cols) = map fst cols.
Proof.
  apply list_eq. intros j. change (map fst ?l) with (fst <$> l).
  rewrite !list_lookup_fmap. destruct (decide (i = j)) as [->|Hne].
  - rewrite list_lookup_alter_eq. by destruct (cols !! j).
  - by rewrite list_lookup_alter_ne.
Qed.

Lemma normalizado_en_ext df0 (P Q : nat -> Prop) d :
  (forall i, P i <-> Q i) -> normalizado_en df0 P d -> normalizado_en df0 Q d.
Proof.
  intros HPQ (Hl & Hr & Hc). split; [done|]. split.
  - eapply Forall2_impl; [exact Hr|]. intros r0 r [Hlen Hcell]. split; [done|].
    intros i c Hi. destruct (Hcell i c Hi) as [H1 H2]. rewrite <- HPQ. done.
  - intros i col Hi. destruct (Hc i col Hi) as [H1 H2]. rewrite <- HPQ. done.
Qed.

Lemma normalizado_en_paso df0 (P : nat -> Prop) d (i : nat) :
  normalizado_en df0 P d -> normalizado_en df0 (fun j => j = i \/ P j) (paso_norm d i).
Proof.
  intros (Hl & Hr & Hc). unfold paso_norm, write_column, column_at.
  rewrite write_cells_upd. split; [|split].
  - unfold labels in *. simpl. by rewrite labels_alter.
  - simpl. change (map ?f ?l) with (f <$> l). apply Forall2_fmap_r.
    eapply Forall2_impl; [exact Hr|]. intros r0 r [Hlen Hcell]. unfold upd. split.
    { by rewrite length_insert. }
    intros j c Hj. destruct (decide (i = j)) as [->|Hne].
    + apply list_lookup_insert_Some in Hj as [(_ & <- & _)|[? _]]; [|done].
      split; [eauto|]. intros Hn. exfalso. apply Hn. by left.
    + rewrite list_lookup_insert_ne in Hj by done.
      destruct (Hcell j c Hj) as [H1 H2]. split.
      * intros [->|HP]; [done|auto].
      * intros Hn. apply H2. intros HP. apply Hn. by right.
  - simpl. intros j col Hj. destruct (decide (i = j)) as [->|Hne].
    + rewrite list_lookup_alter_eq in Hj.
      destruct (columns d !! j) as [c0|]; [|done]. injection Hj as <-.
      split; [done|]. intros Hn. exfalso. apply Hn. by left.
    + rewrite list_lookup_alter_ne in Hj by done.
      destruct (Hc j col Hj) as [H1 H2]. split.
      * intros [->|HP]; [done|auto].
      * intros Hn. apply H2. intros HP. apply Hn. by right.
Qed.

Lemma normalizado_en_pasos df0 (P : nat -> Prop) d (ps : list nat) :
  normalizado_en df0 P d -> normalizado_en df0 (fun j => j ∈ ps \/ P j) (fold_left paso_norm ps d).
Proof.
  revert P d. induction ps as [|i ps IH]; intros P d Hinv; simpl.
  - eapply normalizado_en_ext; [|exact Hinv]. intros j. rewrite elem_of_nil. tauto.
  - eapply normalizado_en_ext; [|apply IH, normalizado_en_paso, Hinv].
    intros j. simpl. rewrite elem_of_cons. tauto.
Qed.

Lemma normalizado_en_columnas df0 (P : nat -> Prop) d (cols : list string) :
  normalizado_en df0 P d ->
  normalizado_en df0 (fun j => (exists l, l ∈ cols /\ labels df0 !! j = Some l) \/ P j)
      (fold_left (fun d col =>
                    assign_map col (fun cs =>
                      (DObject, map (fun v => CStr (_normalizar_string v)) cs)) d)
                 cols d).
Proof.
  revert P d. induction cols as [|col cols IH]; intros P d Hinv; simpl.
  - eapply normalizado_en_ext; [|exact Hinv]. intros j. split; [auto|].
    intros [(l & Hl & _)|HP]; [by apply elem_of_nil in Hl|done].
  - eapply normalizado_en_ext; [|apply IH, (normalizado_en_pasos df0 P d (positions d col)), Hinv].
    intros j. simpl. rewrite positions_spec.
    destruct Hinv as (Hl & _). rewrite Hl. split.
    + intros [(l & Hin & Hj)|[Hj|HP]]; [left; exists l|left; exists col|by right].
      * split; [by apply list_elem_of_further|done].
      * split; [apply list_elem_of_here|done].
    + intros [(l & [->|Hin]%elem_of_cons & Hj)|HP]; [right; by left| |right; by right].
      left. eauto.
Qed.

Lemma normalizado_en_inicial df0 : normalizado_en df0 (fun _ => False) df0.
Proof.
  split; [done|]. split.
  - apply Forall2_same_length_lookup_2; [done|].
    intros j r0 r Hr0 Hr. rewrite Hr0 in Hr. injection Hr as <-. split; [done|].
    intros i c Hi. split; [done|auto].
  - intros i col Hi. split; [done|auto].
Qed.

Lemma normalizar_strings_normalizado_en (df : frame) :
  normalizado_en df (fun j => exists l, l ∈ select_dtypes_object df /\ labels df !! j = Some l)
      (normalizar_strings_val df).
Proof.
  eapply normalizado_en_ext;
    [|apply (normalizado_en_columnas df (fun _ => False) df (select_dtypes_object df)), normalizado_en_inicial].
  intros j. simpl. tauto.
Qed.

Lemma normalizar_strings_normaliza (df : frame) :
  bien_tipado df = true -> normalizado (normalizar_strings_val df) = true.
Proof.
  intros Hbt. destruct (normalizar_strings_normalizado_en df) as (Hl & Hr & Hc).
  set (dn := normalizar_strings_val df) in *.
  set (L := select_dtypes_object df) in *.
  assert (Hncols : length (columns dn) = length (columns df)).
  { unfold labels in Hl. by rewrite <- (length_map fst), Hl, length_map. }
  assert (Hobj : forall l, l ∈ select_dtypes_object dn <-> l ∈ L).
  { intros l. rewrite (elem_of_select_dtypes_object dn). split.
    - intros (i & Hi)%list_elem_of_lookup. destruct (Hc i _ Hi) as [_ Hno].
      destruct (decide (l ∈ L)) as [|Hn]; [done|].
      apply elem_of_select_dtypes_object. apply (list_elem_of_lookup_2 _ i), Hno.
      intros (l' & Hl' & Hj).
      assert (labels dn !! i = Some l) by (apply labels_lookup; eauto).
      congruence.
    - intros HL. pose proof HL as HL'.
      apply elem_of_select_dtypes_object, list_elem_of_lookup in HL' as (i & Hi).
      assert (Hli : labels df !! i = Some l) by (apply labels_lookup; eauto).
      assert (Hli' : labels dn !! i = Some l) by congruence.
      apply labels_lookup in Hli' as (dt & Hcol).
      destruct (Hc i _ Hcol) as [Hyes _]. simpl in Hyes. rewrite Hyes in Hcol by eauto.
      by eapply list_elem_of_lookup_2. }
  unfold normalizado. apply forallb_forall. intros r Hr'.
  apply list_elem_of_In, list_elem_of_lookup in Hr' as (j & Hj).
  destruct (Forall2_lookup_r _ _ _ _ _ Hr Hj) as (r0 & Hj0 & Hlen & Hcell).
  unfold bien_tipado in Hbt. rewrite forallb_forall in Hbt.
  specialize (Hbt r0 (proj1 (list_elem_of_In _ _) (list_elem_of_lookup_2 _ _ _ Hj0))).
  apply andb_prop in Hbt as [Hlen0 Hcells0]. apply Nat.eqb_eq in Hlen0.
  apply andb_true_intro. split.
  { apply Nat.eqb_eq. congruence. }
  apply forallb_forall. intros [c col] Hin.
  apply list_elem_of_In, list_elem_of_lookup in Hin as (i & Hi).
  apply lookup_zip_with_Some in Hi as (c' & col' & [= <- <-] & Hci & Hcoli).
  simpl. unfold celda_normalizada.
  assert (Hli : labels df !! i = Some col.1).
  { rewrite <- Hl. apply labels_lookup. exists col.2. by destruct col. }
  destruct (Hcell i c Hci) as [Hyes Hno]. destruct (Hc i col Hcoli) as [_ Hcno].
  destruct (decide (col.1 ∈ L)) as [HL|HL].
  - rewrite bool_decide_eq_true_2 by (by apply Hobj).
    destruct Hyes as (s & ->); eauto.
  - rewrite bool_decide_eq_false_2 by (by rewrite Hobj).
    assert (Hnp : ~ (exists l, l ∈ L /\ labels df !! i = Some l)).
    { intros (l & Hin & Hli'). congruence. }
    specialize (Hno Hnp). specialize (Hcno Hnp).
    rewrite forallb_forall in Hcells0.
    specialize (Hcells0 (c, col)). simpl in Hcells0.
    rewrite bool_decide_eq_false_2 in Hcells0 by done. apply Hcells0.
    apply list_elem_of_In, list_elem_of_lookup. exists i.
    apply lookup_zip_with_Some. eauto.
Qed.

(** C9, as the code has it.  String normalization, then empty-row
    elimination: a row of the normalized frame whose fields are all blank
    or null is removed, and a row with a text field (a field under a column
    of dtype object) that is not blank is kept; when the frame has no text
    column a row is kept exactly when one of its fields is not null, and
    when it has one a row whose text fields are all empty is removed,
    whatever its other fields hold.  The columns stay. *)
Theorem eliminar_filas_vacias_por_fila (df : frame) (row : list cell) :
  bien_tipado df = true ->
  row ∈ rows (normalizar_strings_val df) ->
  call normalizar_strings df = Ok (normalizar_strings_val df)
  /\ call eliminar_filas_vacias (normalizar_strings_val df)
     = Ok (eliminar_filas_vacias_val (normalizar_strings_val df))
  /\ columns (eliminar_filas_vacias_val (normalizar_strings_val df))
     = columns (normalizar_strings_val df)
  /\ (forallb en_blanco row = true ->
      row ∉ rows (eliminar_filas_vacias_val (normalizar_strings_val df)))
  /\ (existsb (fun c => negb (en_blanco c))
              (project (normalizar_strings_val df)
                       (select_dtypes_object (normalizar_strings_val df)) row) = true ->
      row ∈ rows (eliminar_filas_vacias_val (normalizar_strings_val df)))
  /\ (select_dtypes_object (normalizar_strings_val df) = [] ->
      (row ∈ rows (eliminar_filas_vacias_val (normalizar_strings_val df))
       <-> existsb (fun c => negb (isna c)) row = true))
  /\ (select_dtypes_object (normalizar_strings_val df) <> [] ->
      textos_vacios (normalizar_strings_val df) row = true ->
      row ∉ rows (eliminar_filas_vacias_val (normalizar_strings_val df))).
Proof.
  intros Hbt Hrow.
  split; [apply (call_devuelve_nuevo _ _ df normalizar_strings_devuelve_nuevo)|].
  apply eliminar_filas_vacias_normalizado; [|exact Hrow].
  by apply normalizar_strings_normaliza.
Qed.

Lemma devuelve_nuevo_marco (f : ref -> M ref) (v : frame -> result frame)
    (h : heap) (r : ref) (d : frame) :
  devuelve_nuevo f v -> h !! r = Some d ->
  h ⊆ snd (f r h)
  /\ snd (f r h) !! r = Some d
  /\ match fst (f r h) with
     | Ok r' => h !! r' = None /\ r' <> r
                /\ exists d', v d = Ok d' /\ snd (f r h) !! r' = Some d'
     | Raise e => v d = Raise e
     end.
Proof.
  intros Hf Hr. destruct (Hf h r d Hr) as (h' & Hsub & Hv).
  destruct (v d) as [d'|e].
  - destruct Hv as (r' & -> & Hnew & Hr'). simpl.
    split; [done|]. split; [by eapply lookup_weaken|].
    split; [done|]. split; [congruence|eauto].
  - rewrite Hv. simpl. split; [done|]. split; [by eapply lookup_weaken|done].
Qed.

(** Every function of the cleaning pipeline leaves the frame it is
    given, and every other object, as it was; the frame it returns,
    when it returns one, is an object that did not exist before. *)
Theorem limpieza_no_modifica_entrada (mapeo : option (gmap string string))
    (h : heap) (df : ref) (d : frame) :
  h !! df = Some d ->
  Forall (fun f =>
            h ⊆ snd (f df h)
            /\ snd (f df h) !! df = Some d
            /\ forall r, fst (f df h) = Ok r ->
                 h !! r = None /\ r <> df /\ is_Some (snd (f df h) !! r))
         (funciones_de_limpieza mapeo).
Proof.
  intros Hr.
  assert (Hgen : forall f v, devuelve_nuevo f v ->
            h ⊆ snd (f df h) /\ snd (f df h) !! df = Some d
            /\ forall r, fst (f df h) = Ok r ->
                 h !! r = None /\ r <> df /\ is_Some (snd (f df h) !! r)).
  { intros f v Hf. destruct (devuelve_nuevo_marco f v h df d Hf Hr) as (H1 & H2 & H3).
    split; [done|]. split; [done|]. intros r' Hres. rewrite Hres in H3.
    destruct H3 as (? & ? & d' & _ & Hv). eauto. }
  unfold funciones_de_limpieza. repeat apply Forall_cons_2; [..|apply Forall_nil_2].
  - eapply Hgen, normalizar_strings_devuelve_nuevo.
  - eapply Hgen, eliminar_filas_vacias_devuelve_nuevo.
  - apply (Hgen (fun df => renombrar_columnas df mapeo) _
                   (renombrar_columnas_devuelve_nuevo mapeo)).
  - eapply Hgen, convertir_columnas_monetarias_devuelve_nuevo.
  - eapply Hgen, convertir_columnas_fecha_devuelve_nuevo.
  - apply (Hgen (fun df => limpiar_dataframe df mapeo) _
                   (limpiar_dataframe_devuelve_nuevo mapeo)).
Qed.

End WithLibrary.

Lemma eliminar_filas_vacias_por_fila_witness :
  @bien_tipado lib_ejemplo texto_y_numero = true
  /\ [CStr "ALCALDIA"; CObj "2025"]
     ∈ rows (@normalizar_strings_val lib_ejemplo texto_y_numero)
  /\ [CStr "ALCALDIA"; CObj "2025"]
     ∈ rows (@eliminar_filas_vacias_val lib_ejemplo
               (@normalizar_strings_val lib_ejemplo texto_y_numero)).
Proof.
  assert (Hrow : [CStr "ALCALDIA"; CObj "2025"]
                 ∈ rows (@normalizar_strings_val lib_ejemplo texto_y_numero)).
  { apply list_elem_of_further, list_elem_of_here. }
  split; [reflexivity|]. split; [exact Hrow|].
  destruct (@eliminar_filas_vacias_por_fila lib_ejemplo texto_y_numero
              [CStr "ALCALDIA"; CObj "2025"] eq_refl Hrow)
    as (_ & _ & _ & _ & Hkeep & _).
  apply Hkeep. reflexivity.
Defined.

(** C9 as stated fails: in a frame that string normalization leaves as it
    is, the row with an empty text and the number 2024 has a field that is
    not blank, and empty-row elimination removes it. *)
Lemma eliminar_filas_vacias_counterexample :
  call (@normalizar_strings lib_ejemplo) texto_y_numero = Ok texto_y_numero
  /\ [CStr ""; CObj "2024"] ∈ rows texto_y_numero
  /\ existsb (fun c => negb (@en_blanco lib_ejemplo c)) [CStr ""; CObj "2024"] = true
  /\ call (@eliminar_filas_vacias lib_ejemplo) texto_y_numero
     = Ok (mk_frame [("entidad", DObject); ("anio", DOther)]
                    [[CStr "ALCALDIA"; CObj "2025"]])
  /\ [CStr ""; CObj "2024"]
     ∉ rows (mk_frame [("entidad", DObject); ("anio", DOther)]
                      [[CStr "ALCALDIA"; CObj "2025"]]).
Proof.
  split; [by vm_compute|]. split; [apply list_elem_of_here|].
  split; [by vm_compute|]. split; [by vm_compute|].
  simpl. intros Hin. apply list_elem_of_singleton in Hin. discriminate Hin.
Qed.

(** A frame built by hand whose eleven columns all carry generic labels:
    with no mapping, [renombrar_columnas] takes the ten canonical labels
    for the eleven columns and the assignment raises; so does
    [limpiar_dataframe].  The parser gives no such frame: it always adds
    the column [url_detalle]. *)
Theorem renombrar_columnas_genericas_excedidas :
  labels tabla_generica_11 = map col_generica (seq 0 11)
  /\ forallb (startswith "col_") (labels tabla_generica_11) = true
  /\ call (fun df => renombrar_columnas df None) tabla_generica_11
     = Raise (LengthMismatch 11 10)
  /\ call (fun df => @limpiar_dataframe lib_ejemplo df None) tabla_generica_11
     = Raise (LengthMismatch 11 10).
Proof. by vm_compute. Qed.

End CleaningSpec.

(** ** main.py: the two sources of a search run *)

Module MainSpec.
Import PyStr Exceptions Pandas Config Soup Parser Cleaning ApiScraper DetailScraper Main.
Import Ejemplos.

(** Membership in a list given by its elements. *)
Ltac esta := repeat first [apply list_elem_of_here | apply list_elem_of_further].
Ltac no_esta :=
  let Hin := fresh "Hin" in
  intros Hin;
  repeat (apply elem_of_cons in Hin as [Hin|Hin]; [discriminate Hin|]);
  by apply elem_of_nil in Hin.

Section WithLibrary.
Context `{PyLib}.

Lemma consultas_api_app (l1 l2 : list evento) :
  consultas_api (l1 ++ l2) = (consultas_api l1 + consultas_api l2)%nat.
Proof. unfold consultas_api. by rewrite List.filter_app, length_app. Qed.

Lemma exportaciones_app (l1 l2 : list evento) :
  exportaciones (l1 ++ l2) = (exportaciones l1 + exportaciones l2)%nat.
Proof. unfold exportaciones. by rewrite List.filter_app, length_app. Qed.

Lemma intento_selenium_sin_consultas (env : entorno) (params : SearchParams) :
  consultas_api (fst (fst (intento_selenium env params))) = 0%nat
  /\ exportaciones (fst (fst (intento_selenium env params))) = 0%nat.
Proof.
  unfold intento_selenium, cerrar_driver.
  destruct (importar_selenium env); [done|].
  destruct (crear_driver env); [done|].
  destruct (cuerpo_selenium env params) as [df exc].
  destruct (driver_quit env) as [e|]; [|done].
  by destruct (isinstance e WebDriverException).
Qed.

Lemma exportar_sin_consultas env args ruta df fs :
  consultas_api (fst (fst (exportar env args ruta df fs))) = 0%nat.
Proof.
  unfold exportar. destruct (to_csv env); [done|].
  destruct (presente (arg_historica args)); [|done].
  by destruct (actualizar_base_historica _ _ _ _) as [[?|?] ?].
Qed.

Lemma intento_api_una_consulta env args params ruta exc fs :
  consultas_api (fst (fst (intento_api env args params ruta exc fs))) = 1%nat.
Proof.
  unfold intento_api, manejar_error_api.
  destruct (consultar_contratos env _) as [df_api|e].
  - destruct (is_empty df_api); [done|].
    destruct (call _ df_api) as [df|e].
    + pose proof (exportar_sin_consultas env args ruta df fs) as He.
      destruct (exportar env args ruta df fs) as [[evs r] fs']. simpl in *.
      unfold consultas_api in *. simpl. by rewrite He.
    + by destruct exc.
  - by destruct exc.
Qed.

(** When the open-data service is queried.  It is queried once when the
    first attempt left no cleaned frame or an empty one, and not at all
    otherwise.  So an error raised before the cleaned frame exists leads
    to one query, a first attempt that succeeds with zero rows leads to
    one query, and a cleaned frame with at least one row leads to none.
    An error raised after the cleaned frame exists can only be the one of
    closing the browser, which [cerrar_driver] lets through when it is
    not a [WebDriverException]: these are the only runs in which the
    first attempt raises and the service is not queried. *)
Theorem fallback_segun_resultado (env : entorno) (args : Namespace)
    (fs : filesystem) (ruta : string) :
  generar_ruta_salida env (arg_salida args) = Ok ruta ->
  let intento := intento_selenium env (args_a_search_params args) in
  let df_limpio := snd (fst intento) in
  let exc := snd intento in
  let evs := fst (fst (ejecutar_modo_busqueda env args fs)) in
  consultas_api evs = (if falta_resultado df_limpio then 1 else 0)%nat
  /\ (df_limpio = None -> exc <> None)
  /\ (df_limpio = None -> consultas_api evs = 1%nat)
  /\ (forall df, exc = None -> df_limpio = Some df -> is_empty df = true ->
        consultas_api evs = 1%nat)
  /\ (forall df, df_limpio = Some df -> is_empty df = false ->
        consultas_api evs = 0%nat)
  /\ (forall df e, df_limpio = Some df -> exc = Some e ->
        driver_quit env = Some e /\ isinstance e WebDriverException = false).
Proof.
  intros Hruta. cbv zeta.
  assert (Hcount : consultas_api (fst (fst (ejecutar_modo_busqueda env args fs)))
    = (if falta_resultado (snd (fst (intento_selenium env (args_a_search_params args))))
       then 1 else 0)%nat).
  { unfold ejecutar_modo_busqueda. rewrite Hruta.
    pose proof (intento_selenium_sin_consultas env (args_a_search_params args)) as [Hsel _].
    destruct (intento_selenium env (args_a_search_params args)) as [[evs1 df] e].
    simpl in *. destruct (falta_resultado df).
    - pose proof (intento_api_una_consulta env args (args_a_search_params args) ruta
                    (exc_selenium_tras_intento e) fs) as Hapi.
      destruct (intento_api _ _ _ _ _ _) as [[evs3 r] fs']. simpl in *.
      rewrite !consultas_api_app, Hsel, Hapi. by destruct e.
    - pose proof (exportar_sin_consultas env args ruta (default empty_frame df) fs) as Hexp.
      destruct (exportar _ _ _ _ _) as [[evs3 r] fs']. simpl in *.
      rewrite !consultas_api_app, Hsel, Hexp. by destruct e. }
  split; [exact Hcount|]. split; [|split; [|split; [|split]]].
  - unfold intento_selenium, cuerpo_selenium.
    destruct (importar_selenium env); [done|].
    destruct (crear_driver env); [done|].
    destruct (ejecutar_scraping env _) as [[pags urls]|e]; simpl.
    + destruct (parsear_todas_paginas pags) as [df|e]; simpl.
      * destruct (call _ df) as [df'|e]; simpl.
        -- by destruct (cerrar_driver env) as [evc [e|]].
        -- by destruct (cerrar_driver env) as [evc [e'|]].
      * by destruct (cerrar_driver env) as [evc [e'|]].
    + by destruct (cerrar_driver env) as [evc [e'|]].
  - intros Hnone. by rewrite Hcount, Hnone.
  - intros df _ Hdf Hempty. rewrite Hcount, Hdf. simpl. by rewrite Hempty.
  - intros df Hdf Hempty. rewrite Hcount, Hdf. simpl. by rewrite Hempty.
  - intros df e. unfold intento_selenium, cuerpo_selenium, cerrar_driver.
    destruct (importar_selenium env); [done|].
    destruct (crear_driver env); [done|].
    destruct (ejecutar_scraping env _) as [[pags urls]|e0]; simpl.
    + destruct (parsear_todas_paginas pags) as [d|e0]; simpl.
      * destruct (call _ d) as [d'|e0]; simpl.
        -- destruct (driver_quit env) as [eq|]; [|done].
           destruct (isinstance eq WebDriverException) eqn:Hw; [done|].
           simpl. by intros _ [= ->].
        -- destruct (driver_quit env) as [eq|]; [|done].
           by destruct (isinstance eq WebDriverException).
      * destruct (driver_quit env) as [eq|]; [|done].
        by destruct (isinstance eq WebDriverException).
    + destruct (driver_quit env) as [eq|]; [|done].
      by destruct (isinstance eq WebDriverException).
Qed.

Lemma intento_selenium_eventos env params (ev : evento) :
  ev ∈ fst (fst (intento_selenium env params)) -> ev = NavegadorCerrado.
Proof.
  unfold intento_selenium, cerrar_driver.
  destruct (importar_selenium env); [by intros ?%elem_of_nil|].
  destruct (crear_driver env); [by intros ?%elem_of_nil|].
  destruct (cuerpo_selenium env params) as [df exc].
  destruct (driver_quit env) as [e|]; simpl.
  - destruct (isinstance e WebDriverException); by intros ?%elem_of_nil.
  - by intros ->%list_elem_of_singleton.
Qed.

(** The report with both causes is never printed: the variable it reads is
    not bound when the handler runs. *)
Lemma error_combinado_nunca_impreso env args fs (e1 e2 : exn) :
  ErrorCombinado e1 e2 ∉ fst (fst (ejecutar_modo_busqueda env args fs)).
Proof.
  unfold ejecutar_modo_busqueda.
  destruct (generar_ruta_salida env _) as [ruta|e]; [|apply not_elem_of_nil].
  pose proof (intento_selenium_eventos env (args_a_search_params args)) as Hsel.
  destruct (intento_selenium env _) as [[evs1 df] exc]. simpl in Hsel.
  assert (H3 : forall evs3 r fs',
    (if falta_resultado df
     then intento_api env args (args_a_search_params args) ruta
            (exc_selenium_tras_intento exc) fs
     else exportar env args ruta (default empty_frame df) fs) = (evs3, r, fs') ->
    ErrorCombinado e1 e2 ∉ evs3).
  { intros evs3 r fs'. destruct (falta_resultado df).
    - unfold intento_api, exc_selenium_tras_intento, manejar_error_api.
      destruct (consultar_contratos env _) as [df_api|e].
      + destruct (is_empty df_api).
        * intros [= <- _ _]. no_esta.
        * destruct (call _ df_api) as [d|e].
          -- unfold exportar. destruct (to_csv env); [intros [= <- _ _]; no_esta|].
             destruct (presente (arg_historica args)).
             ++ destruct (actualizar_base_historica _ _ _ _) as [[?|?] ?];
                  intros [= <- _ _]; no_esta.
             ++ intros [= <- _ _]; no_esta.
          -- intros [= <- _ _]. no_esta.
      + intros [= <- _ _]. no_esta.
    - unfold exportar. destruct (to_csv env); [intros [= <- _ _]; no_esta|].
      destruct (presente (arg_historica args)).
      + destruct (actualizar_base_historica _ _ _ _) as [[?|?] ?];
          intros [= <- _ _]; no_esta.
      + intros [= <- _ _]; no_esta. }
  destruct (if falta_resultado df then _ else _) as [[evs3 r] fs'] eqn:Hrest.
  specialize (H3 _ _ _ eq_refl). simpl.
  rewrite !not_elem_of_app. split; [|split; [|done]].
  - intros Hin%Hsel. discriminate.
  - destruct exc; no_esta.
Qed.


End WithLibrary.

Lemma fallback_segun_resultado_witness :
  generar_ruta_salida entorno_sin_datos (arg_salida sin_argumentos)
  = Ok "output/resultados.csv"
  /\ snd (@intento_selenium lib_ejemplo entorno_sin_datos
            (args_a_search_params sin_argumentos)) = Some chrome_no_inicia
  /\ consultas_api
       (fst (fst (@ejecutar_modo_busqueda lib_ejemplo entorno_sin_datos sin_argumentos ∅)))
     = 1%nat.
Proof.
  split; [reflexivity|]. split; [reflexivity|].
  destruct (@fallback_segun_resultado lib_ejemplo entorno_sin_datos sin_argumentos ∅
              "output/resultados.csv" eq_refl) as (_ & _ & Hnone & _).
  apply Hnone. reflexivity.
Defined.

(** C1.  A run in which the first attempt raises and the service is not
    queried: the page is scraped, parsed and cleaned to one row, then
    [quit] raises an exception that is not a [WebDriverException].
    [cerrar_driver], which is to keep every exception of [quit] from the
    [finally] block, catches that class only; the exception reaches the
    handler of the first attempt, which logs it and announces the change
    to the service; the service is not queried, the row of the first
    attempt is exported and the run returns 0. *)
Theorem fallback_omitido_tras_cierre_fallido :
  exists e df,
    driver_quit entorno_cierre_falla = Some e
    /\ isinstance e WebDriverException = false
    /\ @intento_selenium lib_ejemplo entorno_cierre_falla
         (args_a_search_params sin_argumentos) = ([], Some df, Some e)
    /\ len df = 1%nat
    /\ AvisoFalloSelenium e
       ∈ fst (fst (@ejecutar_modo_busqueda lib_ejemplo entorno_cierre_falla
                     sin_argumentos ∅))
    /\ consultas_api
         (fst (fst (@ejecutar_modo_busqueda lib_ejemplo entorno_cierre_falla
                       sin_argumentos ∅))) = 0%nat
    /\ exportaciones
         (fst (fst (@ejecutar_modo_busqueda lib_ejemplo entorno_cierre_falla
                       sin_argumentos ∅))) = 1%nat
    /\ snd (fst (@ejecutar_modo_busqueda lib_ejemplo entorno_cierre_falla
                   sin_argumentos ∅)) = Ok 0%Z.
Proof.
  exists (mk_exn (OtherException "MaxRetryError")
                 "Max retries exceeded with url: /session" []).
  eexists. split; [reflexivity|]. split; [reflexivity|].
  split; [by vm_compute|]. split; [reflexivity|].
  split; [vm_compute; apply list_elem_of_here|].
  split; [by vm_compute|]. split; by vm_compute.
Qed.



End MainSpec.

(** ** parser.py: the frame of a page *)

Module ParserForma.
Import PyStr Exceptions Pandas Config Soup Parser ParserFilas PandasFacts.

Lemma igualar_length (n : nat) (fila : list string) : length (igualar n fila) = n.
Proof.
  unfold igualar.
  destruct (length fila <? n)%nat eqn:H1.
  - apply Nat.ltb_lt in H1. rewrite length_app, length_replicate. lia.
  - apply Nat.ltb_ge in H1. destruct (n <? length fila)%nat eqn:H2.
    + apply Nat.ltb_lt in H2. rewrite length_take. lia.
    + apply Nat.ltb_ge in H2. lia.
Qed.

Lemma write_cells_rows_length (i : nat) (cs : list cell) (rs : list (list cell)) :
  map length (write_cells i cs rs) = map length rs.
Proof.
  revert cs. induction rs as [|r rs IH]; intros [|c cs]; simpl; [done..|].
  by rewrite IH, length_insert.
Qed.

Lemma write_cells_count (i : nat) (cs : list cell) (rs : list (list cell)) :
  length (write_cells i cs rs) = length rs.
Proof.
  rewrite <- (length_map length), write_cells_rows_length. apply length_map.
Qed.

(** What [df[col] = values] keeps and what it sets, for one value per
    row. *)
Lemma set_item_forma (col : string) (values : list cell) (df : frame) :
  length values = length (rows df) ->
  Forall (fun r => length r = length (columns df)) (rows df) ->
  Forall (fun c => snd c = DObject) (columns df) ->
  length (rows (set_item col values df)) = length (rows df)
  /\ Forall (fun r => length r = length (columns (set_item col values df)))
            (rows (set_item col values df))
  /\ col ∈ labels (set_item col values df)
  /\ Forall (fun c => snd c = DObject) (columns (set_item col values df)).
Proof.
  intros Hlen Hwf Hobj. unfold set_item.
  destruct (positions df col) as [|p ps] eqn:Hpos.
  - simpl. split; [|split; [|split]].
    + rewrite length_zip_with. lia.
    + rewrite length_app. simpl.
      apply Forall_forall. intros r Hr.
      apply list_elem_of_lookup in Hr as (i & Hi).
      apply lookup_zip_with_Some in Hi as (r0 & v & -> & Hr0 & _).
      rewrite length_app. simpl. f_equal.
      eapply (proj1 (Forall_forall _ _) Hwf), list_elem_of_lookup_2, Hr0.
    + unfold labels. simpl. rewrite map_app. simpl.
      apply elem_of_app. right. apply list_elem_of_here.
    + apply Forall_app. split; [done|]. by constructor.
  - assert (Hin : col ∈ labels df).
    { assert (Hp : p ∈ positions df col) by (rewrite Hpos; apply list_elem_of_here).
      apply CleaningSpec.positions_spec in Hp. by eapply list_elem_of_lookup_2. }
    rewrite <- Hpos. clear Hpos p ps.
    generalize (positions df col). intros ps.
    revert df Hlen Hwf Hobj Hin.
    induction ps as [|i ps IH]; intros df Hlen Hwf Hobj Hin; simpl; [done|].
    assert (Hrows : map length (rows (write_column i DObject values df))
                    = map length (rows df)).
    { apply write_cells_rows_length. }
    assert (Hcols : length (columns (write_column i DObject values df))
                    = length (columns df)).
    { simpl. apply length_alter. }
    assert (Hn : length (rows (write_column i DObject values df)) = length (rows df)).
    { apply write_cells_count. }
    destruct (IH (write_column i DObject values df)) as (H1 & H2 & H3 & H4).
    + congruence.
    + apply Forall_forall. intros r Hr.
      apply list_elem_of_lookup in Hr as (j & Hj).
      assert (Hl : map length (rows (write_column i DObject values df)) !! j
                   = Some (length r)).
      { change (map length ?l) with (length <$> l). by rewrite list_lookup_fmap, Hj. }
      rewrite Hrows in Hl. change (map length ?l) with (length <$> l) in Hl.
      rewrite list_lookup_fmap in Hl.
      destruct (rows df !! j) as [r0|] eqn:Hr0; [|done]. simpl in Hl.
      injection Hl as <-. rewrite Hcols.
      eapply (proj1 (Forall_forall _ _) Hwf), list_elem_of_lookup_2, Hr0.
    + simpl. apply Forall_forall. intros c Hc.
      apply list_elem_of_lookup in Hc as (j & Hj).
      destruct (decide (i = j)) as [->|Hne].
      * rewrite list_lookup_alter_eq in Hj.
        destruct (columns df !! j); [|done]. by injection Hj as <-.
      * rewrite list_lookup_alter_ne in Hj by done.
        eapply (proj1 (Forall_forall _ _) Hobj), list_elem_of_lookup_2, Hj.
    + unfold labels. simpl. by rewrite CleaningSpec.labels_alter.
    + split; [congruence|]. done.
Qed.

Section WithLibrary.
Context `{PyLib}.

Lemma extraer_urls_length (tabla : node) :
  length (_extraer_urls_detalle_html tabla) = length (filas_con_celdas tabla).
Proof.
  unfold _extraer_urls_detalle_html, filas_con_celdas.
  induction (find_all "tr" (contenedor tabla)) as [|tr trs IH]; [done|].
  simpl. rewrite length_app, IH, filter_cons.
  destruct (find_all "td" tr) as [|c cs]; case_decide as Hd; simpl; try done.
  all: try (by apply bool_decide_unpack in Hd).
  all: exfalso; apply Hd; by apply bool_decide_pack.
Qed.

End WithLibrary.

Lemma extraer_filas_length (tabla : node) :
  (length (_extraer_filas tabla) + length (filas_en_blanco tabla))%nat
  = length (filas_con_celdas tabla).
Proof.
  unfold _extraer_filas, filas_en_blanco, filas_con_celdas.
  induction (find_all "tr" (contenedor tabla)) as [|tr trs IH]; [done|].
  simpl. rewrite length_app, filter_cons.
  destruct (find_all "td" tr) as [|c cs] eqn:Htd; case_decide as Hd; simpl.
  - by apply bool_decide_unpack in Hd.
  - exact IH.
  - rewrite filter_cons, Htd.
    destruct (forallb _ (map get_text_strip (c :: cs))) eqn:Hb;
      case_decide as Hb'; simpl in *; try done; rewrite Hb; simpl; lia.
  - exfalso. apply Hd. by apply bool_decide_pack.
Qed.


Lemma write_cells_lookup (i : nat) (cs : list cell) (rs : list (list cell)) :
  length cs = length rs ->
  Forall (fun r => (i < length r)%nat) rs ->
  Forall2 (fun r v => r !! i = Some v) (write_cells i cs rs) cs.
Proof.
  revert cs. induction rs as [|r rs IH]; intros [|c cs] Hlen Hi; simpl in *;
    try done; try (by constructor).
  apply Forall_cons in Hi as [Hr Hrs]. constructor.
  - by apply list_lookup_insert_eq.
  - apply IH; [lia|done].
Qed.

Lemma write_cells_lookup_ne (i j : nat) (cs : list cell) (rs : list (list cell)) :
  i <> j ->
  Forall2 (fun r r' => r' !! j = r !! j) rs (write_cells i cs rs).
Proof.
  intros Hne. revert cs. induction rs as [|r rs IH]; intros [|c cs]; simpl.
  - constructor.
  - constructor.
  - apply Forall2_same_length_lookup_2; [done|]. intros; congruence.
  - constructor; [by rewrite list_lookup_insert_ne|apply IH].
Qed.

(** After [df[col] = values], with one value per row, the cells under the
    label [col] are the values, row by row. *)
Lemma set_item_columna (col : string) (values : list cell) (df : frame) (i : nat) :
  length values = length (rows df) ->
  Forall (fun r => length r = length (columns df)) (rows df) ->
  labels (set_item col values df) !! i = Some col ->
  Forall2 (fun r v => r !! i = Some v) (rows (set_item col values df)) values.
Proof.
  intros Hlen Hwf Hi. unfold set_item in *.
  destruct (positions df col) as [|p ps] eqn:Hpos.
  - unfold labels in Hi. simpl in *. rewrite map_app in Hi. simpl in Hi.
    assert (Hi' : i = length (columns df)).
    { destruct (decide (i < length (map fst (columns df)))%nat) as [Hlt|Hge].
      - rewrite lookup_app_l in Hi by done.
        assert (Hp : i ∈ positions df col) by by apply CleaningSpec.positions_spec.
        rewrite Hpos in Hp. by apply elem_of_nil in Hp.
      - apply lookup_lt_Some in Hi. rewrite length_app, length_map in *. simpl in Hi. lia. }
    subst i. apply Forall2_same_length_lookup_2.
    + rewrite length_zip_with. lia.
    + intros j r v Hr Hv.
      apply lookup_zip_with_Some in Hr as (r0 & v' & -> & Hr0 & Hv').
      assert (v' = v) as -> by congruence.
      assert (Hl : length r0 = length (columns df)).
      { eapply (proj1 (Forall_forall _ _) Hwf), list_elem_of_lookup_2, Hr0. }
      rewrite lookup_app_r by lia. by rewrite Hl, Nat.sub_diag.
  - rewrite <- Hpos in *. clear Hpos p ps.
    assert (Hfold : forall ps d,
      labels (fold_left (fun d i => write_column i DObject values d) ps d) = labels d
      /\ map length (rows (fold_left (fun d i => write_column i DObject values d) ps d))
         = map length (rows d)).
    { induction ps as [|p ps IH]; intros d; simpl; [done|].
      destruct (IH (write_column p DObject values d)) as [-> ->]. split.
      - unfold labels. simpl. apply CleaningSpec.labels_alter.
      - apply write_cells_rows_length. }
    rewrite (proj1 (Hfold _ _)) in Hi.
    assert (Hin : i ∈ positions df col) by by apply CleaningSpec.positions_spec.
    assert (Hlt : (i < length (columns df))%nat).
    { apply lookup_lt_Some in Hi. unfold labels in Hi. by rewrite length_map in Hi. }
    clear Hi. revert Hin. generalize (positions df col). intros ps.
    revert df Hlen Hwf Hlt.
    induction ps as [|p ps IH]; intros df Hlen Hwf Hlt Hin; simpl.
    { by apply elem_of_nil in Hin. }
    assert (Hwf' : Forall (fun r => length r = length (columns (write_column p DObject values df)))
                          (rows (write_column p DObject values df))).
    { simpl. rewrite length_alter. apply Forall_forall. intros r Hr.
      apply list_elem_of_lookup in Hr as (j & Hj).
      assert (Hl : map length (write_cells p values (rows df)) !! j = Some (length r)).
      { change (map length ?l) with (length <$> l). by rewrite list_lookup_fmap, Hj. }
      rewrite write_cells_rows_length in Hl.
      change (map length ?l) with (length <$> l) in Hl. rewrite list_lookup_fmap in Hl.
      destruct (rows df !! j) as [r0|] eqn:Hr0; [|done]. injection Hl as <-.
      eapply (proj1 (Forall_forall _ _) Hwf), list_elem_of_lookup_2, Hr0. }
    assert (Hlen' : length values = length (rows (write_column p DObject values df))).
    { simpl. by rewrite write_cells_count. }
    destruct (decide (i ∈ ps)) as [Hps|Hps].
    { apply IH; try done. simpl. by rewrite length_alter. }
    apply elem_of_cons in Hin as [->|]; [|done].
    (* the cells written at [p] stay: no later position is [p] *)
    assert (Hstay : forall ps d,
      p ∉ ps ->
      Forall2 (fun r r' => r' !! p = r !! p) (rows d)
              (rows (fold_left (fun d i => write_column i DObject values d) ps d))).
    { clear. induction ps as [|q ps IH]; intros d Hq; simpl.
      - apply Forall2_same_length_lookup_2; [done|]. intros; congruence.
      - apply not_elem_of_cons in Hq as [Hne Hq].
        pose proof (write_cells_lookup_ne q p values (rows d) (not_eq_sym Hne)) as H1.
        pose proof (IH (write_column q DObject values d) Hq) as H2. simpl in H2.
        apply Forall2_same_length_lookup_2.
        + rewrite <- (Forall2_length _ _ _ H2). by rewrite write_cells_count.
        + intros j r r' Hr Hr'.
          destruct (Forall2_lookup_l _ _ _ _ _ H1 Hr) as (r1 & Hr1 & E1).
          destruct (Forall2_lookup_l _ _ _ _ _ H2 Hr1) as (r2 & Hr2 & E2).
          assert (r2 = r') as -> by congruence. congruence. }
    pose proof (write_cells_lookup p values (rows df) Hlen) as Hw.
    assert (Hall : Forall (fun r => (p < length r)%nat) (rows df)).
    { eapply Forall_impl; [exact Hwf|]. simpl. intros r ->. done. }
    specialize (Hw Hall).
    pose proof (Hstay ps (write_column p DObject values df) Hps) as Hs. simpl in Hs.
    apply Forall2_same_length_lookup_2.
    + rewrite <- (Forall2_length _ _ _ Hs). by rewrite write_cells_count.
    + intros j r v Hr Hv.
      destruct (Forall2_lookup_r _ _ _ _ _ Hs Hr) as (r1 & Hr1 & E1).
      destruct (Forall2_lookup_l _ _ _ _ _ Hw Hr1) as (v1 & Hv1 & E2).
      assert (v1 = v) as -> by congruence. congruence.
Qed.


Lemma filas_igualadas (n : nat) (filas : list (list string)) :
  Forall (fun r => length r = n) (map (map CStr) (map (igualar n) filas)).
Proof.
  apply Forall_forall. intros r Hr. rewrite map_map in Hr.
  apply list_elem_of_In, in_map_iff in Hr as (r0 & <- & _).
  by rewrite length_map, igualar_length.
Qed.

(** Every row [_extraer_filas] returns has a cell with text, so it is not
    empty; header rows and rows of empty cells are left out. *)
Theorem extraer_filas_con_texto (tabla : node) :
  Forall (fun fila => exists c, c ∈ fila /\ c <> "") (_extraer_filas tabla).
Proof.
  unfold _extraer_filas. apply Forall_forall. intros fila Hin.
  apply list_elem_of_In, in_flat_map in Hin as (tr & _ & Hin).
  destruct (find_all "td" tr) as [|c cs]; [done|].
  destruct (forallb _ _) eqn:Hb; [done|].
  destruct Hin as [<-|[]].
  apply CleaningSpec.forallb_false_exists in Hb as (x & Hx & Hne).
  exists x. split; [done|]. by apply String.eqb_neq.
Qed.

Section WithLibrary.
Context `{PyLib}.

(** The columns [parsear_pagina] chooses for [n] cells per row are [n]
    columns. *)
Lemma columnas_length (encabezados : list string) (n : nat) :
  length (if bool_decide (encabezados <> []) && (length encabezados =? n)%nat
          then encabezados
          else if (n <=? length COLUMNAS_RESULTADO)%nat
               then take n COLUMNAS_RESULTADO
               else map col_generica (seq 0 n)) = n.
Proof.
  destruct (bool_decide _ && _) eqn:Hb.
  - apply andb_true_iff in Hb as [_ Hb]. by apply Nat.eqb_eq in Hb.
  - destruct (n <=? _)%nat eqn:Hle.
    + apply Nat.leb_le in Hle. rewrite length_take. lia.
    + by rewrite length_map, length_seq.
Qed.

(** The frame of a page, before the links are added. *)
Lemma parsear_pagina_desplegada (html : document) (df : frame) :
  parsear_pagina html = Ok df ->
  exists tabla fila0 resto columnas urls,
    _encontrar_tabla (soup html) = Some tabla
    /\ _extraer_filas tabla = fila0 :: resto
    /\ length columnas = length fila0
    /\ length urls = S (length resto)
    /\ urls = (if bool_decide (filas_en_blanco tabla = [])
               then map (from_option CStr (CNull PyNone)) (_extraer_urls_detalle_html tabla)
               else replicate (S (length resto)) (CNull PyNone))
    /\ df = set_item "url_detalle" urls
              (mk_frame (map (fun c => (c, DObject)) columnas)
                        (map (map CStr) (map (igualar (length fila0)) (fila0 :: resto)))).
Proof.
  unfold parsear_pagina. intros Hp.
  destruct (_encontrar_tabla (soup html)) as [tabla|]; [|done].
  destruct (_extraer_filas tabla) as [|fila0 resto] eqn:Hfilas; [done|].
  cbv zeta in Hp.
  set (columnas := if bool_decide (_extraer_encabezados tabla <> [])
                      && (length (_extraer_encabezados tabla) =? length fila0)%nat
                   then _extraer_encabezados tabla
                   else if (length fila0 <=? length COLUMNAS_RESULTADO)%nat
                        then take (length fila0) COLUMNAS_RESULTADO
                        else map col_generica (seq 0 (length fila0))) in *.
  set (d0 := mk_frame (map (fun c => (c, DObject)) columnas)
                      (map (map CStr) (map (igualar (length fila0)) (fila0 :: resto)))) in *.
  assert (Hl : len d0 = S (length resto)).
  { unfold len, d0. simpl. by rewrite !length_map. }
  rewrite !Hl in Hp.
  exists tabla, fila0, resto, columnas,
    (if bool_decide (filas_en_blanco tabla = [])
     then map (from_option CStr (CNull PyNone)) (_extraer_urls_detalle_html tabla)
     else replicate (S (length resto)) (CNull PyNone)).
  split; [done|]. split; [done|].
  split; [apply (columnas_length (_extraer_encabezados tabla) (length fila0))|].
  pose proof (extraer_filas_length tabla) as Hcount.
  pose proof (extraer_urls_length tabla) as Hurls.
  rewrite Hfilas in Hcount. simpl in Hcount.
  destruct (filas_en_blanco tabla) as [|b bs] eqn:Hblank; simpl in Hcount.
  - rewrite bool_decide_eq_true_2 by done.
    assert (Hn : length (_extraer_urls_detalle_html tabla) = S (length resto)) by lia.
    rewrite Hn, Nat.eqb_refl, andb_true_r in Hp.
    rewrite bool_decide_eq_true_2 in Hp.
    2:{ intros E. rewrite E in Hn. done. }
    split; [by rewrite length_map|]. split; [done|]. by injection Hp as <-.
  - rewrite bool_decide_eq_false_2 by done.
    assert (Hn : length (_extraer_urls_detalle_html tabla) <> S (length resto)) by lia.
    apply Nat.eqb_neq in Hn. rewrite Hn, andb_false_r in Hp.
    split; [by rewrite length_replicate|]. split; [done|]. by injection Hp as <-.
Qed.

Lemma parsear_pagina_marco (html : document) (df : frame) :
  parsear_pagina html = Ok df ->
  exists tabla fila0 resto,
    _encontrar_tabla (soup html) = Some tabla
    /\ _extraer_filas tabla = fila0 :: resto
    /\ len df = S (length resto)
    /\ Forall (fun r => length r = length (columns df)) (rows df)
    /\ (length fila0 <= length (columns df) <= S (length fila0))%nat
    /\ "url_detalle" ∈ labels df
    /\ Forall (fun c => snd c = DObject) (columns df)
    /\ is_empty df = false.
Proof.
  intros (tabla & fila0 & resto & columnas & urls & Ht & Hf & Hcols & Hurls & _ & ->)
    %parsear_pagina_desplegada.
  exists tabla, fila0, resto. split; [done|]. split; [done|].
  set (d0 := mk_frame (map (fun c => (c, DObject)) columnas)
                      (map (map CStr) (map (igualar (length fila0)) (fila0 :: resto)))).
  assert (Hrows0 : length (rows d0) = S (length resto)).
  { unfold d0. simpl. by rewrite !length_map. }
  assert (Hwf0 : Forall (fun r => length r = length (columns d0)) (rows d0)).
  { unfold d0. cbn [rows columns]. rewrite length_map, Hcols.
    apply filas_igualadas. }
  assert (Hobj0 : Forall (fun c => snd c = DObject) (columns d0)).
  { unfold d0. simpl. apply Forall_forall. intros c Hc.
    by apply list_elem_of_In, in_map_iff in Hc as (c0 & <- & _). }
  destruct (set_item_forma "url_detalle" urls d0) as (H1 & H2 & H3 & H4);
    [congruence|done|done|].
  assert (Hncols : (length fila0 <= length (columns (set_item "url_detalle" urls d0))
                    <= S (length fila0))%nat).
  { unfold set_item. destruct (positions d0 "url_detalle") as [|p ps].
    - simpl. rewrite length_app, length_map. simpl. lia.
    - assert (Hk : forall ps d,
        length (columns (fold_left (fun d i => write_column i DObject urls d) ps d))
        = length (columns d)).
      { clear. induction ps as [|q ps IH]; intros d; simpl; [done|].
        rewrite IH. simpl. apply length_alter. }
      rewrite Hk. simpl. rewrite length_map. lia. }
  unfold len. split; [congruence|]. split; [done|]. split; [done|].
  split; [done|]. split; [done|].
  unfold is_empty.
  destruct (columns (set_item "url_detalle" urls d0)) as [|c cs] eqn:Hc.
  { unfold labels in H3. rewrite Hc in H3. by apply elem_of_nil in H3. }
  destruct (rows (set_item "url_detalle" urls d0)) as [|r rs]; [|done].
  simpl in H1. lia.
Qed.

(** The frame [parsear_pagina] returns has as many rows as the table has
    rows with text, at least one; every row has one cell per column; the
    number of columns is the number of cells of the first row, or one
    more; a column is labelled [url_detalle] and every column is of dtype
    object.  So the frame is not empty. *)
Theorem parsear_pagina_forma (html : document) (df : frame) :
  parsear_pagina html = Ok df ->
  exists tabla fila0 resto,
    _encontrar_tabla (soup html) = Some tabla
    /\ _extraer_filas tabla = fila0 :: resto
    /\ len df = S (length resto)
    /\ Forall (fun r => length r = length (columns df)) (rows df)
    /\ (length fila0 <= length (columns df) <= S (length fila0))%nat
    /\ "url_detalle" ∈ labels df
    /\ Forall (fun c => snd c = DObject) (columns df)
    /\ is_empty df = false.
Proof. apply parsear_pagina_marco. Qed.

(** The links of a page.  [_extraer_urls_detalle_html] gives one entry
    for every row with cells, [_extraer_filas] one row for every row with
    text; so when the table has a row of empty cells the links are not
    attached and every cell under [url_detalle] is [None], and when it has
    none the cells under [url_detalle] are the links, row by row. *)
Theorem parsear_pagina_urls (html : document) (df : frame) (tabla : node) (i : nat) :
  parsear_pagina html = Ok df ->
  _encontrar_tabla (soup html) = Some tabla ->
  labels df !! i = Some "url_detalle" ->
  length (_extraer_urls_detalle_html tabla)
  = (length (_extraer_filas tabla) + length (filas_en_blanco tabla))%nat
  /\ Forall2 (fun r v => r !! i = Some v) (rows df)
       (if bool_decide (filas_en_blanco tabla = [])
        then map (from_option CStr (CNull PyNone)) (_extraer_urls_detalle_html tabla)
        else replicate (len df) (CNull PyNone)).
Proof.
  intros Hp Ht Hi.
  split; [by rewrite extraer_urls_length, extraer_filas_length|].
  destruct (parsear_pagina_marco html df Hp) as (t' & f0 & rs0 & Ht' & _ & Hlen & _).
  rewrite Hlen.
  apply parsear_pagina_desplegada in Hp
    as (tabla' & fila0 & resto & columnas & urls & Ht2 & Hf & Hcols & Hurls & Hu & ->).
  assert (tabla' = tabla) as -> by congruence.
  assert (t' = tabla) as -> by congruence.
  assert (length rs0 = length resto) as ->.
  { unfold len in Hlen. destruct (set_item_forma "url_detalle" urls
      (mk_frame (map (fun c => (c, DObject)) columnas)
                (map (map CStr) (map (igualar (length fila0)) (fila0 :: resto)))))
      as (H1 & _).
    - simpl. by rewrite !length_map.
    - cbn [rows columns]. rewrite length_map, Hcols. apply filas_igualadas.
    - simpl. apply Forall_forall. intros c Hc.
      by apply list_elem_of_In, in_map_iff in Hc as (c0 & <- & _).
    - rewrite H1 in Hlen. simpl in Hlen. rewrite !length_map in Hlen. lia. }
  rewrite <- Hu.
  apply set_item_columna; [| |done].
  - simpl. by rewrite !length_map.
  - cbn [rows columns]. rewrite length_map, Hcols. apply filas_igualadas.
Qed.

End WithLibrary.

Lemma parsear_pagina_forma_witness :
  exists df,
    @parsear_pagina Ejemplos.lib_ejemplo Ejemplos.pagina_un_contrato = Ok df
    /\ len df = 1%nat /\ is_empty df = false /\ "url_detalle" ∈ labels df.
Proof.
  eexists. split; [reflexivity|].
  destruct (@parsear_pagina_forma Ejemplos.lib_ejemplo Ejemplos.pagina_un_contrato
              _ eq_refl)
    as (tabla & fila0 & resto & _ & Hf & Hlen & _ & _ & Hurl & _ & Hne).
  split; [|split; [exact Hne|exact Hurl]]. reflexivity.
Defined.

Lemma parsear_pagina_urls_witness :
  exists df,
    @parsear_pagina Ejemplos.lib_ejemplo EjemplosParser.pagina_fila_en_blanco = Ok df
    /\ _encontrar_tabla (soup EjemplosParser.pagina_fila_en_blanco)
       = Some EjemplosParser.tabla_fila_en_blanco
    /\ labels df !! 2%nat = Some "url_detalle"
    /\ length (@_extraer_urls_detalle_html Ejemplos.lib_ejemplo
                 EjemplosParser.tabla_fila_en_blanco) = 2%nat
    /\ length (_extraer_filas EjemplosParser.tabla_fila_en_blanco) = 1%nat
    /\ Forall2 (fun r v => r !! 2%nat = Some v) (rows df) [CNull PyNone].
Proof.
  eexists. split; [reflexivity|]. split; [reflexivity|]. split; [reflexivity|].
  split; [reflexivity|]. split; [reflexivity|].
  exact (proj2 (@parsear_pagina_urls Ejemplos.lib_ejemplo
                  EjemplosParser.pagina_fila_en_blanco _
                  EjemplosParser.tabla_fila_en_blanco 2%nat
                  eq_refl eq_refl eq_refl)).
Defined.

End ParserForma.

(** ** parser.py: the consolidation of pages *)

Module ParserConsolidacion.
Import PyStr Exceptions Pandas Config Soup Parser ParserFilas PandasFacts ParserForma.

Lemma length_omap_le {A B} (f : A -> option B) (l : list A) :
  (length (omap f l) <= length l)%nat.
Proof.
  induction l as [|x l IH]; [done|].
  change (omap f (x :: l))
    with (match f x with Some y => y :: omap f l | None => omap f l end).
  destruct (f x); simpl; lia.
Qed.

Section WithLibrary.
Context `{PyLib}.

(** [parsear_pagina] raises nothing but a [SecopParsingError]. *)
Lemma parsear_pagina_clase (html : document) (e : exn) :
  parsear_pagina html = Raise e -> isinstance e SecopParsingError = true.
Proof.
  unfold parsear_pagina. intros He.
  destruct (_encontrar_tabla (soup html)) as [tabla|]; [|by injection He as <-].
  destruct (_extraer_filas tabla) as [|fila0 filas]; [by injection He as <-|].
  by destruct (_ && _).
Qed.

(** The loop over the pages never leaves early: it collects the frames
    of the pages that parse and counts the others. *)
Lemma parsear_cada_pagina_frames (paginas : list document) (dfs : list frame) (n : nat) :
  parsear_cada_pagina paginas dfs n
  = Ok (dfs ++ frames_de paginas,
        (n + (length paginas - length (frames_de paginas)))%nat).
Proof.
  revert dfs n. induction paginas as [|p ps IH]; intros dfs n; simpl.
  - by rewrite app_nil_r, Nat.add_0_r.
  - assert (Hle : (length (frames_de ps) <= length ps)%nat).
    { apply length_omap_le. }
    unfold frames_de in *. simpl.
    destruct (parsear_pagina p) as [df|e] eqn:Hp.
    + rewrite IH. simpl. rewrite <- app_assoc. simpl. do 2 f_equal.
    + rewrite (parsear_pagina_clase p e Hp), IH. do 2 f_equal. lia.
Qed.

(** What the consolidation returns is decided by the frames of the pages
    that parse. *)
Lemma parsear_todas_paginas_frames (paginas : list document) :
  frames_de paginas <> [] ->
  parsear_todas_paginas paginas
  = match concat (frames_de paginas) with
    | Ok df_consolidado => Ok (drop_duplicates df_consolidado)
    | Raise e => Raise e
    end.
Proof.
  intros Hne. unfold parsear_todas_paginas.
  destruct paginas as [|p ps]; [done|].
  rewrite parsear_cada_pagina_frames.
  change ([] ++ frames_de (p :: ps)) with (frames_de (p :: ps)).
  by destruct (frames_de (p :: ps)).
Qed.

Lemma frames_de_nil (paginas : list document) :
  Forall (fun html => exists e, parsear_pagina html = Raise e) paginas
  <-> frames_de paginas = [].
Proof.
  unfold frames_de. induction paginas as [|p ps IH]; simpl.
  - split; [done|constructor].
  - destruct (parsear_pagina p) as [df|e] eqn:Hp; simpl.
    + split; [|done]. intros [[e He] _]%Forall_cons. congruence.
    + rewrite Forall_cons, IH. split; [tauto|eauto].
Qed.

Lemma parsear_todas_paginas_sin_frames (paginas : list document) :
  frames_de paginas = [] ->
  parsear_todas_paginas paginas
  = Raise (match paginas with
           | [] => SinPaginas
           | _ => NingunaPagina (length paginas) (length paginas)
           end).
Proof.
  intros Hf. unfold parsear_todas_paginas. destruct paginas as [|p ps]; [done|].
  rewrite parsear_cada_pagina_frames, Hf. cbn [app length]. by rewrite Nat.sub_0_r.
Qed.

(** The consolidation raises a [SecopEmptyTableError] exactly when no page
    parses; with no page at all the error says so, else it carries the
    number of pages, which is also the number of parsing errors. *)
Theorem parsear_todas_paginas_ninguna (paginas : list document) :
  ((exists e, parsear_todas_paginas paginas = Raise e
              /\ isinstance e SecopEmptyTableError = true)
   <-> Forall (fun html => exists e, parsear_pagina html = Raise e) paginas)
  /\ (Forall (fun html => exists e, parsear_pagina html = Raise e) paginas ->
      parsear_todas_paginas paginas
      = Raise (match paginas with
               | [] => SinPaginas
               | _ => NingunaPagina (length paginas) (length paginas)
               end)).
Proof.
  split; [|by intros ?%frames_de_nil%parsear_todas_paginas_sin_frames].
  rewrite frames_de_nil. split.
  - intros (e & He & Hcls).
    destruct (frames_de paginas) as [|d ds] eqn:Hf; [done|]. exfalso.
    rewrite parsear_todas_paginas_frames in He by (by rewrite Hf).
    rewrite Hf in He. unfold concat in He.
    destruct (forallb _ ds); [done|].
    destruct (forallb _ (d :: ds)); [done|].
    by injection He as <-.
  - intros Hf. rewrite (parsear_todas_paginas_sin_frames _ Hf).
    eexists. split; [done|]. by destruct paginas.
Qed.

(** A page that does not parse is passed over: as long as another page
    parses, the consolidation with it is the consolidation without it. *)
Theorem parsear_todas_paginas_omite (antes despues : list document)
    (html : document) (e : exn) (otra : document) (df : frame) :
  parsear_pagina html = Raise e ->
  otra ∈ antes ++ despues -> parsear_pagina otra = Ok df ->
  parsear_todas_paginas (antes ++ html :: despues)
  = parsear_todas_paginas (antes ++ despues).
Proof.
  intros He Hin Hdf.
  assert (Hsame : frames_de (antes ++ html :: despues) = frames_de (antes ++ despues)).
  { unfold frames_de. rewrite !omap_app. simpl. by rewrite He. }
  assert (Hne : frames_de (antes ++ despues) <> []).
  { unfold frames_de. intros Hnil.
    assert (Hd : df ∈ omap (fun html => match parsear_pagina html with
                                        | Ok d => Some d | Raise _ => None end)
                           (antes ++ despues)).
    { apply list_elem_of_omap. exists otra. by rewrite Hdf. }
    rewrite Hnil in Hd. by apply elem_of_nil in Hd. }
  rewrite !parsear_todas_paginas_frames by congruence. by rewrite Hsame.
Qed.

(** The frame the consolidation returns is never empty, and no row
    occurs twice in it. *)
Theorem parsear_todas_paginas_sin_repetidos (paginas : list document) (d : frame) :
  parsear_todas_paginas paginas = Ok d ->
  is_empty d = false /\ NoDup (rows d) /\ "url_detalle" ∈ labels d.
Proof.
  intros Hd.
  destruct (frames_de paginas) as [|d0 ds] eqn:Hf.
  { rewrite (parsear_todas_paginas_sin_frames _ Hf) in Hd. done. }
  rewrite parsear_todas_paginas_frames in Hd by (by rewrite Hf).
  rewrite Hf in Hd.
  assert (Hpages : Forall (fun df => is_empty df = false /\ "url_detalle" ∈ labels df)
                          (d0 :: ds)).
  { rewrite <- Hf. unfold frames_de. apply Forall_forall. intros df Hdf.
    apply list_elem_of_omap in Hdf as (p & _ & Hp).
    destruct (parsear_pagina p) as [df'|] eqn:Hpp; [|done]. injection Hp as ->.
    destruct (parsear_pagina_marco p df Hpp) as (?&?&?&_&_&_&_&_&?&_&?). done. }
  destruct (concat (d0 :: ds)) as [c|] eqn:Hc; [|done]. injection Hd as <-.
  assert (Hrows : rows c <> [] /\ "url_detalle" ∈ labels c).
  { apply Forall_cons in Hpages as [[He0 Hu0] _].
    unfold concat in Hc.
    destruct (forallb _ ds).
    - injection Hc as <-. simpl. split.
      + unfold is_empty in He0. destruct (columns d0), (rows d0); done.
      + unfold labels in *. simpl. by rewrite map_map.
    - destruct (forallb _ (d0 :: ds)); [|done]. injection Hc as <-. simpl. split.
      + unfold is_empty in He0. destruct (columns d0), (rows d0); done.
      + unfold labels. simpl. rewrite map_map. simpl. rewrite map_id.
        apply union_labels_elem. simpl.
        apply elem_of_app. by left. }
  destruct Hrows as [Hrows Hurl].
  split; [|split].
  - unfold is_empty, drop_duplicates. simpl.
    destruct (columns c) as [|c0 cs] eqn:Hcols.
    { unfold labels in Hurl. rewrite Hcols in Hurl. by apply elem_of_nil in Hurl. }
    destruct (rows c) as [|r rs]; [done|]. done.
  - unfold drop_duplicates. simpl. apply keep_first_NoDup. intros; apply same_on_refl.
  - done.
Qed.

End WithLibrary.

Lemma parsear_todas_paginas_omite_witness :
  @parsear_pagina Ejemplos.lib_ejemplo Ejemplos.pagina_sin_tabla = Raise (SinTabla 58)
  /\ (exists df, @parsear_pagina Ejemplos.lib_ejemplo Ejemplos.pagina_un_contrato = Ok df)
  /\ @parsear_todas_paginas Ejemplos.lib_ejemplo
       [Ejemplos.pagina_un_contrato; Ejemplos.pagina_sin_tabla;
        Ejemplos.pagina_un_contrato]
     = @parsear_todas_paginas Ejemplos.lib_ejemplo
         [Ejemplos.pagina_un_contrato; Ejemplos.pagina_un_contrato].
Proof.
  split; [reflexivity|]. split; [eexists; reflexivity|].
  eapply (@parsear_todas_paginas_omite Ejemplos.lib_ejemplo
            [Ejemplos.pagina_un_contrato] [Ejemplos.pagina_un_contrato]
            Ejemplos.pagina_sin_tabla _ Ejemplos.pagina_un_contrato).
  - reflexivity.
  - apply list_elem_of_here.
  - reflexivity.
Defined.

Lemma parsear_todas_paginas_sin_repetidos_witness :
  exists d,
    @parsear_todas_paginas Ejemplos.lib_ejemplo
      [Ejemplos.pagina_un_contrato; Ejemplos.pagina_tabla_vacia;
       Ejemplos.pagina_un_contrato] = Ok d
    /\ is_empty d = false /\ NoDup (rows d).
Proof.
  eexists. split; [reflexivity|].
  destruct (@parsear_todas_paginas_sin_repetidos Ejemplos.lib_ejemplo
              [Ejemplos.pagina_un_contrato; Ejemplos.pagina_tabla_vacia;
               Ejemplos.pagina_un_contrato] _ eq_refl) as (H1 & H2 & _).
  split; [exact H1|exact H2].
Defined.

End ParserConsolidacion.

(** ** cleaning.py: the normal form of a text *)

Module NormalizarSpec.
Import PyStr PyStrForma Exceptions Pandas Cleaning PyStrFacts.

Lemma sub_runs_sin_clase (p : ascii -> bool) (min : nat) (repl s : string) :
  has_char p s = false -> sub_runs p min repl "" s = s.
Proof.
  induction s as [|c r IH]; simpl; [done|].
  intros [Hc Hr]%orb_false_elim. rewrite Hc. by rewrite IH.
Qed.

(** What [sub_runs] writes for a run that is not empty. *)
Lemma flush_2 (repl run : string) :
  run <> "" ->
  exists w, (if (2 <=? String.length run)%nat then repl else run) = repl
            \/ (if (2 <=? String.length run)%nat then repl else run) = String w "".
Proof.
  destruct run as [|w [|w' r]]; [done| |]; intros _; exists w; [by right|by left].
Qed.

Lemma sub_runs_1_sin (p : ascii -> bool) (run s : string) :
  p " "%char = false -> has_char p (sub_runs p 1 " " run s) = false.
Proof.
  intros Hsp. revert run. induction s as [|c r IH]; intros run; simpl.
  - destruct run as [|w run']; [done|]. simpl. by rewrite Hsp.
  - destruct (p c) eqn:Hc; [apply IH|].
    destruct run as [|w run'].
    + simpl. by rewrite Hc, IH.
    + cbn [String.length]. rewrite app_cons, app_nil_l. simpl.
      by rewrite Hsp, Hc, IH.
Qed.

Lemma sin_dobles_tail (p : ascii -> bool) (c : ascii) (r : string) :
  sin_dobles p (String c r) = true -> sin_dobles p r = true.
Proof. simpl. destruct r; [done|]. by intros [_ ?]%andb_true_iff. Qed.

Lemma sin_dobles_cons (p : ascii -> bool) (c : ascii) (r : string) :
  p c = false -> sin_dobles p r = true -> sin_dobles p (String c r) = true.
Proof. intros Hc Hr. simpl. destruct r; [done|]. by rewrite Hc. Qed.

Lemma sin_dobles_antes (p : ascii -> bool) (w c : ascii) (r : string) :
  p c = false -> sin_dobles p (String c r) = true ->
  sin_dobles p (String w (String c r)) = true.
Proof.
  intros Hc Hr. change (negb (p w && p c) && sin_dobles p (String c r) = true).
  by rewrite Hc, andb_false_r, Hr.
Qed.

Lemma sub_runs_2_sin_dobles (p : ascii -> bool) (run s : string) :
  sin_dobles p (sub_runs p 2 " " run s) = true.
Proof.
  revert run. induction s as [|c r IH]; intros run.
  - cbn [sub_runs]. destruct run as [|w run']; [done|].
    by destruct (flush_2 " " (String w run')) as (w' & [->| ->]).
  - cbn [sub_runs]. destruct (p c) eqn:Hc; [apply IH|].
    destruct run as [|w run'].
    + apply sin_dobles_cons; [done|apply IH].
    + destruct (flush_2 " " (String w run')) as (w' & [->| ->]); [done| |];
        rewrite app_cons, app_nil_l;
        (apply sin_dobles_antes; [done|apply sin_dobles_cons; [done|apply IH]]).
Qed.

Lemma sub_runs_2_chars (p q : ascii -> bool) (run s : string) :
  q " "%char = false -> has_char q run = false -> has_char q s = false ->
  has_char q (sub_runs p 2 " " run s) = false.
Proof.
  intros Hsp. revert run. induction s as [|c r IH]; intros run Hrun Hs.
  - cbn [sub_runs]. destruct run as [|w run']; [done|].
    destruct (2 <=? String.length (String w run'))%nat; [simpl; by rewrite Hsp|done].
  - cbn [sub_runs]. simpl in Hs. apply orb_false_elim in Hs as [Hc Hr].
    destruct (p c).
    + apply IH; [|done]. rewrite has_char_app. simpl. by rewrite Hrun, Hc.
    + destruct run as [|w run'].
      * simpl. rewrite Hc. by apply IH.
      * rewrite has_char_app. cbn [has_char]. rewrite Hc, (IH "" eq_refl Hr).
        destruct (2 <=? String.length (String w run'))%nat;
          [simpl; by rewrite Hsp|by rewrite Hrun].
Qed.

(** A text without two characters of the class in a row is left as it is. *)
Lemma sub_runs_2_id (p : ascii -> bool) (repl t : string) :
  sin_dobles p t = true ->
  sub_runs p 2 repl "" t = t
  /\ forall w, p w = true ->
       match t with String d _ => p d = false | EmptyString => True end ->
       sub_runs p 2 repl (String w "") t = String w t.
Proof.
  induction t as [|c r IH]; intros Hd.
  - split; [done|]. by intros w _ _.
  - pose proof (sin_dobles_tail p c r Hd) as Hr. destruct (IH Hr) as [IH1 IH2].
    split.
    + cbn [sub_runs]. destruct (p c) eqn:Hc.
      * rewrite app_nil_l. apply IH2; [done|].
        destruct r as [|d r']; [done|]. simpl in Hd.
        apply andb_true_iff in Hd as [Hd _]. rewrite Hc in Hd. simpl in Hd.
        by apply negb_true_iff in Hd.
      * by rewrite IH1.
    + intros w Hw Hc. cbn [sub_runs]. rewrite Hc. cbn [String.length Nat.leb].
      by rewrite app_cons, app_nil_l, IH1.
Qed.

Lemma rstrip_head (q : ascii -> bool) (s : string) (d : ascii) (r : string) :
  rstrip_with q s = String d r -> exists r0, s = String d r0.
Proof.
  destruct s as [|c s']; simpl; [done|].
  destruct (rstrip_with q s'); [destruct (q c)|]; intros [= <- _]; eauto.
Qed.

Lemma rstrip_cons (q : ascii -> bool) (c : ascii) (r : string) :
  rstrip_with q (String c r)
  = match rstrip_with q r with
    | EmptyString => if q c then EmptyString else String c EmptyString
    | r' => String c r'
    end.
Proof. reflexivity. Qed.

Lemma rstrip_idem (q : ascii -> bool) (s : string) :
  rstrip_with q (rstrip_with q s) = rstrip_with q s.
Proof.
  induction s as [|c r IH]; [done|]. rewrite rstrip_cons.
  destruct (rstrip_with q r) as [|d r'] eqn:Hr.
  - destruct (q c) eqn:Hc; [done|]. rewrite rstrip_cons. simpl. by rewrite Hc.
  - by rewrite (rstrip_cons q c (String d r')), IH.
Qed.

Lemma sin_dobles_rstrip (p q : ascii -> bool) (s : string) :
  sin_dobles p s = true -> sin_dobles p (rstrip_with q s) = true.
Proof.
  induction s as [|c r IH]; [done|]. intros Hd. simpl.
  pose proof (sin_dobles_tail p c r Hd) as Hr.
  destruct (rstrip_with q r) as [|d r'] eqn:Hrs.
  - by destruct (q c).
  - destruct (rstrip_head q r d r' Hrs) as (r0 & ->).
    specialize (IH Hr).
    change (negb (p c && p d) && sin_dobles p (String d r') = true).
    rewrite IH, andb_true_r. simpl in Hd. by apply andb_true_iff in Hd as [Hd _].
Qed.

Lemma sin_dobles_drop_while (p q : ascii -> bool) (s : string) :
  sin_dobles p s = true -> sin_dobles p (drop_while q s) = true.
Proof.
  induction s as [|c r IH]; [done|]. intros Hd. simpl.
  destruct (q c); [|done]. eapply IH, sin_dobles_tail, Hd.
Qed.

Lemma strip_with_idem (q : ascii -> bool) (s : string) :
  strip_with q (strip_with q s) = strip_with q s.
Proof.
  unfold strip_with, lstrip_with.
  assert (Hhead : drop_while q (rstrip_with q (drop_while q s))
                  = rstrip_with q (drop_while q s)).
  { destruct (rstrip_with q (drop_while q s)) as [|d r] eqn:Hr; [done|].
    destruct (rstrip_head q _ d r Hr) as (r0 & Hs).
    assert (Hd : q d = false).
    { clear Hr. induction s as [|c s' IH]; [done|]. simpl in Hs.
      destruct (q c) eqn:Hc; [by apply IH|]. by injection Hs as <- _. }
    simpl. by rewrite Hd. }
  by rewrite Hhead, rstrip_idem.
Qed.

Section WithLibrary.
Context `{PyLib}.

(** The text [_normalizar_string] returns has no line break or tab, no
    white space at its ends and no two white-space characters in a row;
    normalizing it again leaves it as it is. *)
Theorem normalizar_string_idempotente (valor : cell) :
  _normalizar_string (CStr (_normalizar_string valor)) = _normalizar_string valor
  /\ has_char is_nl_cr_tab (_normalizar_string valor) = false
  /\ strip (_normalizar_string valor) = _normalizar_string valor
  /\ sin_dobles is_space (_normalizar_string valor) = true.
Proof.
  assert (Hforma : has_char is_nl_cr_tab (_normalizar_string valor) = false
                   /\ strip (_normalizar_string valor) = _normalizar_string valor
                   /\ sin_dobles is_space (_normalizar_string valor) = true).
  { unfold _normalizar_string. destruct (isna valor); [done|].
    split; [|split].
    - destruct (has_char is_nl_cr_tab (strip _)) eqn:Hc; [|done].
      apply has_char_strip in Hc.
      rewrite sub_runs_2_chars in Hc; [done|done|done|by apply sub_runs_1_sin].
    - apply strip_with_idem.
    - unfold strip, strip_with, lstrip_with.
      apply sin_dobles_rstrip, sin_dobles_drop_while, sub_runs_2_sin_dobles. }
  split; [|exact Hforma]. destruct Hforma as (Hnl & Hstrip & Hdob).
  unfold _normalizar_string at 1. cbn [isna py_str].
  rewrite (sub_runs_sin_clase is_nl_cr_tab 1 " " _ Hnl).
  by rewrite (proj1 (sub_runs_2_id is_space " " _ Hdob)).
Qed.

End WithLibrary.

End NormalizarSpec.

(** ** cleaning.py: what the conversions change *)

Module CleaningColumnas.
Import PyStr PyFloat Exceptions Pandas Heap Config Cleaning CleaningCeldas.
Import PyStrFacts CleaningFacts CurrencySpec CleaningSpec.

Lemma positions_from_nil (k : nat) (col : string) (ls : list string) :
  col ∉ ls -> positions_from k col ls = [].
Proof.
  revert k. induction ls as [|l r IH]; intros k Hn; simpl; [done|].
  apply not_elem_of_cons in Hn as [Hne Hn].
  destruct (String.eqb l col) eqn:E; [by apply String.eqb_eq in E|by apply IH].
Qed.

Lemma positions_from_unica (k i : nat) (col : string) (ls : list string) :
  NoDup ls -> ls !! i = Some col -> positions_from k col ls = [(k + i)%nat].
Proof.
  revert k i. induction ls as [|l r IH]; intros k i Hnd Hi; [done|].
  apply NoDup_cons in Hnd as [Hl Hnd]. simpl.
  destruct i as [|i]; simpl in Hi.
  - injection Hi as ->. rewrite String.eqb_refl, positions_from_nil by done.
    by rewrite Nat.add_0_r.
  - destruct (String.eqb l col) eqn:E.
    + apply String.eqb_eq in E as ->. exfalso. apply Hl.
      by eapply list_elem_of_lookup_2.
    + rewrite (IH (S k) i) by done. f_equal. lia.
Qed.

(** With labels that are all different, an assignment to the column [col]
    writes one position. *)
Lemma assign_map_unica (col : string) (g : list cell -> dtype * list cell)
    (d : frame) (i : nat) :
  NoDup (labels d) -> labels d !! i = Some col ->
  assign_map col g d
  = write_column i (fst (g (column_at d i))) (snd (g (column_at d i))) d.
Proof.
  intros Hnd Hi. unfold assign_map, positions.
  rewrite (positions_from_unica 0 i col (labels d)) by done. simpl.
  by destruct (g (column_at d i)).
Qed.

Lemma upd_lookup_ne (f : cell -> cell) (i j : nat) (r : list cell) :
  i <> j -> upd f i r !! j = r !! j.
Proof. intros Hne. unfold upd. by rewrite list_lookup_insert_ne. Qed.

Lemma upd_lookup (f : cell -> cell) (i : nat) (r : list cell) (c : cell) :
  r !! i = Some c -> upd f i r !! i = Some (f c).
Proof.
  intros Hc. unfold upd. rewrite Hc. simpl.
  apply list_lookup_insert_eq. by eapply lookup_lt_Some.
Qed.

Lemma upd_length (f : cell -> cell) (i : nat) (r : list cell) :
  length (upd f i r) = length r.
Proof. unfold upd. apply length_insert. Qed.

(** The column [infer_float_column] builds, value by value. *)
Lemma infer_float_column_map (vs : list (option pyfloat)) :
  snd (infer_float_column vs)
  = map (fun v => if existsb (fun v => bool_decide (v <> None)) vs
                  then from_option cell_of_float (CNull NaN) v
                  else CNull PyNone) vs.
Proof. unfold infer_float_column. by destruct (existsb _ vs). Qed.

Section WithLibrary.
Context `{PyLib}.

Lemma paso_monetario_filas (d : frame) (col : string) (i : nat) :
  NoDup (labels d) -> labels d !! i = Some col ->
  labels (paso_monetario d col) = labels d
  /\ Forall2 (fun r r' =>
                length r' = length r
                /\ (forall j, j <> i -> r' !! j = r !! j)
                /\ (forall c, r !! i = Some c ->
                      exists c', r' !! i = Some c' /\ convertida c c'))
             (rows d) (rows (paso_monetario d col)).
Proof.
  intros Hnd Hi. unfold paso_monetario.
  rewrite (assign_map_unica col _ d i Hnd Hi).
  split; [unfold labels; simpl; apply labels_alter|].
  cbn [rows write_column]. rewrite infer_float_column_map.
  set (b := existsb _ _).
  rewrite map_map. unfold column_at.
  rewrite (write_cells_upd
             (fun c => if b
                       then from_option cell_of_float (CNull NaN)
                              (_convertir_moneda_colombiana (py_str c))
                       else CNull PyNone) i (rows d)).
  apply Forall2_same_length_lookup_2; [by rewrite length_map|].
  intros k r r' Hr Hr'.
  change (map ?f ?l) with (f <$> l) in Hr'. rewrite list_lookup_fmap, Hr in Hr'.
  injection Hr' as <-.
  split; [apply upd_length|]. split; [intros j Hj; by apply upd_lookup_ne|].
  intros c Hc. eexists. split; [by apply upd_lookup|].
  unfold convertida.
  destruct (_convertir_moneda_colombiana (py_str c)) as [f|] eqn:Hconv.
  - assert (Hb : b = true); [|by rewrite Hb].
    unfold b. apply existsb_exists.
    exists (Some f). split; [|by apply bool_decide_eq_true_2].
    apply in_map_iff. exists c. split; [done|].
    apply in_map_iff. exists r. rewrite Hc. split; [done|].
    by eapply list_elem_of_In, list_elem_of_lookup_2.
  - by destruct b.
Qed.

Lemma tras_columnas_paso (d0 d : frame) (hechas : list string) (col : string) :
  NoDup (labels d0) -> col ∈ labels d0 -> col ∉ hechas ->
  tras_columnas d0 hechas d ->
  tras_columnas d0 (col :: hechas) (paso_monetario d col).
Proof.
  intros Hnd Hcol Hnew [Hlab Hrows].
  apply list_elem_of_lookup in Hcol as (i & Hi).
  destruct (paso_monetario_filas d col i) as [Hlab' Hstep];
    [by rewrite Hlab|by rewrite Hlab|].
  split; [congruence|].
  eapply Forall2_trans; [|exact Hrows|exact Hstep].
  intros r r1 r2 (Hlen1 & Hcells) (Hlen2 & Hotras & Hcol).
  split; [congruence|].
  intros j l c Hl Hc.
  destruct (Hcells j l c Hl Hc) as (c1 & Hc1 & Hdone & Hnot).
  destruct (decide (j = i)) as [->|Hne].
  - assert (l = col) as -> by congruence.
    destruct (Hcol c1 Hc1) as (c2 & Hc2 & Hconv).
    exists c2. split; [done|]. rewrite (Hnot Hnew) in Hconv. split; [done|].
    intros Hn. exfalso. apply Hn, list_elem_of_here.
  - exists c1. rewrite (Hotras j Hne). split; [done|].
    assert (Hl' : l <> col).
    { intros ->. apply Hne. eapply NoDup_lookup; eauto. }
    split.
    + intros [?|?]%elem_of_cons; [done|auto].
    + intros Hn. apply Hnot. intros ?. apply Hn. by apply list_elem_of_further.
Qed.

Lemma tras_columnas_todas (d0 d : frame) (hechas cols : list string) :
  NoDup (labels d0) -> NoDup cols ->
  (forall col, col ∈ cols -> col ∈ labels d0 /\ col ∉ hechas) ->
  tras_columnas d0 hechas d ->
  tras_columnas d0 (rev cols ++ hechas) (fold_left paso_monetario cols d).
Proof.
  intros Hnd. revert d hechas.
  induction cols as [|col cols IH]; intros d hechas Hcols Hin Hinv; [done|].
  apply NoDup_cons in Hcols as [Hcol Hcols]. simpl.
  rewrite <- app_assoc. simpl. apply IH; [done| |].
  - intros c Hc. destruct (Hin c (list_elem_of_further _ _ _ Hc)) as [H1 H2].
    split; [done|]. intros [->|?]%elem_of_cons; [done|auto].
  - destruct (Hin col (list_elem_of_here _ _)) as [H1 H2].
    by apply tras_columnas_paso.
Qed.

(** [convertir_columnas_monetarias] on a frame whose labels are all
    different returns a frame with the same labels and as many rows; a
    cell under a label of [COLUMNAS_MONETARIAS] holds the float that
    [_convertir_moneda_colombiana] reads in the text of the old cell, or a
    null when it reads none; every other cell is as it was. *)
Theorem convertir_columnas_monetarias_celdas (d : frame) :
  NoDup (labels d) ->
  exists d',
    call convertir_columnas_monetarias d = Ok d'
    /\ labels d' = labels d
    /\ Forall2 (fun r r' =>
                  length r' = length r
                  /\ forall j l c, labels d !! j = Some l -> r !! j = Some c ->
                       exists c', r' !! j = Some c'
                                  /\ if bool_decide (l ∈ COLUMNAS_MONETARIAS)
                                     then convertida c c' else c' = c)
               (rows d) (rows d').
Proof.
  intros Hnd. exists (convertir_columnas_monetarias_val d).
  split; [apply (call_devuelve_nuevo _ _ d convertir_columnas_monetarias_devuelve_nuevo)|].
  set (cols := filter (fun c => has_column d c) COLUMNAS_MONETARIAS).
  assert (Hinv : tras_columnas d (rev cols ++ [])
                   (fold_left paso_monetario cols d)).
  { apply tras_columnas_todas; [done| | |].
    - apply NoDup_filter. apply (bool_decide_unpack (NoDup COLUMNAS_MONETARIAS)).
      by vm_compute.
    - intros col [Hc _]%list_elem_of_filter. split; [|apply not_elem_of_nil].
      unfold has_column in Hc. by apply bool_decide_unpack in Hc.
    - split; [done|].
      apply Forall2_same_length_lookup_2; [done|].
      intros k r r' Hr Hr'. assert (r' = r) as -> by congruence.
      split; [done|]. intros j l c _ Hc. exists c. split; [done|].
      split; [by intros ?%elem_of_nil|done]. }
  destruct Hinv as [Hlab Hrows].
  split; [exact Hlab|].
  eapply Forall2_impl; [exact Hrows|]. simpl.
  intros r r' [Hlen Hcells]. split; [done|].
  intros j l c Hl Hc. destruct (Hcells j l c Hl Hc) as (c' & Hc' & Hsi & Hno).
  exists c'. split; [done|].
  assert (Hiff : l ∈ rev cols ++ [] <-> l ∈ COLUMNAS_MONETARIAS).
  { rewrite List.app_nil_r, list_elem_of_In, <- in_rev, <- list_elem_of_In. unfold cols.
    rewrite list_elem_of_filter. split; [tauto|]. intros Hm. split; [|done].
    unfold has_column. apply bool_decide_pack. by eapply list_elem_of_lookup_2. }
  case_bool_decide as Hm.
  - by apply Hsi, Hiff.
  - apply Hno. by rewrite Hiff.
Qed.

(** [renombrar_columnas] raises only for a frame of more than ten
    columns whose labels all begin with [col_], given no mapping; when it
    returns, the rows and the dtypes are those of its argument and only
    labels have changed: by the mapping, to the first canonical names for
    generic labels, or not at all. *)
Theorem renombrar_columnas_resultado (mapeo : option (gmap string string)) (d : frame) :
  let generica :=
    bool_decide (mapeo_truthy mapeo = None)
    && forallb (startswith "col_") (labels d) in
  call (fun df => renombrar_columnas df mapeo) d
  = (if generica && (length COLUMNAS_RESULTADO <? length (labels d))%nat
     then Raise (LengthMismatch (length (columns d)) (length COLUMNAS_RESULTADO))
     else Ok (mk_frame
                (zip (match mapeo_truthy mapeo with
                      | Some m => map (fun l => default l (m !! l)) (labels d)
                      | None => if generica
                                then take (length (labels d)) COLUMNAS_RESULTADO
                                else labels d
                      end)
                     (map snd (columns d)))
                (rows d))).
Proof.
  cbv zeta.
  rewrite (call_devuelve_nuevo _ _ d (renombrar_columnas_devuelve_nuevo mapeo)).
  unfold renombrar_columnas_val.
  assert (Hzip : forall (cols : list (string * dtype)),
            zip (map fst cols) (map snd cols) = cols).
  { induction cols as [|[l t] cols IH]; simpl; [done|]. by rewrite IH. }
  destruct (mapeo_truthy mapeo) as [m|] eqn:Hm.
  - rewrite bool_decide_eq_false_2 by done. simpl. f_equal. unfold rename. f_equal.
    unfold labels. clear. induction (columns d) as [|[l t] cols IH]; simpl; [done|].
    by rewrite IH.
  - rewrite !(bool_decide_eq_true_2 (@None (gmap string string) = None)) by done.
    rewrite !andb_true_l.
    assert (Hll : length (labels d) = length (columns d)).
    { unfold labels. apply length_map. }
    destruct (forallb (startswith "col_") (labels d)) eqn:Hgen.
    + assert (Hne : labels d <> COLUMNAS_RESULTADO).
      { intros E. rewrite E in Hgen. done. }
      rewrite (bool_decide_eq_true_2 _ Hne). cbn [andb].
      rewrite length_take, Hll. change (length COLUMNAS_RESULTADO) with 10%nat.
      destruct (10 <? length (columns d))%nat eqn:Hlt.
      * apply Nat.ltb_lt in Hlt. rewrite bool_decide_eq_false_2 by lia.
        do 2 f_equal. lia.
      * apply Nat.ltb_ge in Hlt. rewrite bool_decide_eq_true_2 by lia.
        do 2 f_equal.
        generalize (take (length (columns d)) COLUMNAS_RESULTADO). clear.
        induction (columns d) as [|[l t] cols IH]; intros [|n ns]; simpl; try done.
        by rewrite IH.
    + rewrite andb_false_r. cbn [andb]. unfold labels. rewrite Hzip. by destruct d.
Qed.

Lemma map_or_raise_filas (col : string) (f : cell -> result (option cell))
    (d d' : frame) :
  map_or_raise col f d = Ok d' ->
  length (rows d') = length (rows d) /\ labels d' = labels d.
Proof.
  unfold map_or_raise. destruct (all_ok _) as [vs|]; [|done]. intros [= <-].
  split; [apply assign_map_filas|].
  unfold assign_map.
  apply (fold_left_inv (fun d' => labels d' = labels d)); [done|].
  intros d0 i Hd0. destruct (infer_time_column _) as [dt cs].
  unfold labels in *. simpl. by rewrite labels_alter.
Qed.

Lemma fold_result_filas {A} (step : A -> frame -> result frame) (l : list A)
    (d d' : frame) :
  (forall x a a', step x a = Ok a' ->
     length (rows a') = length (rows a) /\ labels a' = labels a) ->
  fold_result step l d = Ok d' ->
  length (rows d') = length (rows d) /\ labels d' = labels d.
Proof.
  intros Hstep. revert d. induction l as [|x l IH]; intros d; simpl.
  - by intros [= ->].
  - destruct (step x d) as [a|] eqn:Hx; [|done].
    intros [H1 H2]%IH. destruct (Hstep x d a Hx) as [H3 H4]. split; congruence.
Qed.

Lemma assign_map_labels (col : string) (g : list cell -> dtype * list cell) (d : frame) :
  labels (assign_map col g d) = labels d.
Proof.
  unfold assign_map.
  apply (fold_left_inv (fun d' => labels d' = labels d)); [done|].
  intros a i Ha. destruct (g (column_at a i)) as [dt cs].
  unfold labels in *. simpl. by rewrite labels_alter.
Qed.

(** The cleaning pipeline, called without a mapping on a frame whose
    labels are all different, never adds a row or a column: the frame it
    returns has at most as many rows as its argument, and as many
    columns. *)
Theorem limpiar_dataframe_filas (d d' : frame) :
  NoDup (labels d) ->
  call (fun df => limpiar_dataframe df None) d = Ok d' ->
  (length (rows d') <= length (rows d))%nat
  /\ length (columns d') = length (columns d).
Proof.
  intros _. rewrite (call_devuelve_nuevo _ _ d (limpiar_dataframe_devuelve_nuevo None)).
  unfold limpiar_dataframe_val, and_then.
  set (d1 := normalizar_strings_val d).
  set (d2 := eliminar_filas_vacias_val d1).
  assert (H1 : length (rows d1) = length (rows d) /\ labels d1 = labels d).
  { unfold d1, normalizar_strings_val. split.
    - apply (fold_left_inv (fun a => length (rows a) = length (rows d))); [done|].
      intros a col Ha. by rewrite assign_map_filas.
    - apply (fold_left_inv (fun a => labels a = labels d)); [done|].
      intros a col Ha. by rewrite assign_map_labels. }
  assert (H2 : (length (rows d2) <= length (rows d1))%nat /\ labels d2 = labels d1).
  { unfold d2, eliminar_filas_vacias_val, drop_rows, dropna_all.
    destruct (0 <? _)%nat; simpl.
    - split; [|done]. etrans; [apply length_filter|apply length_filter].
    - split; [apply length_filter|done]. }
  destruct (renombrar_columnas_val None d2) as [d3|] eqn:H3; [|done].
  assert (H3' : rows d3 = rows d2 /\ length (columns d3) = length (columns d2)).
  { unfold renombrar_columnas_val in H3. simpl in H3.
    destruct (_ && _).
    - case_bool_decide as Hlen; [|done]. injection H3 as <-. simpl.
      split; [done|]. rewrite length_zip_with. lia.
    - by injection H3 as <-. }
  intros H5.
  apply fold_result_filas in H5 as [H5 H5'].
  2:{ intros col a a'. apply map_or_raise_filas. }
  rewrite convertir_columnas_monetarias_filas in H5.
  assert (H4 : labels (convertir_columnas_monetarias_val d3) = labels d3).
  { unfold convertir_columnas_monetarias_val.
    apply (fold_left_inv (fun a => labels a = labels d3)); [done|].
    intros a col Ha. by rewrite assign_map_labels. }
  destruct H1 as [H1 H1'], H2 as [H2 H2'], H3' as [H3a H3b].
  split; [rewrite H5, H3a; lia|].
  assert (Hl : forall a b : frame, labels a = labels b ->
                 length (columns a) = length (columns b)).
  { intros a b E. unfold labels in E.
    by rewrite <- (length_map fst (columns a)), E, length_map. }
  rewrite (Hl _ _ H5'), (Hl _ _ H4), H3b, (Hl _ _ H2'), (Hl _ _ H1'). done.
Qed.

(** [_parsear_fecha] returns [None] for a blank text without asking
    pandas; it never raises a [ValueError] or a [TypeError]; and a time
    stamp it returns is what pandas reads in the stripped text, under one
    of the six formats or by inference. *)
Theorem parsear_fecha_resultado (valor : string) :
  (strip valor = "" -> _parsear_fecha valor = Ok None)
  /\ (forall e, _parsear_fecha valor = Raise e ->
        isinstance e ValueError = false /\ isinstance e TypeError = false)
  /\ (forall c, _parsear_fecha valor = Ok (Some c) ->
        exists fmt t,
          (fmt = None \/ exists f, fmt = Some f /\ f ∈ _FORMATOS_FECHA)
          /\ pd_to_datetime (strip valor) fmt = Ok t
          /\ c = cell_of_timestamp t).
Proof.
  unfold _parsear_fecha. split; [|split].
  - intros ->. by rewrite orb_true_r.
  - intros e. destruct (_ || _); [done|].
    generalize _FORMATOS_FECHA. intros fmts.
    induction fmts as [|fmt fmts IH]; simpl.
    + destruct (pd_to_datetime _ None) as [t|e']; [done|].
      destruct (isinstance e' ValueError || isinstance e' TypeError) eqn:Hcls; [done|].
      intros [= <-]. by apply orb_false_elim in Hcls.
    + destruct (pd_to_datetime _ (Some fmt)) as [t|e']; [done|].
      destruct (isinstance e' ValueError || isinstance e' TypeError) eqn:Hcls;
        [exact IH|].
      intros [= <-]. by apply orb_false_elim in Hcls.
  - intros c. destruct (_ || _); [done|].
    assert (Hgen : forall fmts,
      probar_formatos (strip valor) fmts = Ok (Some c) ->
      exists fmt t,
        (fmt = None \/ exists f, fmt = Some f /\ f ∈ fmts)
        /\ pd_to_datetime (strip valor) fmt = Ok t /\ c = cell_of_timestamp t).
    { induction fmts as [|fmt fmts IH]; simpl.
      - destruct (pd_to_datetime _ None) as [t|e'] eqn:Hp.
        + intros [= <-]. exists None, t. auto.
        + by destruct (_ || _).
      - destruct (pd_to_datetime _ (Some fmt)) as [t|e'] eqn:Hp.
        + intros [= <-]. exists (Some fmt), t. split; [|done].
          right. exists fmt. split; [done|apply list_elem_of_here].
        + destruct (_ || _); [|done].
          intros (fmt' & t & [->|(f & -> & Hf)] & Hp' & ->)%IH.
          * exists None, t. auto.
          * exists (Some f), t. split; [|done].
            right. exists f. split; [done|by apply list_elem_of_further]. }
    apply Hgen.
Qed.

End WithLibrary.

Lemma convertir_columnas_monetarias_celdas_witness :
  NoDup (labels EjemplosLimpieza.contratos_con_cuantia)
  /\ exists d',
       call (@convertir_columnas_monetarias Ejemplos.lib_ejemplo)
            EjemplosLimpieza.contratos_con_cuantia = Ok d'
       /\ labels d' = ["entidad"; "cuantia"]
       /\ length (rows d') = 2%nat.
Proof.
  assert (Hnd : NoDup (labels EjemplosLimpieza.contratos_con_cuantia)).
  { apply (bool_decide_unpack _). by vm_compute. }
  split; [exact Hnd|].
  destruct (@convertir_columnas_monetarias_celdas Ejemplos.lib_ejemplo
              EjemplosLimpieza.contratos_con_cuantia Hnd)
    as (d' & Hcall & Hlab & Hrows).
  exists d'. split; [exact Hcall|]. split; [exact Hlab|].
  by rewrite <- (Forall2_length _ _ _ Hrows).
Defined.

Lemma limpiar_dataframe_filas_witness :
  NoDup (labels EjemplosLimpieza.contratos_con_cuantia)
  /\ exists d',
       call (fun df => @limpiar_dataframe Ejemplos.lib_ejemplo df None)
            EjemplosLimpieza.contratos_con_cuantia = Ok d'
       /\ (length (rows d') <= 2)%nat
       /\ length (columns d') = 2%nat.
Proof.
  assert (Hnd : NoDup (labels EjemplosLimpieza.contratos_con_cuantia)).
  { apply (bool_decide_unpack _). by vm_compute. }
  split; [exact Hnd|]. eexists. split; [by vm_compute|].
  apply (@limpiar_dataframe_filas Ejemplos.lib_ejemplo
           EjemplosLimpieza.contratos_con_cuantia _ Hnd).
  by vm_compute.
Defined.

End CleaningColumnas.

(** ** main.py: the browser, the export and the exit code of a search run *)

Module MainSalida.
Import PyStr Exceptions Pandas Config Soup Parser Cleaning ApiScraper DetailScraper Main.
Import MainEventos MainSpec.

Section WithLibrary.
Context `{PyLib}.


(** What the export step shows and returns. *)
Lemma exportar_eventos env args ruta df fs :
  exists evs r fs',
    exportar env args ruta df fs = (evs, r, fs')
    /\ cierres evs = 0%nat
    /\ (exportaciones evs <= 1)%nat
    /\ (forall z, r = Ok z -> z = 0%Z /\ exportaciones evs = 1%nat)
    /\ (exportaciones evs = 0%nat -> fs' = fs)
    /\ (forall ruta' df', Exportado ruta' df' ∈ evs ->
          ruta' = ruta /\ df' = df /\ to_csv env = None)
    /\ (forall e1 e2, ErrorCombinado e1 e2 ∉ evs)
    /\ SinResultadosApi ∉ evs.
Proof.
  unfold exportar. destruct (to_csv env) as [e|].
  { exists [], (Raise e), fs. split; [done|]. split; [done|]. split; [unfold exportaciones; simpl; lia|].
    split; [done|]. split; [done|]. split; [by intros ?? ?%elem_of_nil|].
    split; [intros e1 e2|]; apply not_elem_of_nil. }
  assert (Hexp : forall ruta' df' (resto : list evento),
            Exportado ruta' df' ∈ Exportado ruta df :: resto ->
            (forall ev, ev ∈ resto -> es_exportado ev = false) ->
            ruta' = ruta /\ df' = df /\ @None exn = None).
  { intros ruta' df' resto [Hin|Hin]%elem_of_cons Hresto.
    - by injection Hin as -> ->.
    - by apply Hresto in Hin. }
  destruct (presente (arg_historica args)) as [hist|].
  - destruct (actualizar_base_historica _ _ _ _) as [[c|e] fs1]; do 3 eexists;
      (split; [reflexivity|]); (split; [reflexivity|]); (split; [unfold exportaciones; simpl; lia|]).
    + split; [by intros z [= <-]|]. split; [done|].
      split; [|split; [intros e1 e2|]; no_esta].
      intros ruta' df' Hin. apply (Hexp _ _ _ Hin).
      intros ev Hev. repeat (apply elem_of_cons in Hev as [->|Hev]; [done|]).
      by apply elem_of_nil in Hev.
    + split; [done|]. split; [done|].
      split; [|split; [intros e1 e2|]; no_esta].
      intros ruta' df' Hin. apply (Hexp _ _ _ Hin).
      by intros ev ?%elem_of_nil.
  - do 3 eexists.
    (split; [reflexivity|]); (split; [reflexivity|]); (split; [unfold exportaciones; simpl; lia|]).
    split; [by intros z [= <-]|]. split; [done|].
    split; [|split; [intros e1 e2|]; no_esta].
    intros ruta' df' Hin. apply (Hexp _ _ _ Hin).
    intros ev Hev. repeat (apply elem_of_cons in Hev as [->|Hev]; [done|]).
    by apply elem_of_nil in Hev.
Qed.

(** What the query of the open-data service shows and returns, as the
    run calls it: with no error of the first attempt at hand. *)
Lemma intento_api_eventos env args params ruta fs :
  exists evs r fs',
    intento_api env args params ruta None fs = (evs, r, fs')
    /\ cierres evs = 0%nat
    /\ (exportaciones evs <= 1)%nat
    /\ (forall z, r = Ok z ->
          z = 0%Z /\ (exportaciones evs = 1%nat \/ SinResultadosApi ∈ evs))
    /\ (exportaciones evs = 0%nat -> fs' = fs)
    /\ (forall ruta' df', Exportado ruta' df' ∈ evs ->
          ruta' = ruta /\ to_csv env = None)
    /\ (forall e1 e2, ErrorCombinado e1 e2 ∉ evs).
Proof.
  unfold intento_api, manejar_error_api.
  set (q := consulta_desde_params params).
  assert (Hfallo : forall exc_api,
    exists evs r fs',
      (ConsultaApi q :: [ErrorApi exc_api], @Raise Z (UnboundLocal "exc_selenium"), fs)
      = (evs, r, fs')
      /\ cierres evs = 0%nat
      /\ (exportaciones evs <= 1)%nat
      /\ (forall z, r = Ok z ->
            z = 0%Z /\ (exportaciones evs = 1%nat \/ SinResultadosApi ∈ evs))
      /\ (exportaciones evs = 0%nat -> fs' = fs)
      /\ (forall ruta' df', Exportado ruta' df' ∈ evs ->
            ruta' = ruta /\ to_csv env = None)
      /\ (forall e1 e2, ErrorCombinado e1 e2 ∉ evs)).
  { intros exc_api. do 3 eexists. split; [reflexivity|]. split; [reflexivity|].
    split; [unfold exportaciones; simpl; lia|]. split; [done|]. split; [done|].
    split; [intros ruta' df'|intros e1 e2]; no_esta. }
  destruct (consultar_contratos env q) as [df_api|exc_api]; [|apply Hfallo].
  destruct (is_empty df_api).
  { do 3 eexists. split; [reflexivity|]. split; [reflexivity|].
    split; [unfold exportaciones; simpl; lia|].
    split; [intros z [= <-]; split; [done|right; esta]|]. split; [done|].
    split; [intros ruta' df'|intros e1 e2]; no_esta. }
  destruct (call _ df_api) as [df_limpio|exc_api]; [|apply Hfallo].
  destruct (exportar_eventos env args ruta df_limpio fs)
    as (evs & r & fs' & -> & Hc & Hle & Hz & Hfs & Hexp & Hcomb & _).
  exists (ConsultaApi q :: evs), r, fs'. split; [done|].
  split; [exact Hc|]. split; [exact Hle|].
  split; [intros z Hr; destruct (Hz z Hr); auto|]. split; [exact Hfs|].
  split.
  - intros ruta' df' [Hin|Hin]%elem_of_cons; [done|].
    by destruct (Hexp _ _ Hin) as (-> & _ & ->).
  - intros e1 e2 [Hin|Hin]%elem_of_cons; [done|]. by apply (Hcomb e1 e2).
Qed.


(** The rest of a run after the first attempt. *)
Lemma resto_eventos env args ruta fs (df : option frame) :
  exists evs r fs',
    (if falta_resultado df
     then intento_api env args (args_a_search_params args) ruta None fs
     else exportar env args ruta (default empty_frame df) fs) = (evs, r, fs')
    /\ cierres evs = 0%nat
    /\ (exportaciones evs <= 1)%nat
    /\ (forall z, r = Ok z ->
          z = 0%Z /\ (exportaciones evs = 1%nat \/ SinResultadosApi ∈ evs))
    /\ (exportaciones evs = 0%nat -> fs' = fs)
    /\ (forall ruta' df', Exportado ruta' df' ∈ evs ->
          ruta' = ruta /\ to_csv env = None).
Proof.
  destruct (falta_resultado df).
  - destruct (intento_api_eventos env args (args_a_search_params args) ruta fs)
      as (evs & r & fs' & -> & H1 & H2 & H3 & H4 & H5 & _).
    by exists evs, r, fs'.
  - destruct (exportar_eventos env args ruta (default empty_frame df) fs)
      as (evs & r & fs' & -> & H1 & H2 & H3 & H4 & H5 & _).
    exists evs, r, fs'. split; [done|]. split; [done|]. split; [done|].
    split; [intros z Hr; destruct (H3 z Hr); auto|]. split; [done|].
    intros ruta' df' Hin. by destruct (H5 _ _ Hin) as (-> & _ & ->).
Qed.

(** A search run exports at most one file, to the path chosen at its
    start and only when writing it raised nothing; as long as it has
    exported nothing the files are as they were.  When the run returns,
    the exit code is 0, never 1, and the run has exported one file or
    has told that the service has no record. *)
Theorem busqueda_exporta_una_vez (env : entorno) (args : Namespace) (fs : filesystem) :
  (exportaciones (fst (fst (ejecutar_modo_busqueda env args fs))) <= 1)%nat
  /\ (forall z, snd (fst (ejecutar_modo_busqueda env args fs)) = Ok z ->
        z = 0%Z
        /\ (exportaciones (fst (fst (ejecutar_modo_busqueda env args fs))) = 1%nat
            \/ SinResultadosApi ∈ fst (fst (ejecutar_modo_busqueda env args fs))))
  /\ (exportaciones (fst (fst (ejecutar_modo_busqueda env args fs))) = 0%nat ->
      snd (ejecutar_modo_busqueda env args fs) = fs)
  /\ (forall ruta df,
        Exportado ruta df ∈ fst (fst (ejecutar_modo_busqueda env args fs)) ->
        generar_ruta_salida env (arg_salida args) = Ok ruta /\ to_csv env = None).
Proof.
  unfold ejecutar_modo_busqueda.
  destruct (generar_ruta_salida env (arg_salida args)) as [ruta|e].
  2:{ simpl. split; [unfold exportaciones; simpl; lia|]. split; [done|].
      split; [done|]. by intros ?? ?%elem_of_nil. }
  pose proof (intento_selenium_sin_consultas env (args_a_search_params args)) as [_ Hsel].
  pose proof (intento_selenium_eventos env (args_a_search_params args)) as Hsel'.
  destruct (intento_selenium env _) as [[evs1 df] exc]. simpl in Hsel, Hsel'.
  unfold exc_selenium_tras_intento.
  destruct (resto_eventos env args ruta fs df)
    as (evs3 & r & fs' & -> & _ & Hle & Hz & Hfs & Hexp).
  simpl.
  assert (Haviso : exportaciones
                     match exc with
                     | Some exc_selenium => [AvisoFalloSelenium exc_selenium]
                     | None => []
                     end = 0%nat) by by destruct exc.
  rewrite !exportaciones_app, Hsel, Haviso. simpl.
  split; [done|]. split; [|split; [done|]].
  - intros z Hr. destruct (Hz z Hr) as [-> [?|Hsin]]; split; auto.
    right. rewrite !elem_of_app. auto.
  - intros ruta' df' [Hin|[Hin|Hin]%elem_of_app]%elem_of_app.
    + by apply Hsel' in Hin.
    + destruct exc; [|by apply elem_of_nil in Hin].
      by apply list_elem_of_singleton in Hin.
    + by destruct (Hexp _ _ Hin) as [-> ->].
Qed.


End WithLibrary.


End MainSalida.

(** ** cleaning.py: examples for texts without digits and for the store *)

Module CleaningEjemplos.
Import PyStr PyFloat Exceptions Pandas Heap Cleaning CurrencySpec CleaningSpec.

(** A text of ASCII without any digit is converted to null, to an
    infinity or to NaN, never to a finite number. *)
Theorem convertir_moneda_ascii_sin_digitos (valor : string) :
  all_chars ScraperResultados.es_ascii valor = true ->
  has_char is_digit valor = false ->
  _convertir_moneda_colombiana valor = None
  \/ (exists neg, _convertir_moneda_colombiana valor = Some (PInf neg))
  \/ _convertir_moneda_colombiana valor = Some PNan.
Proof. intros _ Hv. by apply convertir_moneda_sin_digitos. Qed.

Lemma convertir_moneda_ascii_sin_digitos_witness :
  all_chars ScraperResultados.es_ascii "N/A" = true
  /\ has_char is_digit "N/A" = false
  /\ (_convertir_moneda_colombiana "N/A" = None
      \/ (exists neg, _convertir_moneda_colombiana "N/A" = Some (PInf neg))
      \/ _convertir_moneda_colombiana "N/A" = Some PNan).
Proof.
  split; [reflexivity|]. split; [reflexivity|].
  apply (convertir_moneda_ascii_sin_digitos "N/A"); reflexivity.
Defined.

Lemma limpieza_no_modifica_entrada_witness :
  ({[ 0%nat := Ejemplos.texto_y_numero ]} : gmap nat frame) !! 0%nat
  = Some Ejemplos.texto_y_numero
  /\ Forall (fun f : ref -> M ref =>
               snd (f 0%nat {[ 0%nat := Ejemplos.texto_y_numero ]}) !! 0%nat
               = Some Ejemplos.texto_y_numero)
            (@funciones_de_limpieza Ejemplos.lib_ejemplo None).
Proof.
  assert (H0 : ({[ 0%nat := Ejemplos.texto_y_numero ]} : gmap nat frame) !! 0%nat
               = Some Ejemplos.texto_y_numero) by apply lookup_singleton_eq.
  split; [exact H0|].
  eapply Forall_impl.
  - exact (@limpieza_no_modifica_entrada Ejemplos.lib_ejemplo None _ 0%nat _ H0).
  - intros f (_ & Hf & _). exact Hf.
Defined.

End CleaningEjemplos.

(** ** api_scraper.py: the pages of a query *)

Module ApiConsultaSpec.
Import PyStr Exceptions Pandas Config ApiScraper ApiConsulta.

Local Open Scope Z_scope.

Lemma pet_limit_pagina (w : string) (limit offset : Z) :
  pet_limit (peticion_pagina w limit offset) = limit.
Proof. reflexivity. Qed.

Lemma leidos_cons (p : peticion) (k : option nat) (t : traza) :
  leidos ((p, k) :: t) = (default 0%nat k + leidos t)%nat.
Proof. reflexivity. Qed.

Lemma leidos_nil : leidos [] = 0%nat.
Proof. reflexivity. Qed.

Lemma leidos_uno (p : peticion) (k : option nat) :
  leidos [(p, k)] = default 0%nat k.
Proof. rewrite leidos_cons, leidos_nil. lia. Qed.

Section Servicio.
Variable registro : Type.
Variable servicio : nat -> peticion -> result (list registro).
Variable leer_total : registro -> result Z.

(** The loop ends: with as many turns as there are records still to
    read it returns. *)
Lemma paginar_termina (fuel : nat) (w : string) (regs : Z) (n : nat) (offset : Z)
    (acc : list registro) :
  (Z.to_nat (regs - offset) <= fuel)%nat ->
  exists t r, paginar registro servicio fuel w regs n offset acc = Some (t, r).
Proof.
  revert n offset acc. induction fuel as [|fuel IH]; intros n offset acc Hf.
  - simpl. destruct (offset <? regs) eqn:Hlt; simpl; [|eauto].
    apply Z.ltb_lt in Hlt. lia.
  - cbn [paginar]. destruct (offset <? regs) eqn:Hlt; cbn [negb]; [|eauto].
    apply Z.ltb_lt in Hlt.
    destruct (servicio n _) as [page|e]; [|eauto].
    destruct page as [|x page]; [eauto|].
    destruct (_ <? _); [eauto|].
    destruct (IH (S n) (offset + Z.of_nat (length (x :: page))) (acc ++ x :: page))
      as (t & r & ->); [|eauto].
    simpl length. lia.
Qed.

(** What the loop has done when it returns. *)
Lemma paginar_traza (fuel : nat) (w : string) (regs : Z) (n : nat) (offset : Z)
    (acc : list registro) (t : traza) (r : result (list registro)) :
  paginar registro servicio fuel w regs n offset acc = Some (t, r) ->
  contigua w regs offset t
  /\ (forall l, r = Ok l ->
        exists leido, l = acc ++ leido /\ length leido = leidos t)
  /\ (respeta_limite t -> offset + Z.of_nat (leidos t) <= Z.max offset regs).
Proof.
  revert n offset acc t r. induction fuel as [|fuel IH]; intros n offset acc t r.
  - simpl. destruct (offset <? regs); [done|]. simpl. intros [= <- <-].
    split; [done|]. split; [|rewrite leidos_nil; lia].
    intros l [= <-]. exists []. by rewrite app_nil_r.
  - cbn [paginar]. destruct (offset <? regs) eqn:Hlt; cbn [negb].
    2:{ intros [= <- <-]. split; [done|]. split; [|rewrite leidos_nil; lia].
        intros l [= <-]. exists []. by rewrite app_nil_r. }
    apply Z.ltb_lt in Hlt.
    set (ps := Z.min API_PAGE_SIZE (regs - offset)).
    destruct (servicio n _) as [page|e].
    2:{ intros [= <- <-]. split; [done|]. split; [done|].
        intros _. rewrite leidos_uno. simpl. lia. }
    destruct page as [|x page].
    { intros [= <- <-]. split; [done|].
      split.
      - intros l [= <-]. exists []. by rewrite app_nil_r.
      - intros _. rewrite leidos_uno. simpl. lia. }
    destruct (Z.of_nat (length (x :: page)) <? ps) eqn:Hps.
    { intros [= <- <-]. split; [done|]. split.
      - intros l [= <-]. exists (x :: page). split; [done|].
        by rewrite leidos_uno.
      - intros Hr. apply Forall_cons in Hr as [Hr _]. simpl in Hr.
        rewrite leidos_uno. cbn [default length]. unfold ps, id in *. lia. }
    destruct (paginar registro servicio fuel w regs (S n) _ _) as [[t' r']|] eqn:Hrec; [|done].
    intros [= <- <-].
    destruct (IH _ _ _ _ _ Hrec) as (Hc & Hl & Hb).
    split; [done|]. split.
    + intros l Hr. destruct (Hl l Hr) as (leido & -> & Hlen).
      exists ((x :: page) ++ leido). split; [by rewrite app_assoc|].
      by rewrite length_app, leidos_cons, Hlen.
    + intros Hr. apply Forall_cons in Hr as [Hr Hr']. simpl in Hr.
      specialize (Hb Hr'). rewrite leidos_cons. cbn [default] in *.
      unfold ps, id in *. lia.
Qed.

(** [consultar_contratos] returns, whatever the service answers.  Its
    first request is the count, for the predicate without dates.  When
    the count is 0 nothing else is asked and the frame returned is the
    empty frame with the columns of [COLUMNAS_API].  Otherwise the
    requests that follow are the requests for pages: each asks for the
    records after those read so far, at most [API_PAGE_SIZE] and at most
    what is left of [min(total, max_registros)]; the records returned
    are those read, and when no answer is longer than its limit they
    are at most [min(total, max_registros)]. *)
Theorem consultar_contratos_traza (q : consulta) :
  match contar_registros registro servicio leer_total (where_total q) with
  | (t0, Raise e) =>
      consultar_contratos registro servicio leer_total q = Some (t0, Raise e)
  | (t0, Ok total) =>
      exists k t r,
        t0 = [(peticion_total (where_total q), k)]
        /\ consultar_contratos registro servicio leer_total q = Some (t0 ++ t, r)
        /\ (total = 0 ->
            t = [] /\ r = Ok (SinColumnas sin_registros)
            /\ is_empty sin_registros = true
            /\ labels sin_registros = COLUMNAS_API)
        /\ (total <> 0 ->
            contigua (where_paginas q) (Z.min total (max_registros q)) 0 t
            /\ (forall m, r = Ok m ->
                  exists l, m = DeRegistros l /\ length l = leidos t)
            /\ (respeta_limite t ->
                Z.of_nat (leidos t) <= Z.max 0 (Z.min total (max_registros q))))
  end.
Proof.
  unfold consultar_contratos.
  destruct (contar_registros _ _ _ _) as [t0 [total|e]] eqn:Hcount; [|done].
  assert (Ht0 : exists k, t0 = [(peticion_total (where_total q), k)]).
  { unfold contar_registros in Hcount.
    destruct (servicio 0%nat _); injection Hcount as <- _; eauto. }
  destruct Ht0 as [k ->].
  destruct (total =? 0) eqn:Hz.
  { apply Z.eqb_eq in Hz as ->. exists k, [], (Ok (SinColumnas sin_registros)).
    split; [done|]. split; [done|]. split; [|done].
    intros _. by repeat split. }
  apply Z.eqb_neq in Hz.
  set (regs := Z.min total (max_registros q)).
  destruct (paginar_termina (Z.to_nat regs) (where_paginas q) regs 1 0 [])
    as (t & r & Hp); [lia|].
  rewrite Hp.
  destruct (paginar_traza _ _ _ _ _ _ _ _ Hp) as (Hc & Hl & Hb).
  exists k, t, (match r with Ok l => Ok (DeRegistros l) | Raise e => Raise e end).
  split; [done|]. split; [by destruct r|]. split; [done|].
  intros _. split; [done|]. split.
  - intros m Hm. destruct r as [l|e]; [|done]. injection Hm as <-.
    destruct (Hl l eq_refl) as (leido & -> & Hlen). exists leido. by split.
  - intros Hr. specialize (Hb Hr). lia.
Qed.

Variable datos : list registro.

Lemma paginar_datos (w : string) (regs : Z) (fuel : nat) (n : nat) (offset : Z) :
  sirve_datos servicio datos w ->
  0 <= offset -> (Z.to_nat offset <= Z.to_nat regs)%nat ->
  (Z.to_nat (regs - offset) <= fuel)%nat ->
  exists t,
    paginar registro servicio fuel w regs n offset (take (Z.to_nat offset) datos)
    = Some (t, Ok (take (Z.to_nat regs) datos)).
Proof.
  intros Hs. revert n offset.
  assert (Hfin : forall offset, 0 <= offset ->
            (Z.to_nat offset <= Z.to_nat regs)%nat -> regs <= offset ->
            take (Z.to_nat offset) datos = take (Z.to_nat regs) datos).
  { intros offset H0 Hle Hge. f_equal. lia. }
  induction fuel as [|fuel IH]; intros n offset H0 Hle Hf.
  - simpl. destruct (offset <? regs) eqn:Hlt; simpl.
    + apply Z.ltb_lt in Hlt. lia.
    + apply Z.ltb_ge in Hlt. rewrite (Hfin offset) by done. eauto.
  - cbn [paginar]. destruct (offset <? regs) eqn:Hlt; cbn [negb].
    2:{ apply Z.ltb_ge in Hlt. rewrite (Hfin offset) by done. eauto. }
    apply Z.ltb_lt in Hlt.
    set (ps := Z.min API_PAGE_SIZE (regs - offset)).
    assert (Hps : 0 < ps) by (unfold ps, API_PAGE_SIZE; lia).
    rewrite (Hs n ps offset Hps H0).
    set (page := take (Z.to_nat ps) (drop (Z.to_nat offset) datos)).
    assert (Hlen : length page = Nat.min (Z.to_nat ps) (length datos - Z.to_nat offset)).
    { unfold page. by rewrite length_take, length_drop. }
    destruct page as [|x page'] eqn:Hpage.
    { (* nothing is left *)
      assert (Hfin' : take (Z.to_nat offset) datos = take (Z.to_nat regs) datos).
      { simpl in Hlen. rewrite !take_ge; [done| |]; lia. }
      rewrite Hfin'. eauto. }
    rewrite <- Hpage in *. clear Hpage x page'.
    destruct (Z.of_nat (length page) <? ps) eqn:Hshort.
    { (* the last page *)
      apply Z.ltb_lt in Hshort.
      assert (Hall : page = drop (Z.to_nat offset) datos).
      { unfold page. apply take_ge. rewrite length_drop. lia. }
      assert (Hfin' : take (Z.to_nat offset) datos ++ page
                      = take (Z.to_nat regs) datos).
      { rewrite Hall, take_drop. symmetry. apply take_ge. unfold ps in *. lia. }
      rewrite Hfin'. eauto. }
    apply Z.ltb_ge in Hshort.
    assert (Hfull : length page = Z.to_nat ps) by lia.
    assert (Hacc : take (Z.to_nat offset) datos ++ page
                   = take (Z.to_nat (offset + Z.of_nat (length page))) datos).
    { rewrite Hfull. unfold page.
      replace (Z.to_nat (offset + Z.of_nat (Z.to_nat ps)))
        with (Z.to_nat offset + Z.to_nat ps)%nat by lia.
      by rewrite take_take_drop. }
    rewrite Hacc.
    destruct (IH (S n) (offset + Z.of_nat (length page))) as (t & ->).
    + lia.
    + unfold ps in *. lia.
    + unfold ps in *. lia.
    + eauto.
Qed.

(** Against a service that holds the list [datos] and answers every
    request for a page with the records asked for, a query whose count is
    not 0 returns the first [min(total, max_registros)] records of the
    list, in their order (all of them when the list is shorter). *)
Theorem consultar_contratos_completa (q : consulta) (total : Z) :
  sirve_datos servicio datos (where_paginas q) ->
  snd (contar_registros registro servicio leer_total (where_total q)) = Ok total ->
  total <> 0 ->
  exists t,
    consultar_contratos registro servicio leer_total q
    = Some (t, Ok (DeRegistros
                     (take (Z.to_nat (Z.min total (max_registros q))) datos))).
Proof.
  intros Hs Hcount Hz. unfold consultar_contratos.
  destruct (contar_registros _ _ _ _) as [t0 r]. simpl in Hcount. subst r.
  apply Z.eqb_neq in Hz. rewrite Hz.
  set (regs := Z.min total (max_registros q)).
  destruct (paginar_datos (where_paginas q) regs (Z.to_nat regs) 1 0 Hs)
    as (t & Ht); [lia..|].
  change (take (Z.to_nat 0) datos) with (@nil registro) in Ht.
  rewrite Ht. eauto.
Qed.

End Servicio.

Lemma consultar_contratos_completa_witness :
  sirve_datos EjemplosApi.servicio_tres EjemplosApi.tres_contratos
    (where_paginas EjemplosApi.dos_de_santander)
  /\ snd (contar_registros Z EjemplosApi.servicio_tres EjemplosApi.leer_total_tres
            (where_total EjemplosApi.dos_de_santander)) = Ok 3
  /\ exists t,
       consultar_contratos Z EjemplosApi.servicio_tres EjemplosApi.leer_total_tres
         EjemplosApi.dos_de_santander
       = Some (t, Ok (DeRegistros [101; 102])).
Proof.
  assert (Hs : sirve_datos EjemplosApi.servicio_tres EjemplosApi.tres_contratos
                 (where_paginas EjemplosApi.dos_de_santander)).
  { intros n limit offset _ _. reflexivity. }
  split; [exact Hs|]. split; [reflexivity|].
  apply (consultar_contratos_completa Z EjemplosApi.servicio_tres
           EjemplosApi.leer_total_tres EjemplosApi.tres_contratos
           EjemplosApi.dos_de_santander 3 Hs); [reflexivity|lia].
Defined.

End ApiConsultaSpec.

(** ** detail_scraper.py: the visits of the pages of detail *)

Module DetalleNavegacionSpec.
Import PyStr Exceptions Pandas DetalleNavegacion.

Lemma visitadas_app (a b : list suceso) :
  visitadas (a ++ b) = visitadas a ++ visitadas b.
Proof. apply omap_app. Qed.

Lemma marco_de_detalles_filas (resultados : list DetalleProceso) :
  rows (marco_de_detalles resultados) = map fila_de resultados
  /\ labels (marco_de_detalles resultados) = COLUMNAS_DETALLE.
Proof.
  destruct resultados as [|d rs]; [done|].
  split; [|reflexivity].
  unfold marco_de_detalles. cbn [rows].
  rewrite map_map. apply map_ext. intros d'. reflexivity.
Qed.

Section Navegador.
Variable _parsear_detalle_html : string -> string -> DetalleProceso.
Variable navegador : nat -> string -> visita.

(** The attempts of one page. *)
Lemma extraer_detalle_proceso_intentos (n : nat) (url : string) :
  exists k,
    (1 <= k <= MAX_RETRIES)%nat
    /\ (extraer_detalle_proceso _parsear_detalle_html navegador n url).2 = (n + k)%nat
    /\ (forall j, (j < k - 1)%nat ->
          es_reintentable
            (cuerpo_intento _parsear_detalle_html (navegador (n + j) url) url) = true)
    /\ (extraer_detalle_proceso _parsear_detalle_html navegador n url).1.1
       = mjoin (map (fun i => [Navega url; Duerme (espera i)]) (seq 1 (k - 1)))
         ++ Navega url
            :: match cuerpo_intento _parsear_detalle_html
                       (navegador (n + (k - 1)) url) url with
               | inl Timeout => [Duerme (espera k)]
               | _ => []
               end
    /\ match (extraer_detalle_proceso _parsear_detalle_html navegador n url).1.2 with
       | Ok (Some detalle) =>
           cuerpo_intento _parsear_detalle_html (navegador (n + (k - 1)) url) url
           = inr detalle
       | Ok None =>
           k = MAX_RETRIES
           /\ es_reintentable
                (cuerpo_intento _parsear_detalle_html
                   (navegador (n + (k - 1)) url) url) = true
       | Raise exc =>
           cuerpo_intento _parsear_detalle_html (navegador (n + (k - 1)) url) url
           = inl (Otra exc)
       end.
Proof.
  unfold extraer_detalle_proceso. cbn [seq MAX_RETRIES reintentar Nat.ltb Nat.leb].
  assert (Hj1 : forall (P : nat -> Prop), (forall j, (j < 1 - 1)%nat -> P j)).
  { intros P j Hj. lia. }
  assert (Hj2 : forall (P : nat -> Prop), P 0%nat -> (forall j, (j < 2 - 1)%nat -> P j)).
  { intros P H0 j Hj. by replace j with 0%nat by lia. }
  assert (Hj3 : forall (P : nat -> Prop), P 0%nat -> P 1%nat ->
                                          (forall j, (j < 3 - 1)%nat -> P j)).
  { intros P H0 H1 j Hj. destruct j as [|[|j]]; [done|done|lia]. }
  replace (S n) with (n + 1)%nat by lia.
  replace (S (n + 1)) with (n + 2)%nat by lia.
  destruct (cuerpo_intento _ (navegador n url) url) as [[|e0|e0]|d0] eqn:H0.
  3,4: exists 1%nat; cbn; rewrite ?Nat.add_0_r, H0; unfold MAX_RETRIES;
    repeat split; try lia; try done; intros j Hj; lia.
  all: destruct (cuerpo_intento _ (navegador (n + 1) url) url) as [[|e1|e1]|d1] eqn:H1.
  3,4,7,8: exists 2%nat; cbn; rewrite H1; unfold MAX_RETRIES;
    (repeat split; try lia; try done); apply Hj2; by rewrite Nat.add_0_r, H0.
  all: destruct (cuerpo_intento _ (navegador (n + 2) url) url) as [[|e2|e2]|d2] eqn:H2.
  all: exists 3%nat; cbn; rewrite H2; unfold MAX_RETRIES;
    (repeat split; try lia; try done); apply Hj3; by rewrite ?Nat.add_0_r, ?H0, ?H1.
Qed.

(** The shape of the run of one page after [k] attempts. *)
Lemma intentos_traza (k : nat) (url : string) (ultimo : fallo + DetalleProceso) :
  (1 <= k <= MAX_RETRIES)%nat ->
  let evs := mjoin (map (fun i => [Navega url; Duerme (espera i)]) (seq 1 (k - 1)))
             ++ Navega url
                :: match ultimo with
                   | inl Timeout => [Duerme (espera k)]
                   | _ => []
                   end in
  visitadas evs = replicate k url /\ (dormido evs <= 14)%Q.
Proof.
  unfold MAX_RETRIES. intros Hk.
  assert (Hk' : k = 1%nat \/ k = 2%nat \/ k = 3%nat) by lia.
  destruct Hk' as [->|[->| ->]]; destruct ultimo as [[| |]|]; by vm_compute.
Qed.

Lemma extraer_detalle_proceso_resumen (n : nat) (url : string) :
  exists k,
    (1 <= k <= MAX_RETRIES)%nat
    /\ visitadas (extraer_detalle_proceso _parsear_detalle_html navegador n url).1.1
       = replicate k url
    /\ (dormido (extraer_detalle_proceso _parsear_detalle_html navegador n url).1.1
        <= 14)%Q
    /\ ((extraer_detalle_proceso _parsear_detalle_html navegador n url).1.2 = Ok None ->
        k = MAX_RETRIES).
Proof.
  destruct (extraer_detalle_proceso_intentos n url) as (k & Hk & _ & _ & Hevs & Hr).
  exists k. split; [done|]. rewrite Hevs.
  destruct (intentos_traza k url
              (cuerpo_intento _parsear_detalle_html (navegador (n + (k - 1)) url) url) Hk)
    as [Hv Hd].
  split; [exact Hv|]. split; [exact Hd|].
  intros Hnone. rewrite Hnone in Hr. by destruct Hr.
Qed.

(** [extraer_detalle_proceso] visits the page at least once and at most
    [MAX_RETRIES] times and no other page, and sleeps 14 seconds at most.
    Every visit but the last ends in a [TimeoutException] or another
    [WebDriverException].  It returns the detail read at the last visit;
    it returns [None] only after [MAX_RETRIES] visits that all ended so;
    it raises only what a visit raised that is not a
    [WebDriverException]. *)
Theorem extraer_detalle_proceso_reintentos (n : nat) (url : string) :
  exists k,
    (1 <= k <= MAX_RETRIES)%nat
    /\ visitadas (extraer_detalle_proceso _parsear_detalle_html navegador n url).1.1
       = replicate k url
    /\ (dormido (extraer_detalle_proceso _parsear_detalle_html navegador n url).1.1
        <= 14)%Q
    /\ (forall j, (j < k - 1)%nat ->
          es_reintentable
            (cuerpo_intento _parsear_detalle_html (navegador (n + j) url) url) = true)
    /\ match (extraer_detalle_proceso _parsear_detalle_html navegador n url).1.2 with
       | Ok (Some detalle) =>
           cuerpo_intento _parsear_detalle_html (navegador (n + (k - 1)) url) url
           = inr detalle
       | Ok None =>
           k = MAX_RETRIES
           /\ es_reintentable
                (cuerpo_intento _parsear_detalle_html
                   (navegador (n + (k - 1)) url) url) = true
       | Raise exc =>
           cuerpo_intento _parsear_detalle_html (navegador (n + (k - 1)) url) url
           = inl (Otra exc)
       end.
Proof.
  destruct (extraer_detalle_proceso_intentos n url) as (k & Hk & _ & Hj & Hevs & Hr).
  exists k. split; [done|]. rewrite Hevs.
  destruct (intentos_traza k url
              (cuerpo_intento _parsear_detalle_html (navegador (n + (k - 1)) url) url) Hk)
    as [Hv Hd].
  by repeat split.
Qed.

Lemma racha_cons (errores : Z) (o : option DetalleProceso)
    (res : list (option DetalleProceso)) :
  racha errores (o :: res)
  = racha (match o with Some _ => 0 | None => errores + 1 end)%Z res.
Proof. reflexivity. Qed.

(** What the loop over the pages has done when it ends. *)
Lemma recorrer_pasos (urls : list string) :
  forall (idx total : nat) (delay : Q) (max_errores errores : Z)
         (resultados : list DetalleProceso) (n : nat)
         (evs : list suceso) (rs : list DetalleProceso) (n' : nat),
  (idx + length urls = S total)%nat ->
  recorrer _parsear_detalle_html navegador idx total urls delay max_errores
           errores resultados n = (evs, Ok rs, n') ->
  exists (res : list (option DetalleProceso)) (trs : list (list suceso))
         (ks : list nat),
    length trs = length res /\ length ks = length res
    /\ (length res <= length urls)%nat
    /\ (urls <> [] -> res <> [])
    /\ Forall (fun k => (1 <= k <= MAX_RETRIES)%nat) ks
    /\ Forall (fun tr => (dormido tr <= 14)%Q) trs
    /\ map visitadas trs = zip_with (fun url k => replicate k url) urls ks
    /\ Forall2 (fun o k => o = None -> k = MAX_RETRIES) res ks
    /\ evs = intercalar [Duerme delay] trs
    /\ rs = resultados ++ omap id res
    /\ (forall p, p `prefix_of` res -> p <> [] -> p <> res ->
          (racha errores p < max_errores)%Z)
    /\ ((length res < length urls)%nat -> (max_errores <= racha errores res)%Z).
Proof.
  induction urls as [|url resto IH];
    intros idx total delay max_errores errores resultados n evs rs n' Hidx Hrun.
  - simpl in Hrun. injection Hrun as <- <- <-.
    exists [], [], []. rewrite app_nil_r.
    repeat split; try done; try constructor.
    + intros p Hp Hne. apply prefix_nil_inv in Hp. done.
    + simpl. lia.
  - cbn [recorrer] in Hrun.
    destruct (extraer_detalle_proceso_resumen n url) as (k & Hk & Hv & Hd & Hnone).
    destruct (extraer_detalle_proceso _ _ n url) as [[evs0 r0] n0].
    cbn [fst snd] in Hv, Hd, Hnone.
    destruct r0 as [detalle|exc]; [|done].
    set (resultados' := match detalle with
                        | Some d => resultados ++ [d] | None => resultados end).
    set (errores' := match detalle with
                     | Some _ => 0%Z | None => (errores + 1)%Z end).
    assert (Hpar : (match detalle with
                    | Some d => (resultados ++ [d], 0%Z)
                    | None => (resultados, (errores + 1)%Z)
                    end) = (resultados', errores')) by (by destruct detalle).
    rewrite Hpar in Hrun.
    assert (Hrs : resultados' ++ [] = resultados ++ omap id [detalle]).
    { unfold resultados'. destruct detalle; simpl; by rewrite ?app_nil_r. }
    assert (Hracha : racha errores [detalle] = errores') by (by destruct detalle).
    destruct (max_errores <=? errores')%Z eqn:Hmax.
    + (* the run is given up *)
      apply Z.leb_le in Hmax. injection Hrun as <- <- <-.
      exists [detalle], [evs0], [k].
      split; [done|]. split; [done|]. split; [simpl; lia|]. split; [done|].
      split; [by constructor|]. split; [by constructor|].
      split; [simpl; by rewrite Hv; destruct resto|].
      split; [constructor; [intros ->; by apply Hnone|constructor]|].
      split; [done|]. split; [by rewrite <- Hrs, app_nil_r|]. split.
      * intros p Hp Hne Hne'. destruct p as [|o p]; [done|].
        destruct Hp as [q Hq]. injection Hq as -> Hq.
        destruct p; [done|discriminate].
      * intros _. by rewrite Hracha.
    + apply Z.leb_gt in Hmax.
      destruct (recorrer _ _ (S idx) total resto delay max_errores errores'
                         resultados' n0) as [[evs' r'] n''] eqn:Hrec.
      injection Hrun as <- -> <-.
      destruct (IH (S idx) total delay max_errores errores' resultados' n0
                   evs' rs n'') as
        (res & trs & ks & Hlt & Hlk & Hle & Hne & Hks & Hds & Hvs & Hnk & Hevs' & Hrs'
         & Hpre & Hab); [simpl in Hidx; lia|done|].
      exists (detalle :: res), (evs0 :: trs), (k :: ks).
      split; [simpl; lia|]. split; [simpl; lia|]. split; [simpl; lia|].
      split; [done|]. split; [by constructor|]. split; [by constructor|].
      split; [simpl; by rewrite Hv, Hvs|].
      split; [constructor; [intros ->; by apply Hnone|done]|].
      split; [|split; [|split]].
      * rewrite Hevs'. destruct resto as [|url' resto'].
        -- destruct res; [|simpl in Hle; lia]. destruct trs; [|done].
           simpl in Hidx.
           assert (Hno : (idx <? total)%nat = false) by (apply Nat.ltb_ge; lia).
           rewrite Hno. simpl. by rewrite app_nil_r.
        -- simpl in Hidx.
           assert (Hsi : (idx <? total)%nat = true) by (apply Nat.ltb_lt; lia).
           rewrite Hsi. destruct res as [|o res]; [by destruct Hne|].
           destruct trs as [|tr trs]; [done|]. reflexivity.
      * rewrite Hrs'. unfold resultados'. destruct detalle; simpl; [|done].
        by rewrite <- app_assoc.
      * intros p Hp Hne' Hne''. destruct p as [|o p]; [done|].
        destruct Hp as [q Hq]. injection Hq as -> Hq.
        rewrite racha_cons. fold errores'.
        destruct p as [|o' p].
        -- simpl. done.
        -- apply Hpre; [by exists q|done|]. intros Heq. apply Hne''. by rewrite Heq.
      * intros Hlen. rewrite racha_cons. fold errores'. apply Hab.
        simpl in Hlen. lia.
Qed.

Lemma visitadas_intercalar (delay : Q) (trs : list (list suceso)) :
  visitadas (intercalar [Duerme delay] trs) = mjoin (map visitadas trs).
Proof.
  induction trs as [|tr trs IH]; [done|].
  cbn [intercalar map mjoin]. destruct trs as [|tr' trs].
  - simpl. by rewrite app_nil_r.
  - rewrite !visitadas_app, IH. done.
Qed.

(** When [extraer_detalles_masivo] returns, it has processed the pages of
    a prefix of the list, each once and in order, with at least one and
    at most [MAX_RETRIES] visits of each and no other visit; a page
    without a detail was visited [MAX_RETRIES] times.  The frame has the
    columns of [COLUMNAS_DETALLE] and one row for each detail read, in the
    order of the pages.  The prefix is the shortest after which the
    failures in a row are [max_errores] or more, and the whole list when
    there is none. *)
Theorem extraer_detalles_masivo_recorrido (urls : list string) (delay : Q)
    (max_errores : Z) (n : nat) (evs : list suceso) (df : frame) (n' : nat) :
  extraer_detalles_masivo _parsear_detalle_html navegador urls delay max_errores n
  = (evs, Ok df, n') ->
  exists (res : list (option DetalleProceso)) (ks : list nat),
    length ks = length res
    /\ (length res <= length urls)%nat
    /\ (urls <> [] -> res <> [])
    /\ Forall (fun k => (1 <= k <= MAX_RETRIES)%nat) ks
    /\ Forall2 (fun o k => o = None -> k = MAX_RETRIES) res ks
    /\ visitadas evs = mjoin (zip_with (fun url k => replicate k url) urls ks)
    /\ labels df = COLUMNAS_DETALLE
    /\ rows df = map fila_de (omap id res)
    /\ (forall p, p `prefix_of` res -> p <> [] -> p <> res ->
          (racha 0 p < max_errores)%Z)
    /\ ((length res < length urls)%nat -> (max_errores <= racha 0 res)%Z).
Proof.
  unfold extraer_detalles_masivo. intros Hrun.
  destruct (recorrer _ _ 1 (length urls) urls delay max_errores 0 [] n)
    as [[evs0 [rs|exc]] n0] eqn:Hrec; [|done].
  injection Hrun as <- <- <-.
  destruct (recorrer_pasos urls 1 (length urls) _ _ _ _ _ _ _ _ eq_refl Hrec) as
    (res & trs & ks & Hlt & Hlk & Hle & Hne & Hks & Hds & Hvs & Hnk & Hevs & Hrs
     & Hpre & Hab).
  exists res, ks. rewrite Hevs, visitadas_intercalar, Hvs.
  destruct (marco_de_detalles_filas rs) as [Hrows Hlab].
  rewrite Hrows, Hlab, Hrs. done.
Qed.

(** The pace of [extraer_detalles_masivo]: its run is the runs of the
    pages it processes, one after the other, with exactly one sleep of
    [delay] seconds between each two; the run of a page visits that page
    only and sleeps 14 seconds at most. *)
Theorem extraer_detalles_masivo_ritmo (urls : list string) (delay : Q)
    (max_errores : Z) (n : nat) (evs : list suceso) (df : frame) (n' : nat) :
  extraer_detalles_masivo _parsear_detalle_html navegador urls delay max_errores n
  = (evs, Ok df, n') ->
  exists (trs : list (list suceso)) (ks : list nat),
    evs = intercalar [Duerme delay] trs
    /\ length ks = length trs
    /\ (length trs <= length urls)%nat
    /\ Forall (fun k => (1 <= k <= MAX_RETRIES)%nat) ks
    /\ map visitadas trs = zip_with (fun url k => replicate k url) urls ks
    /\ Forall (fun tr => (dormido tr <= 14)%Q) trs.
Proof.
  unfold extraer_detalles_masivo. intros Hrun.
  destruct (recorrer _ _ 1 (length urls) urls delay max_errores 0 [] n)
    as [[evs0 [rs|exc]] n0] eqn:Hrec; [|done].
  injection Hrun as <- <- <-.
  destruct (recorrer_pasos urls 1 (length urls) _ _ _ _ _ _ _ _ eq_refl Hrec) as
    (res & trs & ks & Hlt & Hlk & Hle & Hne & Hks & Hds & Hvs & Hnk & Hevs & Hrs
     & Hpre & Hab).
  exists trs, ks. repeat split; try done; lia.
Qed.

(** With [max_errores] at 0 or less the run is given up after the first
    page, whether that page was read or not: no other page is visited
    and the frame has one row at most. *)
Theorem extraer_detalles_masivo_sin_tolerancia (url : string) (resto : list string)
    (delay : Q) (max_errores : Z) (n : nat) :
  (max_errores <= 0)%Z ->
  (extraer_detalles_masivo _parsear_detalle_html navegador (url :: resto) delay
     max_errores n).1.1
  = (extraer_detalle_proceso _parsear_detalle_html navegador n url).1.1
  /\ (exists k, (1 <= k <= MAX_RETRIES)%nat
        /\ visitadas (extraer_detalles_masivo _parsear_detalle_html navegador
                        (url :: resto) delay max_errores n).1.1
           = replicate k url)
  /\ (forall df,
        (extraer_detalles_masivo _parsear_detalle_html navegador (url :: resto) delay
           max_errores n).1.2 = Ok df ->
        (length (rows df) <= 1)%nat).
Proof.
  intros Hmax.
  destruct (extraer_detalle_proceso_resumen n url) as (k & Hk & Hv & _).
  unfold extraer_detalles_masivo. cbn [recorrer].
  destruct (extraer_detalle_proceso _ _ n url) as [[evs0 r0] n0].
  cbn [fst snd] in Hv |- *.
  destruct r0 as [[d|]|exc].
  - rewrite (proj2 (Z.leb_le _ _)) by lia. cbn [fst snd].
    split; [done|]. split; [by exists k|].
    intros df Heq.
    assert (df = marco_de_detalles ([] ++ [d])) as -> by congruence.
    by rewrite (proj1 (marco_de_detalles_filas _)).
  - rewrite (proj2 (Z.leb_le _ _)) by lia. cbn [fst snd].
    split; [done|]. split; [by exists k|].
    intros df Heq. assert (df = marco_de_detalles []) as -> by congruence.
    simpl. lia.
  - cbn [fst snd]. split; [done|]. split; [by exists k|]. done.
Qed.

End Navegador.

Lemma extraer_detalles_masivo_recorrido_witness :
  exists evs df n',
    extraer_detalles_masivo EjemplosDetalle.detalle_con_numero
      EjemplosDetalle.navegador_sin_b ["/a"; "/b"; "/c"] 1.5 1 0
    = (evs, Ok df, n')
    /\ visitadas evs = ["/a"; "/b"; "/b"; "/b"]
    /\ len df = 1%nat
    /\ exists (res : list (option DetalleProceso)) (ks : list nat),
         (length res <= 3)%nat
         /\ visitadas evs
            = mjoin (zip_with (fun url k => replicate k url) ["/a"; "/b"; "/c"] ks)
         /\ rows df = map fila_de (omap id res)
         /\ ((length res < 3)%nat -> (1 <= racha 0 res)%Z).
Proof.
  eexists _, _, _. split; [reflexivity|]. split; [reflexivity|]. split; [reflexivity|].
  destruct (extraer_detalles_masivo_recorrido EjemplosDetalle.detalle_con_numero
              EjemplosDetalle.navegador_sin_b ["/a"; "/b"; "/c"] 1.5 1 0 _ _ _ eq_refl)
    as (res & ks & _ & Hle & _ & _ & _ & Hv & _ & Hrows & _ & Hab).
  exists res, ks. split; [exact Hle|]. split; [exact Hv|]. split; [exact Hrows|exact Hab].
Defined.

Lemma extraer_detalles_masivo_ritmo_witness :
  exists evs df n',
    extraer_detalles_masivo EjemplosDetalle.detalle_con_numero
      EjemplosDetalle.navegador_sin_b ["/a"; "/b"; "/c"] 1.5 1 0
    = (evs, Ok df, n')
    /\ exists (trs : list (list suceso)) (ks : list nat),
         evs = intercalar [Duerme 1.5] trs
         /\ length ks = length trs
         /\ (length trs <= 3)%nat
         /\ Forall (fun k => (1 <= k <= MAX_RETRIES)%nat) ks
         /\ map visitadas trs
            = zip_with (fun url k => replicate k url) ["/a"; "/b"; "/c"] ks
         /\ Forall (fun tr => (dormido tr <= 14)%Q) trs.
Proof.
  eexists _, _, _. split; [reflexivity|].
  exact (extraer_detalles_masivo_ritmo EjemplosDetalle.detalle_con_numero
           EjemplosDetalle.navegador_sin_b ["/a"; "/b"; "/c"] 1.5 1 0 _ _ _ eq_refl).
Defined.

Lemma extraer_detalles_masivo_sin_tolerancia_witness :
  (0 <= 0)%Z
  /\ visitadas (extraer_detalles_masivo EjemplosDetalle.detalle_con_numero
                  EjemplosDetalle.navegador_sin_b ["/a"; "/b"; "/c"] 1.5 0 0).1.1
     = ["/a"]
  /\ forall df,
       (extraer_detalles_masivo EjemplosDetalle.detalle_con_numero
          EjemplosDetalle.navegador_sin_b ["/a"; "/b"; "/c"] 1.5 0 0).1.2 = Ok df ->
       (length (rows df) <= 1)%nat.
Proof.
  split; [lia|]. split; [reflexivity|].
  apply (extraer_detalles_masivo_sin_tolerancia EjemplosDetalle.detalle_con_numero
           EjemplosDetalle.navegador_sin_b "/a" ["/b"; "/c"] 1.5 0 0). lia.
Defined.

End DetalleNavegacionSpec.

(** ** main.py: the detail mode *)

Module MainDetalleSpec.
Import PyStr Exceptions Pandas Config Cleaning ApiScraper DetailScraper Main.
Import MainEventos DetalleNavegacion MainDetalle.

Lemma vistos_web_visto (sucesos : list suceso) (vs : list evento) :
  vistos (map Web sucesos ++ map Visto vs) = vs.
Proof.
  unfold vistos. rewrite omap_app.
  assert (Hw : omap (fun a => match a with Visto e => Some e | _ => None end)
                    (map Web sucesos) = []).
  { induction sucesos as [|s l IH]; [done|]. exact IH. }
  assert (Hv : omap (fun a => match a with Visto e => Some e | _ => None end)
                    (map Visto vs) = vs).
  { induction vs as [|v l IH]; [done|]. simpl. by f_equal. }
  by rewrite Hw, Hv.
Qed.

Lemma paginas_web_visto (sucesos : list suceso) (vs : list evento) :
  paginas_pedidas (map Web sucesos ++ map Visto vs) = visitadas sucesos.
Proof.
  unfold paginas_pedidas, visitadas. rewrite omap_app.
  assert (Hv : omap (fun a => match a with Web (Navega url) => Some url | _ => None end)
                    (map Visto vs) = []).
  { induction vs as [|v l IH]; [done|]. exact IH. }
  rewrite Hv, app_nil_r.
  induction sucesos as [|[url|s] l IH]; [done| |]; simpl; [by f_equal|done].
Qed.

Section WithLibrary.
Context `{PyLib}.
Variable _parsear_detalle_html : string -> string -> DetalleProceso.
Variable navegador : nat -> string -> visita.

(** The run of the first page is always made. *)
Lemma extraer_detalles_masivo_primera (url : string) (resto : list string)
    (delay : Q) (max_errores : Z) (n : nat) :
  exists k resto_visitadas,
    visitadas (extraer_detalles_masivo _parsear_detalle_html navegador
                 (url :: resto) delay max_errores n).1.1
    = replicate (S k) url ++ resto_visitadas.
Proof.
  destruct (DetalleNavegacionSpec.extraer_detalle_proceso_resumen
              _parsear_detalle_html navegador n url) as (k & Hk & Hv & _).
  unfold extraer_detalles_masivo. cbn [recorrer].
  destruct (extraer_detalle_proceso _ _ n url) as [[evs0 r0] n0].
  cbn [fst snd] in Hv.
  destruct k as [|k]; [lia|].
  destruct r0 as [[d|]|exc].
  3:{ exists k, []. cbn [fst snd]. by rewrite app_nil_r. }
  all: match goal with |- context [(?a <=? ?b)%Z] => destruct (a <=? b)%Z end.
  1,3: exists k, []; cbn [fst snd]; by rewrite app_nil_r.
  all: destruct (recorrer _ _ _ _ resto _ _ _ _ _) as [[evs' r'] n''].
  all: destruct r' as [rs|exc]; cbn [fst snd];
    rewrite !DetalleNavegacionSpec.visitadas_app, Hv; eauto.
Qed.

(** What the body of the [try] shows and returns. *)
Lemma cuerpo_detalle_actos (env : entorno) (args : Namespace) (urls : list string)
    (delay : Q) (ruta : string) (fs : filesystem) :
  exists vs r fs',
    cuerpo_detalle _parsear_detalle_html navegador env args urls delay ruta fs
    = (map Web (extraer_detalles_masivo _parsear_detalle_html navegador urls delay
                  MAX_ERRORES_POR_DEFECTO 0).1.1 ++ map Visto vs, r, fs')
    /\ cierres vs = 0%nat
    /\ (exportaciones vs <= 1)%nat
    /\ (r = Ok 0%Z \/ r = Ok 1%Z)
    /\ (exportaciones vs = 0%nat -> fs' = fs)
    /\ (forall ruta' df', Exportado ruta' df' ∈ vs ->
          ruta' = ruta /\ to_csv env = None /\ fs' !! ruta <> None).
Proof.
  unfold cuerpo_detalle.
  destruct (extraer_detalles_masivo _ _ urls delay _ 0) as [[sucesos r0] n0].
  cbn [fst snd].
  assert (Hnada : forall z : Z, z = 0%Z \/ z = 1%Z ->
            exists vs r fs',
              (map Web sucesos, Ok z, fs) = (map Web sucesos ++ map Visto vs, r, fs')
              /\ cierres vs = 0%nat
              /\ (exportaciones vs <= 1)%nat
              /\ (r = Ok 0%Z \/ r = Ok 1%Z)
              /\ (exportaciones vs = 0%nat -> fs' = fs)
              /\ (forall ruta' df', Exportado ruta' df' ∈ vs ->
                    ruta' = ruta /\ to_csv env = None /\ fs' !! ruta <> None)).
  { intros z Hz. exists [], (Ok z), fs. rewrite app_nil_r.
    split; [done|]. split; [done|]. split; [unfold exportaciones; simpl; lia|].
    split; [destruct Hz as [->| ->]; auto|]. split; [done|].
    by intros ?? ?%elem_of_nil. }
  destruct r0 as [df_detalles|exc]; [|apply Hnada; auto].
  destruct (is_empty df_detalles); [apply Hnada; auto|].
  destruct (call _ df_detalles) as [df_limpio|exc]; [|apply Hnada; auto].
  destruct (to_csv env) as [exc|] eqn:Hcsv; [apply Hnada; auto|].
  assert (Hexp : forall ruta' df' (resto : list evento),
            Exportado ruta' df' ∈ Exportado ruta df_limpio :: resto ->
            (forall ev, ev ∈ resto -> es_exportado ev = false) ->
            ruta' = ruta).
  { intros ruta' df' resto [Hin|Hin]%elem_of_cons Hresto.
    - by injection Hin as -> ->.
    - by apply Hresto in Hin. }
  destruct (presente (arg_historica args)) as [hist|].
  - destruct (actualizar_base_historica _ _ _ _) as [[c|e] fs1] eqn:Hact.
    + exists [Exportado ruta df_limpio; HistoricaActualizada hist; VistaPrevia df_limpio],
        (Ok 0%Z), fs1.
      split; [by rewrite <- !app_assoc|]. split; [done|].
      split; [unfold exportaciones; simpl; lia|]. split; [auto|].
      split; [done|].
      intros ruta' df' Hin. split; [|split; [done|]].
      * apply (Hexp _ _ _ Hin). intros ev Hev.
        repeat (apply elem_of_cons in Hev as [->|Hev]; [done|]).
        by apply elem_of_nil in Hev.
      * unfold actualizar_base_historica in Hact.
        destruct (concat _) as [comb|e]; [|done].
        injection Hact as _ <-. unfold guardar.
        destruct (decide (hist = ruta)) as [->|Hne].
        -- by rewrite lookup_insert_eq.
        -- rewrite lookup_insert_ne by done. by rewrite lookup_insert_eq.
    + exists [Exportado ruta df_limpio], (Ok 1%Z), fs1.
      split; [done|]. split; [done|].
      split; [unfold exportaciones; simpl; lia|]. split; [auto|].
      split; [done|].
      intros ruta' df' Hin. split; [|split; [done|]].
      * apply (Hexp _ _ _ Hin). by intros ev ?%elem_of_nil.
      * unfold actualizar_base_historica in Hact.
        destruct (concat _) as [comb|e']; [done|].
        injection Hact as _ <-. by rewrite lookup_insert_eq.
  - exists [Exportado ruta df_limpio; VistaPrevia df_limpio], (Ok 0%Z),
      (<[ruta := csv_reload df_limpio]> fs).
    split; [by rewrite <- !app_assoc|]. split; [done|].
    split; [unfold exportaciones; simpl; lia|]. split; [auto|].
    split; [done|].
    intros ruta' df' Hin. split; [|split; [done|]].
    * apply (Hexp _ _ _ Hin). intros ev Hev.
      repeat (apply elem_of_cons in Hev as [->|Hev]; [done|]).
      by apply elem_of_nil in Hev.
    * by rewrite lookup_insert_eq.
Qed.

(** What a run in detail mode shows, once unfolded to the step that
    starts the browser. *)
Lemma ejecutar_modo_detalle_forma (env : entorno) (args : Namespace)
    (entrada : option string) (delay : Q) (fs : filesystem) :
  (exists r,
      ejecutar_modo_detalle _parsear_detalle_html navegador env args entrada delay fs
      = ([], r, fs)
      /\ (r = Ok 0%Z ->
          exists ruta df,
            presente entrada = Some ruta /\ fs !! ruta = Some df
            /\ "url_detalle" ∈ labels df))
  \/ (exists ruta_entrada ruta url resto vs r fs',
        presente entrada = Some ruta_entrada
        /\ (exists df, fs !! ruta_entrada = Some df /\ "url_detalle" ∈ labels df)
        /\ generar_ruta_salida env (arg_salida args) = Ok ruta
        /\ crear_driver env = None
        /\ cuerpo_detalle _parsear_detalle_html navegador env args (url :: resto)
             delay ruta fs
           = (map Web (extraer_detalles_masivo _parsear_detalle_html navegador
                         (url :: resto) delay MAX_ERRORES_POR_DEFECTO 0).1.1
              ++ map Visto vs, r, fs')
        /\ ejecutar_modo_detalle _parsear_detalle_html navegador env args entrada
             delay fs
           = (NavegadorAbierto
                :: (map Web (extraer_detalles_masivo _parsear_detalle_html navegador
                               (url :: resto) delay MAX_ERRORES_POR_DEFECTO 0).1.1
                    ++ map Visto vs)
                ++ map Visto (cerrar_driver env).1,
              match (cerrar_driver env).2 with
              | Some exc => Raise exc
              | None => r
              end, fs')
        /\ cierres vs = 0%nat
        /\ (exportaciones vs <= 1)%nat
        /\ (r = Ok 0%Z \/ r = Ok 1%Z)
        /\ (exportaciones vs = 0%nat -> fs' = fs)
        /\ (forall ruta' df', Exportado ruta' df' ∈ vs ->
              ruta' = ruta /\ to_csv env = None /\ fs' !! ruta <> None)).
Proof.
  unfold ejecutar_modo_detalle.
  destruct (importar_selenium env) as [exc|]; [left; by eexists|].
  destruct (presente entrada) as [ruta_entrada|]; [|left; by eexists].
  destruct (fs !! ruta_entrada) as [df_entrada|] eqn:Hfs; [|left; by eexists].
  destruct (generar_ruta_salida env _) as [ruta|exc]; [|left; by eexists].
  destruct (positions df_entrada "url_detalle") as [|i [|i' l]] eqn:Hpos;
    [left; by eexists| |left; by eexists].
  assert (Hcol : "url_detalle" ∈ labels df_entrada).
  { destruct (decide ("url_detalle" ∈ labels df_entrada)) as [Hin|Hno]; [done|].
    unfold positions in Hpos.
    by rewrite (CleaningColumnas.positions_from_nil 0 _ _ Hno) in Hpos. }
  destruct (urls_de df_entrada i) as [|url resto].
  { left. eexists. split; [done|]. intros _. by exists ruta_entrada, df_entrada. }
  destruct (crear_driver env) as [exc|]; [left; by eexists|].
  right.
  destruct (cuerpo_detalle_actos env args (url :: resto) delay ruta fs)
    as (vs & r & fs' & Hc & Hcierres & Hexp & Hr & Hfs' & Hruta).
  exists ruta_entrada, ruta, url, resto, vs, r, fs'.
  rewrite Hc. destruct (cerrar_driver env) as [evs exc_cierre].
  split; [done|]. split; [by exists df_entrada|]. split; [done|]. split; [done|].
  split; [done|]. split; [done|]. split; [done|]. split; [done|]. split; [done|].
  split; [done|]. done.
Qed.

Lemma cerrar_driver_casos (env : entorno) :
  match driver_quit env with
  | None => cerrar_driver env = ([NavegadorCerrado], None)
  | Some exc =>
      cerrar_driver env
      = ([], if isinstance exc WebDriverException then None else Some exc)
  end.
Proof.
  unfold cerrar_driver. destruct (driver_quit env) as [exc|]; [|done].
  by destruct (isinstance exc WebDriverException).
Qed.


(** In detail mode at most one file is exported: to the path chosen for
    the output, only when writing it raised nothing and after a page was
    asked for; the file then exists.  While nothing is exported the files
    are as they were.  When [--entrada] is missing or empty or names no
    file, or the file has no column [url_detalle], the run shows nothing,
    writes nothing and does not return 0. *)
Theorem modo_detalle_salida (env : entorno) (args : Namespace)
    (entrada : option string) (delay : Q) (fs : filesystem) :
  (exportaciones
     (vistos (ejecutar_modo_detalle _parsear_detalle_html navegador env args entrada
                delay fs).1.1) <= 1)%nat
  /\ (exportaciones
        (vistos (ejecutar_modo_detalle _parsear_detalle_html navegador env args entrada
                   delay fs).1.1) = 0%nat ->
      (ejecutar_modo_detalle _parsear_detalle_html navegador env args entrada delay fs).2
      = fs)
  /\ (forall ruta df,
        Exportado ruta df
        ∈ vistos (ejecutar_modo_detalle _parsear_detalle_html navegador env args
                    entrada delay fs).1.1 ->
        generar_ruta_salida env (arg_salida args) = Ok ruta
        /\ to_csv env = None
        /\ paginas_pedidas
             (ejecutar_modo_detalle _parsear_detalle_html navegador env args entrada
                delay fs).1.1 <> []
        /\ (ejecutar_modo_detalle _parsear_detalle_html navegador env args entrada
              delay fs).2 !! ruta <> None)
  /\ ((presente entrada = None
       \/ exists ruta_entrada,
            presente entrada = Some ruta_entrada
            /\ (fs !! ruta_entrada = None
                \/ exists df, fs !! ruta_entrada = Some df
                              /\ "url_detalle" ∉ labels df)) ->
      (ejecutar_modo_detalle _parsear_detalle_html navegador env args entrada
         delay fs).1.1 = []
      /\ (ejecutar_modo_detalle _parsear_detalle_html navegador env args entrada
            delay fs).2 = fs
      /\ (ejecutar_modo_detalle _parsear_detalle_html navegador env args entrada
            delay fs).1.2 <> Ok 0%Z).
Proof.
  destruct (ejecutar_modo_detalle_forma env args entrada delay fs)
    as [(r & -> & Hcero)|(ruta_entrada & ruta & url & resto & vs & r & fs' & Hent
                          & (df_entrada & Hfs & Hcol) & Hgen
                          & Hdrv & Hcuerpo & -> & Hcierres & Hexp & Hr & Hfs' & Hruta)].
  - cbn [fst snd]. split; [unfold exportaciones; simpl; lia|]. split; [done|].
    split; [by intros ?? ?%elem_of_nil|].
    intros Hmal. split; [done|]. split; [done|]. intros ->.
    destruct (Hcero eq_refl) as (ruta0 & df0 & Hent & Hfs & Hcol).
    destruct Hmal as [Hmal|(ruta1 & Hent1 & [Hno|(df1 & Hfs1 & Hno)])];
      simplify_eq; done.
  - cbn [fst snd].
    assert (Hvis : vistos (NavegadorAbierto
                     :: (map Web (extraer_detalles_masivo _parsear_detalle_html
                                    navegador (url :: resto) delay
                                    MAX_ERRORES_POR_DEFECTO 0).1.1
                         ++ map Visto vs) ++ map Visto (cerrar_driver env).1)
                   = vs ++ (cerrar_driver env).1).
    { rewrite <- app_assoc, <- map_app.
      change (vistos (NavegadorAbierto :: ?l)) with (vistos l).
      apply vistos_web_visto. }
    assert (Hpag : paginas_pedidas (NavegadorAbierto
                     :: (map Web (extraer_detalles_masivo _parsear_detalle_html
                                    navegador (url :: resto) delay
                                    MAX_ERRORES_POR_DEFECTO 0).1.1
                         ++ map Visto vs) ++ map Visto (cerrar_driver env).1)
                   <> []).
    { rewrite <- app_assoc, <- map_app.
      change (paginas_pedidas (NavegadorAbierto :: ?l)) with (paginas_pedidas l).
      rewrite paginas_web_visto.
      destruct (extraer_detalles_masivo_primera url resto delay
                  MAX_ERRORES_POR_DEFECTO 0) as (k & rv & ->). done. }
    rewrite Hvis.
    assert (Hcd : exportaciones (vs ++ (cerrar_driver env).1) = exportaciones vs
                  /\ forall e, es_exportado e = true ->
                       e ∈ vs ++ (cerrar_driver env).1 -> e ∈ vs).
    { pose proof (cerrar_driver_casos env) as Hcd.
      destruct (driver_quit env) as [exc|]; rewrite Hcd; cbn [fst snd].
      - by rewrite app_nil_r.
      - split.
        + unfold exportaciones. by rewrite List.filter_app, length_app, Nat.add_0_r.
        + intros e He [Hin|Hin]%elem_of_app; [done|].
          apply list_elem_of_singleton in Hin as ->. done. }
    destruct Hcd as [Hcd1 Hcd2]. rewrite Hcd1.
    split; [done|]. split; [done|]. split.
    + intros ruta' df' Hin. apply Hcd2 in Hin; [|done].
      destruct (Hruta _ _ Hin) as (-> & Hcsv & Hfile). done.
    + intros [Hmal|(ruta1 & Hent1 & [Hno|(df1 & Hfs1 & Hno)])]; simplify_eq; done.
Qed.

End WithLibrary.


Lemma modo_detalle_salida_witness :
  (@ejecutar_modo_detalle Ejemplos.lib_ejemplo EjemplosDetalle.detalle_con_numero
     EjemplosDetalle.navegador_sin_b Ejemplos.entorno_sin_fallos
     Ejemplos.sin_argumentos (Some "falta.csv") 1.5
     {[ "in.csv" := EjemplosDetalle.entrada_con_urls ]}).1.1 = []
  /\ forall ruta df,
       Exportado ruta df
       ∈ vistos (@ejecutar_modo_detalle Ejemplos.lib_ejemplo
                   EjemplosDetalle.detalle_con_numero EjemplosDetalle.navegador_sin_b
                   Ejemplos.entorno_sin_fallos Ejemplos.sin_argumentos
                   (Some "in.csv") 1.5
                   {[ "in.csv" := EjemplosDetalle.entrada_con_urls ]}).1.1 ->
       ruta = "output/resultados.csv".
Proof.
  split.
  - destruct (@modo_detalle_salida Ejemplos.lib_ejemplo
                EjemplosDetalle.detalle_con_numero EjemplosDetalle.navegador_sin_b
                Ejemplos.entorno_sin_fallos Ejemplos.sin_argumentos
                (Some "falta.csv") 1.5
                {[ "in.csv" := EjemplosDetalle.entrada_con_urls ]})
      as (_ & _ & _ & Hmal).
    apply Hmal. right. exists "falta.csv". split; [reflexivity|]. left. reflexivity.
  - intros ruta df Hin.
    destruct (@modo_detalle_salida Ejemplos.lib_ejemplo
                EjemplosDetalle.detalle_con_numero EjemplosDetalle.navegador_sin_b
                Ejemplos.entorno_sin_fallos Ejemplos.sin_argumentos
                (Some "in.csv") 1.5
                {[ "in.csv" := EjemplosDetalle.entrada_con_urls ]})
      as (_ & _ & Hexp & _).
    destruct (Hexp ruta df Hin) as (Hgen & _). by injection Hgen as <-.
Defined.

End MainDetalleSpec.

(** ** detail_scraper.py: the labels of a page of detail *)

Module DetalleEtiquetasSpec.
Import PyStr Parser DetalleEtiquetas PyStrFacts.

Lemma solo_permitidos_chars (n : nat) :
  forall s, (String.length s <= n)%nat ->
    has_char (fun c => negb (is_az09 c || is_space c || Ascii.eqb c "195"
                             || is_accent_tail c))
             (solo_permitidos s) = false.
Proof.
  induction n as [|n IH]; intros s Hn.
  - destruct s; [done|simpl in Hn; lia].
  - destruct s as [|c r]; [done|]. simpl in Hn. cbn [solo_permitidos].
    destruct (is_az09 c || is_space c) eqn:Hc.
    + cbn [has_char]. rewrite IH by lia.
      apply orb_true_iff in Hc as [-> | ->]; by rewrite ?orb_true_r.
    + destruct r as [|c2 r2]; [done|].
      destruct (Ascii.eqb c "195" && is_accent_tail c2) eqn:Hp.
      * apply andb_true_iff in Hp as [Hc1 Hc2]. cbn [has_char].
        rewrite IH by (simpl in Hn; lia).
        by rewrite Hc1, Hc2, !orb_true_r.
      * apply IH. simpl in *. lia.
Qed.

Lemma sub_runs_1_otros (q : ascii -> bool) (run s : string) :
  q " "%char = false ->
  has_char (fun c => q c && negb (is_space c)) s = false ->
  has_char q (sub_runs is_space 1 " " run s) = false.
Proof.
  intros Hsp. revert run. induction s as [|c r IH]; intros run Hs.
  - simpl. destruct run as [|w run']; [done|]. simpl. by rewrite Hsp.
  - cbn [sub_runs]. simpl in Hs. apply orb_false_elim in Hs as [Hc Hr].
    destruct (is_space c) eqn:Hspc; [by apply IH|].
    rewrite andb_true_r in Hc.
    destruct run as [|w run'].
    + simpl. by rewrite Hc, IH.
    + cbn [String.length Nat.leb]. rewrite app_cons, app_nil_l. simpl.
      by rewrite Hsp, Hc, IH.
Qed.

Lemma normalizar_etiqueta_chars (texto : string) :
  has_char es_otro (_normalizar_etiqueta texto) = false.
Proof.
  unfold _normalizar_etiqueta.
  destruct (has_char es_otro (strip _)) eqn:Hc; [|done].
  apply has_char_strip in Hc.
  rewrite sub_runs_1_otros in Hc; [done|done|].
  set (s := solo_permitidos _).
  pose proof (solo_permitidos_chars _ (strip (quitar_final (strip (lower texto))))
                (le_n _)) as Hs.
  fold s in Hs. clearbody s. clear Hc.
  induction s as [|c r IH]; [done|]. cbn [has_char] in Hs |- *.
  apply orb_false_elim in Hs as [Hc Hr]. rewrite (IH Hr), orb_false_r.
  unfold es_otro. destruct (is_space c) eqn:Hsp; [by rewrite andb_false_r|].
  rewrite andb_true_r. rewrite orb_false_r in Hc.
  apply negb_false_iff in Hc. apply negb_false_iff.
  apply orb_true_iff in Hc as [Hc|Hc]; [|by rewrite Hc, orb_true_r].
  apply orb_true_iff in Hc as [Hc|Hc]; rewrite Hc; by rewrite ?orb_true_r.
Qed.

(** The text [_normalizar_etiqueta] returns is made of lower-case letters
    of ASCII, digits, spaces and the letters á é í ó ú ñ ü only.  So it is
    never the key [nro. proceso] of [_MAPEO_ETIQUETAS], which has a dot:
    that entry is never found, and the label [Nro. Proceso] has no field.
    Every other key is returned for its own text, and gives its field. *)
Theorem normalizar_etiqueta_alcanza :
  (forall texto, has_char es_otro (_normalizar_etiqueta texto) = false)
  /\ (forall texto, _normalizar_etiqueta texto <> "nro. proceso")
  /\ (forall k campo,
        (k, campo) ∈ _MAPEO_ETIQUETAS -> k <> "nro. proceso" ->
        _normalizar_etiqueta k = k /\ campo_de k = Some campo)
  /\ ("nro. proceso", "numero_proceso") ∈ _MAPEO_ETIQUETAS
  /\ campo_de (_normalizar_etiqueta "Nro. Proceso") = None.
Proof.
  split; [exact normalizar_etiqueta_chars|]. split; [|split; [|split]].
  - intros texto Heq. pose proof (normalizar_etiqueta_chars texto) as Hc.
    rewrite Heq in Hc. by vm_compute in Hc.
  - intros k campo Hin Hne.
    assert (Hall : forallb (fun kv : string * string =>
                     String.eqb kv.1 "nro. proceso"
                     || (String.eqb (_normalizar_etiqueta kv.1) kv.1
                         && bool_decide (campo_de kv.1 = Some kv.2)))
                     _MAPEO_ETIQUETAS = true) by (by vm_compute).
    rewrite forallb_forall in Hall.
    apply list_elem_of_In, Hall in Hin. cbn [fst snd] in Hin.
    apply orb_true_iff in Hin as [Hk|Hk]; [by apply String.eqb_eq in Hk|].
    apply andb_true_iff in Hk as [Hn Hcampo].
    apply String.eqb_eq in Hn. by apply bool_decide_eq_true in Hcampo.
  - apply (bool_decide_unpack _). by vm_compute.
  - by vm_compute.
Qed.

End DetalleEtiquetasSpec.

(** ** api_scraper.py: the dates of a query *)

Module ApiFechasSpec.
Import PyStr Config ApiScraper PyStrFacts.

Lemma split_char_app (c : ascii) (a b : string) :
  contains_char c a = false ->
  split_char c (a +:+ String c b) = a :: split_char c b.
Proof.
  induction a as [|x a IH]; intros Ha.
  - rewrite app_nil_l. simpl. by rewrite Ascii.eqb_refl.
  - rewrite contains_char_cons in Ha. apply orb_false_elim in Ha as [Hx Ha].
    rewrite app_cons. cbn [split_char]. rewrite Ascii.eqb_sym, Hx.
    by rewrite (IH Ha).
Qed.

Lemma append_asociativa (a b c : string) : (a +:+ b) +:+ c = a +:+ (b +:+ c).
Proof. induction a as [|x a IH]; [done|]. by rewrite !app_cons, IH. Qed.

Lemma split_char_fecha (dd mm yyyy : string) :
  contains_char "/" dd = false -> contains_char "/" mm = false ->
  contains_char "/" yyyy = false ->
  split_char "/" (dd +:+ "/" +:+ mm +:+ "/" +:+ yyyy) = [dd; mm; yyyy].
Proof.
  intros Hd Hm Hy.
  change (dd +:+ "/" +:+ mm +:+ "/" +:+ yyyy)
    with (dd +:+ String "/" (mm +:+ String "/" yyyy)).
  by rewrite (split_char_app _ _ _ Hd), (split_char_app _ _ _ Hm),
             (split_char_no_sep _ _ Hy).
Qed.

Lemma cond_fecha_sin_tres (fecha op hora : string) :
  length (split_char "/" fecha) <> 3%nat -> cond_fecha (Some fecha) op hora = [].
Proof.
  intros Hl. unfold cond_fecha. destruct (presente (Some fecha)) as [f|] eqn:Hp; [|done].
  assert (f = fecha) as ->.
  { unfold presente in Hp. destruct (truthy fecha); congruence. }
  by destruct (split_char "/" fecha) as [|p0 [|p1 [|p2 [|p3 l]]]].
Qed.

(** A date is read by its slashes only.  A text of three parts between
    two slashes gives the bound with the parts in the reverse order,
    whatever the parts are; a text that has not exactly two slashes, a
    date written [2025-01-31] for one, is left out of the predicate
    without an error, as if no date had been given. *)
Theorem construir_where_fechas :
  (forall dd mm yyyy,
     contains_char "/" dd = false -> contains_char "/" mm = false ->
     contains_char "/" yyyy = false ->
     _construir_where None None None None
       (Some (dd +:+ "/" +:+ mm +:+ "/" +:+ yyyy))
       (Some (dd +:+ "/" +:+ mm +:+ "/" +:+ yyyy))
     = "fecha_de_inicio_del_contrato >= '" +:+ yyyy +:+ "-" +:+ mm +:+ "-" +:+ dd
       +:+ "T00:00:00' AND fecha_de_inicio_del_contrato <= '" +:+ yyyy +:+ "-"
       +:+ mm +:+ "-" +:+ dd +:+ "T23:59:59'")
  /\ (forall departamento modalidad estado palabra_clave fecha otra,
        length (split_char "/" fecha) <> 3%nat ->
        _construir_where departamento modalidad estado palabra_clave (Some fecha) otra
        = _construir_where departamento modalidad estado palabra_clave None otra
        /\ _construir_where departamento modalidad estado palabra_clave otra (Some fecha)
           = _construir_where departamento modalidad estado palabra_clave otra None)
  /\ _construir_where None None None None (Some "2025-01-31") None = "".
Proof.
  split; [|split; [|done]].
  - intros dd mm yyyy Hd Hm Hy.
    unfold _construir_where, cond_fecha, presente.
    assert (Ht : truthy (dd +:+ "/" +:+ mm +:+ "/" +:+ yyyy) = true).
    { destruct dd; reflexivity. }
    rewrite Ht, (split_char_fecha _ _ _ Hd Hm Hy).
    cbn [cond_departamento cond_modalidad cond_estado cond_palabra_clave presente
         app join comillas].
    unfold comillas. rewrite !append_asociativa. reflexivity.
  - intros d m e k fecha otra Hl. unfold _construir_where.
    by rewrite !(cond_fecha_sin_tres _ _ _ Hl), ?List.app_nil_r.
Qed.

End ApiFechasSpec.

(** ** detail_scraper.py: the historical store at its edges *)

Module HistoricaBordes.
Import PyStr Exceptions Pandas DetailScraper PandasFacts Ejemplos.

Lemma reindex_mismas (d : frame) (r : list cell) :
  NoDup (labels d) -> length r = length (columns d) ->
  reindex (labels d) d r = r.
Proof.
  intros Hnd Hlen. apply list_eq. intros i. unfold reindex.
  rewrite list_lookup_fmap.
  destruct (labels d !! i) as [col|] eqn:Hcol; simpl.
  - unfold positions.
    rewrite (CleaningColumnas.positions_from_unica 0 i col _ Hnd Hcol). simpl.
    assert (Hi : (i < length r)%nat).
    { apply lookup_lt_Some in Hcol. unfold labels in Hcol.
      rewrite length_map in Hcol. lia. }
    destruct (lookup_lt_is_Some_2 r i Hi) as [x Hx]. by rewrite Hx.
  - symmetry. apply lookup_ge_None. apply lookup_ge_None in Hcol.
    unfold labels in Hcol. rewrite length_map in Hcol. lia.
Qed.

Section WithLibrary.
Context `{PyLib}.

(** Without the key column nothing is taken for a duplicate: the result,
    which is what is written back, is the stored rows and then all the new
    rows, also those the store already has. *)
Theorem actualizar_base_historica_sin_clave
    (historica nuevos : frame) (ruta clave : string) (fs : filesystem) :
  fs !! ruta = Some historica ->
  labels historica = labels nuevos -> clave ∉ labels nuevos ->
  exists combinado,
    actualizar_base_historica nuevos ruta clave fs
    = (Ok combinado, guardar ruta combinado fs)
    /\ labels combinado = labels nuevos
    /\ rows combinado = rows historica ++ rows nuevos.
Proof.
  intros Hfs Hlab Hclave.
  unfold actualizar_base_historica. rewrite Hfs. simpl.
  unfold concat. simpl. rewrite bool_decide_eq_true_2 by done. simpl.
  rewrite List.app_nil_r.
  set (c0 := mk_frame _ (rows historica ++ rows nuevos)).
  assert (Hl0 : labels c0 = labels nuevos).
  { unfold labels, c0. simpl. rewrite map_map. simpl. exact Hlab. }
  assert (Hhas : has_column c0 clave = false).
  { unfold has_column. apply bool_decide_eq_false_2. by rewrite Hl0. }
  rewrite Hhas. by exists c0.
Qed.

(** When the file of the store does not exist, the update creates it
    from the new snapshot alone: the labels of the snapshot and its rows,
    each key in its last row, and no key twice. *)
Theorem actualizar_base_historica_sin_archivo
    (nuevos : frame) (ruta clave : string) (fs : filesystem) :
  fs !! ruta = None ->
  NoDup (labels nuevos) -> well_formed nuevos -> clave ∈ labels nuevos ->
  exists combinado,
    actualizar_base_historica nuevos ruta clave fs
    = (Ok combinado, guardar ruta combinado fs)
    /\ guardar ruta combinado fs !! ruta <> None
    /\ labels combinado = labels nuevos
    /\ rows combinado = keep_last (same_on nuevos [clave]) (rows nuevos)
    /\ NoDup (claves combinado clave).
Proof.
  intros Hfs Hnd Hwf Hclave.
  unfold actualizar_base_historica. rewrite Hfs. cbn [default].
  unfold concat.
  assert (Hne : labels nuevos <> labels empty_frame).
  { intros Heq. rewrite Heq in Hclave. by apply elem_of_nil in Hclave. }
  cbn [forallb]. rewrite (bool_decide_eq_false_2 _ Hne). cbn [andb].
  rewrite (bool_decide_eq_true_2 (NoDup (labels empty_frame))) by constructor.
  rewrite (bool_decide_eq_true_2 _ Hnd). cbn [andb].
  assert (Hls : union_labels [empty_frame; nuevos] = labels nuevos).
  { unfold union_labels. simpl. rewrite List.app_nil_r.
    apply keep_first_sin_repetidos; [apply String.eqb_eq|done|done]. }
  rewrite Hls.
  assert (Hrows : flat_map (fun d => map (reindex (labels nuevos) d) (rows d))
                           [empty_frame; nuevos] = rows nuevos).
  { simpl. rewrite List.app_nil_r. rewrite <- (map_id (rows nuevos)) at 2.
    apply map_ext_in. intros r Hr.
    apply reindex_mismas; [done|].
    unfold well_formed in Hwf. rewrite Forall_forall in Hwf.
    by apply Hwf, list_elem_of_In. }
  rewrite Hrows.
  set (c0 := mk_frame _ (rows nuevos)).
  assert (Hl0 : labels c0 = labels nuevos).
  { unfold labels, c0. simpl. rewrite map_map. simpl. by rewrite map_id. }
  assert (Hhas : has_column c0 clave = true).
  { unfold has_column. apply bool_decide_eq_true_2. by rewrite Hl0. }
  rewrite Hhas.
  exists (drop_duplicates_last clave c0).
  split; [done|]. split; [unfold guardar; by rewrite lookup_insert_eq|].
  split; [exact Hl0|].
  set (key := project nuevos [clave]).
  assert (Hsame : forall x y, same_on c0 [clave] x y = same_key key x y).
  { intros x y. rewrite (same_on_labels c0 nuevos) by done. by apply same_on_key. }
  assert (Hsame' : forall x y, same_on nuevos [clave] x y = same_key key x y).
  { intros x y. by apply same_on_key. }
  split.
  - unfold drop_duplicates_last. simpl.
    by rewrite (keep_last_ext _ _ _ Hsame), (keep_last_ext _ _ _ Hsame').
  - unfold claves.
    rewrite (map_ext _ key) by (intros; by apply project_labels).
    unfold drop_duplicates_last. simpl. rewrite (keep_last_ext _ _ _ Hsame).
    apply (keep_last_NoDup key).
Qed.

End WithLibrary.

Lemma actualizar_base_historica_sin_clave_witness :
  fst (@actualizar_base_historica lib_ejemplo nuevos_ejemplo "historica.csv"
         "nit" {[ "historica.csv" := historica_ejemplo ]})
  = Ok (mk_frame (columns historica_ejemplo)
                 (rows historica_ejemplo ++ rows nuevos_ejemplo)).
Proof.
  destruct (@actualizar_base_historica_sin_clave lib_ejemplo
              historica_ejemplo nuevos_ejemplo "historica.csv" "nit"
              {[ "historica.csv" := historica_ejemplo ]})
    as (combinado & Hrun & _ & _).
  - apply lookup_singleton_eq.
  - reflexivity.
  - apply (bool_decide_unpack _). by vm_compute.
  - reflexivity.
Defined.

Lemma actualizar_base_historica_sin_archivo_witness :
  exists combinado,
    fst (@actualizar_base_historica lib_ejemplo nuevos_ejemplo "historica.csv"
           "numero_proceso" ∅) = Ok combinado
    /\ rows combinado = rows nuevos_ejemplo
    /\ NoDup (claves combinado "numero_proceso").
Proof.
  destruct (@actualizar_base_historica_sin_archivo lib_ejemplo
              nuevos_ejemplo "historica.csv" "numero_proceso" ∅)
    as (combinado & Hrun & _ & _ & Hrows & Hnd).
  - apply lookup_empty.
  - apply (bool_decide_unpack _). by vm_compute.
  - repeat constructor.
  - apply (bool_decide_unpack _). by vm_compute.
  - exists combinado. rewrite Hrun. split; [reflexivity|]. split; [|exact Hnd].
    rewrite Hrows. by vm_compute.
Defined.

End HistoricaBordes.

(** ** scraper.py: the pages of results *)

Module ScraperPaginasSpec.
Import PyStr Exceptions DetalleNavegacion ScraperPaginas.

Lemma clics_en_app (p : nat) (a b : list paso_pagina) :
  clics_en p (a ++ b) = (clics_en p a + clics_en p b)%nat.
Proof. unfold clics_en. by rewrite List.filter_app, length_app. Qed.

Lemma paginas_dejadas_app (a b : list paso_pagina) :
  paginas_dejadas (a ++ b) = paginas_dejadas a ++ paginas_dejadas b.
Proof. apply omap_app. Qed.

(** The attempts to leave one page. *)
Lemma avanzar_pasos (nav : navegador_paginas) (p : nat) (intentos : list nat) :
  (forall q, clics_en q (avanzar nav p intentos).1
             <= (if Nat.eqb p q then length intentos else 0))%nat
  /\ paginas_dejadas (avanzar nav p intentos).1
     = match (avanzar nav p intentos).2 with Ok true => [p] | _ => [] end.
Proof.
  induction intentos as [|i l [IH1 IH2]]; [by split; [intros q; destruct (p =? q)%nat|]|].
  cbn [avanzar]. destruct (_ir_pagina_siguiente nav p i) as [[|]|exc].
  - split; [|done]. intros q. unfold clics_en. simpl.
    destruct (p =? q)%nat; simpl; lia.
  - destruct (avanzar nav p l) as [pasos r]. cbn [fst snd] in *. split; [|done].
    intros q. specialize (IH1 q). unfold clics_en in *. simpl.
    destruct (p =? q)%nat; simpl; lia.
  - split; [|done]. intros q. unfold clics_en. simpl. destruct (p =? q)%nat; lia.
Qed.

Lemma recopilar_pasos (nav : navegador_paginas) (restantes : nat) :
  forall (p : nat) (acc : list string) (pasos : list paso_pagina)
         (paginas : list string),
  recopilar nav restantes p acc = (pasos, Ok paginas) ->
  exists nuevas,
    paginas = acc ++ nuevas
    /\ (length nuevas <= restantes)%nat
    /\ (restantes <> 0%nat -> nuevas <> [])
    /\ (forall i html, nuevas !! i = Some html ->
          page_source nav (p + i)%nat = Ok html)
    /\ (paginas_dejadas pasos = seq p (length nuevas - 1)
        \/ (nuevas <> [] /\ paginas_dejadas pasos = seq p (length nuevas)))
    /\ (forall q, (clics_en q pasos <= MAX_RETRIES)%nat
                  /\ ((q < p)%nat -> clics_en q pasos = 0%nat)).
Proof.
  induction restantes as [|rest IH]; intros p acc pasos paginas Hrun.
  - simpl in Hrun. injection Hrun as <- <-. exists []. rewrite app_nil_r.
    split; [done|]. split; [done|]. split; [done|]. split; [done|].
    split; [by left|]. intros q; unfold clics_en, MAX_RETRIES; simpl; split; [lia|done].
  - cbn [recopilar] in Hrun.
    destruct (page_source nav p) as [html|exc] eqn:Hsrc; [|done].
    assert (Huna : forall i h, [html] !! i = Some h ->
                     page_source nav (p + i)%nat = Ok h).
    { intros [|i] h Hi; [|done]. injection Hi as <-. by rewrite Nat.add_0_r. }
    pose proof (avanzar_pasos nav p (seq 1 MAX_RETRIES)) as [Hclics Hdej].
    destruct (_hay_pagina_siguiente nav p) as [[|]|exc]; [| |done].
    2:{ injection Hrun as <- <-. exists [html].
        split; [done|]. split; [simpl; lia|]. split; [done|]. split; [done|].
        split; [by left|]. intros q; unfold clics_en, MAX_RETRIES; simpl; split; [lia|done]. }
    destruct (avanzar nav p (seq 1 MAX_RETRIES)) as [pasos0 [[|]|exc]];
      cbn [fst snd] in Hclics, Hdej; [| |done].
    2:{ injection Hrun as <- <-. exists [html].
        split; [done|]. split; [simpl; lia|]. split; [done|]. split; [done|].
        split; [left; simpl; by rewrite Hdej|].
        intros q. specialize (Hclics q). change (clics_en q (Capturada p :: pasos0))
          with (clics_en q pasos0).
        destruct (p =? q)%nat eqn:Hpq.
        - apply Nat.eqb_eq in Hpq as ->. split; [done|lia].
        - split; lia. }
    assert (Hq : forall q, (clics_en q (Capturada p :: pasos0) <= MAX_RETRIES)%nat
                           /\ ((q < p)%nat -> clics_en q (Capturada p :: pasos0) = 0%nat)).
    { intros q. specialize (Hclics q). change (clics_en q (Capturada p :: pasos0))
        with (clics_en q pasos0).
      destruct (p =? q)%nat eqn:Hpq.
      - apply Nat.eqb_eq in Hpq as ->. split; [done|lia].
      - split; lia. }
    assert (Hq0 : forall q, (q <> p) -> clics_en q (Capturada p :: pasos0) = 0%nat).
    { intros q Hne. specialize (Hclics q). change (clics_en q (Capturada p :: pasos0))
        with (clics_en q pasos0).
      destruct (p =? q)%nat eqn:Hpq; [apply Nat.eqb_eq in Hpq; congruence|lia]. }
    destruct (manejar_recaptcha nav (S p)) as [exc|].
    { destruct (isinstance exc SecopRecaptchaError); [|done].
      injection Hrun as <- <-. exists [html].
      split; [done|]. split; [simpl; lia|]. split; [done|]. split; [done|].
      split; [right; split; [done|]; simpl; by rewrite Hdej|]. done. }
    destruct (recopilar nav rest (S p) (acc ++ [html])) as [pasos' r'] eqn:Hrec.
    injection Hrun as <- ->.
    destruct (IH _ _ _ _ Hrec) as (nuevas & -> & Hlen & Hne & Hsrcs & Hdej' & Hq').
    exists (html :: nuevas).
    split; [by rewrite <- app_assoc|]. split; [simpl; lia|]. split; [done|].
    split; [|split].
    + intros [|i] h Hi.
      * injection Hi as <-. by rewrite Nat.add_0_r.
      * simpl in Hi. replace (p + S i)%nat with (S p + i)%nat by lia. by apply Hsrcs.
    + change (Capturada p :: pasos0 ++ pasos') with ((Capturada p :: pasos0) ++ pasos').
      rewrite paginas_dejadas_app.
      change (paginas_dejadas (Capturada p :: pasos0)) with (paginas_dejadas pasos0).
      rewrite Hdej. cbn [length].
      destruct Hdej' as [Hd|[Hnn Hd]]; rewrite Hd.
      * destruct nuevas as [|h nuevas'].
        -- (* the turns are used up *) right. split; [done|]. reflexivity.
        -- left. simpl. rewrite ?Nat.sub_0_r. reflexivity.
      * right. split; [done|]. reflexivity.
    + intros q.
      change (Capturada p :: pasos0 ++ pasos') with ((Capturada p :: pasos0) ++ pasos').
      rewrite clics_en_app. destruct (Hq q) as [Hq1 Hq2]. destruct (Hq' q) as [Hq1' Hq2'].
      destruct (decide (q = p)) as [->|Hne'].
      * rewrite Hq2' by lia. split; lia.
      * rewrite (Hq0 q Hne'). split; [simpl; lia|]. intros Hlt. rewrite Hq2' by lia. done.
Qed.

(** When [recopilar_html_paginas] returns, it has read at most
    [max_pages] pages, and at least one if [max_pages] is 1 or more: the
    pages 1, 2, ... of the results in their order, each as the browser
    showed it.  It has tried at most [MAX_RETRIES] clicks on the link of a
    page.  It has left by a click every page it read but the last, and
    sometimes the last one too: the browser is then on a page that is not
    in the list. *)
Theorem recopilar_html_paginas_limite (nav : navegador_paginas) (max_pages : Z)
    (pasos : list paso_pagina) (paginas : list string) :
  recopilar_html_paginas nav max_pages = (pasos, Ok paginas) ->
  (length paginas <= Z.to_nat max_pages)%nat
  /\ ((0 < max_pages)%Z -> paginas <> [])
  /\ (forall i html, paginas !! i = Some html -> page_source nav (S i) = Ok html)
  /\ (paginas_dejadas pasos = seq 1 (length paginas - 1)
      \/ (paginas <> [] /\ paginas_dejadas pasos = seq 1 (length paginas)))
  /\ (forall p, (clics_en p pasos <= MAX_RETRIES)%nat).
Proof.
  unfold recopilar_html_paginas. intros Hrun.
  destruct (recopilar_pasos nav _ _ _ _ _ Hrun)
    as (nuevas & -> & Hlen & Hne & Hsrcs & Hdej & Hq).
  rewrite app_nil_l. split; [done|]. split; [intros Hmax; apply Hne; lia|].
  split; [exact Hsrcs|]. split; [done|]. intros p. by destruct (Hq p).
Qed.

Lemma recopilar_html_paginas_limite_witness :
  recopilar_html_paginas EjemplosPaginas.portal_sin_fin 2
  = ([Capturada 1; Clic 1 1 true; Capturada 2; Clic 2 1 true],
     Ok ["pagina 1"; "pagina 2"])
  /\ (length ["pagina 1"; "pagina 2"] <= Z.to_nat 2)%nat
  /\ (paginas_dejadas [Capturada 1; Clic 1 1 true; Capturada 2; Clic 2 1 true]
      = seq 1 (2 - 1)
      \/ (["pagina 1"; "pagina 2"] <> []
          /\ paginas_dejadas [Capturada 1; Clic 1 1 true; Capturada 2; Clic 2 1 true]
             = seq 1 2)).
Proof.
  assert (Hrun : recopilar_html_paginas EjemplosPaginas.portal_sin_fin 2
                 = ([Capturada 1; Clic 1 1 true; Capturada 2; Clic 2 1 true],
                    Ok ["pagina 1"; "pagina 2"])) by (by vm_compute).
  split; [exact Hrun|].
  destruct (recopilar_html_paginas_limite EjemplosPaginas.portal_sin_fin 2 _ _ Hrun)
    as (Hlen & _ & _ & Hdej & _).
  split; [exact Hlen|exact Hdej].
Defined.

End ScraperPaginasSpec.

(** ** scraper.py: the count of the results *)

Module ScraperResultadosSpec.
Import PyStr PyFloat Exceptions ScraperPaginas ScraperResultados.

Lemma all_chars_con_otro (p : ascii -> bool) (s : string) :
  has_char (fun c => negb (p c)) s = true -> all_chars p s = false.
Proof.
  induction s as [|c r IH]; [done|]. simpl.
  destruct (p c); simpl; [exact IH|done].
Qed.

(** When the counter of the results is on the page, nothing else is
    looked at.  Its text, without the white space around it and without
    dots and commas, is read as a number only if it is made of digits
    alone: then the number is returned, unless it is 0.  In every other
    case ([Total: 25] or [1.234 registros], or no text at all) the
    function raises the [SecopEmptyTableError] of a query without records,
    as it does for the number 0. *)
Theorem verificar_resultados_total (pg : pagina_resultados) (text : string) :
  buscar_total pg = None -> texto_total pg = inr text ->
  all_chars es_ascii text = true ->
  (String.length (remove_char "," (remove_char "." (strip text))) <= MAX_STR_DIGITS)%nat ->
  (has_char (fun c => negb (is_digit c))
            (remove_char "," (remove_char "." (strip text))) = true
   \/ remove_char "," (remove_char "." (strip text)) = "" ->
   verificar_resultados pg
   = SinResultados "La consulta retornó 0 registros." (current_url pg))
  /\ (isdigit (remove_char "," (remove_char "." (strip text))) = true ->
      verificar_resultados pg
      = if (Z.of_N (read_digits 0 0
                      (remove_char "," (remove_char "." (strip text)))).1.1 =? 0)%Z
        then SinResultados "La consulta retornó 0 registros." (current_url pg)
        else Total (Z.of_N (read_digits 0 0
                              (remove_char "," (remove_char "." (strip text)))).1.1)).
Proof.
  intros Hbuscar Htexto _ Hlen.
  set (texto := remove_char "," (remove_char "." (strip text))) in *.
  unfold verificar_resultados, leer_total. rewrite Hbuscar, Htexto. fold texto.
  split.
  - intros Hmal.
    assert (Hno : isdigit texto = false).
    { unfold isdigit. destruct Hmal as [Hotro| ->]; [|done].
      by rewrite (all_chars_con_otro _ _ Hotro), andb_false_r. }
    by rewrite Hno.
  - intros Hsi. rewrite Hsi. unfold int_de.
    rewrite (proj2 (Nat.ltb_ge _ _) Hlen).
    by destruct (_ =? 0)%Z.
Qed.

Lemma verificar_resultados_total_witness :
  all_chars es_ascii " Total: 25 " = true
  /\ verificar_resultados EjemplosResultados.pagina_total_25
     = SinResultados "La consulta retornó 0 registros."
         "https://www.contratos.gov.co/consultas/resultados".
Proof.
  split; [reflexivity|].
  destruct (verificar_resultados_total EjemplosResultados.pagina_total_25 " Total: 25 ")
    as [Hmal _];
    [reflexivity|reflexivity|reflexivity|apply Nat.leb_le; by vm_compute|].
  apply Hmal. left. reflexivity.
Defined.

End ScraperResultadosSpec.

(** ** cleaning.py: every function returns a new frame *)

Module CleaningMarcos.
Import PyStr PyFloat Exceptions Pandas Heap Config Cleaning CleaningBiblioteca.
Import HeapFacts CleaningFacts CurrencySpec CleaningSpec CleaningColumnas.




Section WithLibrary.
Context `{PyLib}.






End WithLibrary.


End CleaningMarcos.
